(** * Token benchmark and error-detection harness: a shallow embedding

    The development follows the Python sources

    - [token_benchmarks/token_benchmark_terraform.py]
      ([TokenCounter], [TerraformTokenBenchmark]),
    - [ab_tests/error_detection_test.py] ([ErrorDetectionTester]),
    - [ab_tests/comprehensive_ab_test.py] ([TerraformABTester], [ABTests]),
    - [run_all_tests.py] ([RunAllTests]).

    Conventions.  A Python [str] is a [string] whose characters are code
    points below 256.  A Python [int] is a [Z] (or a [nat] for a [len]).  A
    Python [float] is a rational [Qc]: the operations on floats are read
    exactly, without the rounding of binary64.  For the token estimate,
    whose result is an integer, [Binary64] repeats the arithmetic on machine
    floats and the two are compared below.  A file system is a finite map
    from path strings to files.  An exception is a value of [Exn]; code that
    may raise returns [Exn + A].  The semantic service, the making of its
    agent and the refusals of the operating system are parameters of a run.
    Console output is not modelled. *)

From Stdlib Require Import ZArith QArith Qround Qcanon Ascii String.
From Stdlib Require Floats Uint63.
From stdpp Require Import base numbers option list strings gmap pretty.

Local Open Scope Z_scope.

(** ** Python strings *)

Module PyStr.

(** [str.isspace] on one character, for code points below 256: the ASCII
    white space [\t \n \v \f \r], the separators [\x1c .. \x1f], the blank,
    NEXT LINE [\x85] and NO-BREAK SPACE [\xa0].  The class [\s] of [re] on a
    [str] pattern is the same set. *)
Definition isspace (c : ascii) : bool :=
  let n := nat_of_ascii c in
  ((9 <=? n) && (n <=? 13) || (28 <=? n) && (n <=? 32)
   || (n =? 133) || (n =? 160))%nat.

(** [s.lstrip()] *)
Fixpoint lstrip (s : string) : string :=
  match s with
  | EmptyString => EmptyString
  | String c s' => if isspace c then lstrip s' else s
  end.

(** [s.rstrip()] *)
Fixpoint rstrip (s : string) : string :=
  match s with
  | EmptyString => EmptyString
  | String c s' =>
      match rstrip s' with
      | EmptyString => if isspace c then EmptyString else String c EmptyString
      | r => String c r
      end
  end.

(** [s.strip()]: white space is removed at both ends. *)
Definition strip (s : string) : string := rstrip (lstrip s).

(** [re.sub(r'\s+', ' ', s)]: every maximal run of white space becomes one
    blank.  [in_run] tells that the previous character was white space, so
    that the blank of the current run is already written. *)
Fixpoint sub_runs (in_run : bool) (s : string) : string :=
  match s with
  | EmptyString => EmptyString
  | String c s' =>
      if isspace c
      then if in_run then sub_runs true s' else String " " (sub_runs true s')
      else String c (sub_runs false s')
  end.

Definition re_sub_spaces (s : string) : string := sub_runs false s.

(** The character class of the [re.findall] of line 77, by code point: the
    braces, parentheses and brackets, the dot, comma, semicolon and colon,
    the three quote characters, and [= + - * / \ < > ! @ # $ % ^ & | ~].
    That is all ASCII punctuation except the question mark and the
    underscore. *)
Definition is_special (c : ascii) : bool :=
  let n := nat_of_ascii c in
  ((33 <=? n) && (n <=? 47) || (58 <=? n) && (n <=? 62) || (n =? 64)
   || (91 <=? n) && (n <=? 94) || (n =? 96)
   || (123 <=? n) && (n <=? 126))%nat.

(** [len(re.findall(class, s))]: the class matches one character at a time,
    so the number of matches is the number of characters in the class. *)
Fixpoint count_special (s : string) : nat :=
  match s with
  | EmptyString => 0%nat
  | String c s' => ((if is_special c then 1 else 0) + count_special s')%nat
  end.

(** [re.sub(r'\s+', ' ', s.strip())] in one pass.  [started] tells that a
    character other than white space was written, [pending] that white
    space was read since.  A pending blank is written only in front of the
    next character, so neither a leading nor a trailing run leaves one.
    [strip_sub_one_pass] below proves that this is the composition. *)
Fixpoint one_pass (started pending : bool) (s : string) : string :=
  match s with
  | EmptyString => EmptyString
  | String c s' =>
      if isspace c then one_pass started started s'
      else if pending then String " " (String c (one_pass true false s'))
      else String c (one_pass true false s')
  end.

(** [pat in s] *)
Fixpoint contains (pat s : string) : bool :=
  String.prefix pat s
  || match s with
     | EmptyString => false
     | String _ s' => contains pat s'
     end.

(** [s.endswith(suf)] *)
Definition endswith (s suf : string) : bool :=
  String.prefix (String.rev suf) (String.rev s).

End PyStr.

(** ** Python numbers *)

(** [int(x)] of a float: truncation towards zero. *)
Definition py_int (x : Qc) : Z := Z.quot (Qnum x) (Zpos (Qden x)).

(** [a / b] of two ints is a float; the callers guard [b <> 0]. *)
Definition py_div (a b : Z) : Qc := (Qc_of_Z a / Qc_of_Z b)%Qc.

(** ** TokenCounter *)

Module TokenCounter.

(** The text after [re.sub(r'\s+', ' ', text.strip())]. *)
Definition cleaned (text : string) : string :=
  PyStr.re_sub_spaces (PyStr.strip text).

(** [TokenCounter.estimate_tokens], lines 59-80.  [text] is never [None]
    in the callers; [estimate_tokens_opt] below covers an absent text. *)
Definition estimate_tokens (text : string) : Z :=
  match text with
  | EmptyString => 0
  | _ =>
      let cleaned := cleaned text in
      let base_tokens := py_div (Z.of_nat (String.length cleaned)) 4 in
      let special_chars := PyStr.count_special cleaned in
      let special_tokens :=
        (Qc_of_Z (Z.of_nat special_chars) * Q2Qc (3 # 10))%Qc in
      py_int (base_tokens + special_tokens)%Qc
  end.

(** [if not text: return 0] also takes [None]. *)
Definition estimate_tokens_opt (text : option string) : Z :=
  match text with
  | None => 0
  | Some t => estimate_tokens t
  end.

(** The estimate as the specification words it: white-space runs become
    single blanks (nothing is said of the ends of the text), a quarter per
    character, 0.3 per special character, truncated. *)
Definition estimate_spec (text : string) : Z :=
  match text with
  | EmptyString => 0
  | _ =>
      let normalized := PyStr.re_sub_spaces text in
      py_int (py_div (Z.of_nat (String.length normalized)) 4
              + Qc_of_Z (Z.of_nat (PyStr.count_special normalized))
                * Q2Qc (3 # 10))%Qc
  end.

(** [TokenCounter.count_operation_tokens], lines 82-88. *)
Definition count_operation_tokens (input_content output_content : string)
  : Z * Z * Z :=
  let input_tokens := estimate_tokens input_content in
  let output_tokens := estimate_tokens output_content in
  let total_tokens := input_tokens + output_tokens in
  (input_tokens, output_tokens, total_tokens).

End TokenCounter.

(** ** The arithmetic of the estimate in binary64 *)

Module Binary64.

Import Floats.PrimFloat.

(** [float(n)] of a small [int]. *)
Definition of_int (n : Z) : float := of_uint63 (Uint63.of_Z n).

(** [int(x)] of a finite float: the mantissa, scaled, with the sign. *)
Definition to_int (x : float) : Z :=
  match FloatOps.Prim2SF x with
  | SpecFloat.S754_finite sign m e =>
      let v := match e with
               | Zneg p => Z.pos m / 2 ^ Z.pos p
               | _ => Z.pos m * 2 ^ e
               end in
      if sign then - v else v
  | _ => 0
  end.

(** Lines 74-80 on [len(cleaned)] and [special_chars]; the literal [0.3] is
    the binary64 value nearest to it. *)
Definition estimate (length special_chars : Z) : Z :=
  let base_tokens := (of_int length / 4)%float in
  let special_tokens :=
    (of_int special_chars * 0x1.3333333333333p-2)%float in
  to_int (base_tokens + special_tokens)%float.

Definition estimate_tokens (text : string) : Z :=
  match text with
  | EmptyString => 0
  | _ =>
      estimate
        (Z.of_nat (String.length (TokenCounter.cleaned text)))
        (Z.of_nat (PyStr.count_special (TokenCounter.cleaned text)))
  end.

(** The pairs [(n, c)] with [c <= n < bound]: a text has no more special
    characters than characters. *)
Definition triangle (bound : nat) : list (Z * Z) :=
  flat_map (fun n => map (fun c => (Z.of_nat n, Z.of_nat c)) (seq 0 (S n)))
           (seq 0 bound).

(** Large pairs whose exact sum is a whole number, where a rounding error
    would show in the truncation. *)
Definition whole_sums (count : nat) : list (Z * Z) :=
  map (fun i => (4 * Z.of_nat i * 1009, 10 * Z.of_nat i * 101)) (seq 0 count).

End Binary64.

(** ** Formatting *)

Module PyFmt.

(** The line feed, which a Rocq string literal cannot escape. *)
Definition nl : string := String (ascii_of_nat 10) EmptyString.

(** The double quote, likewise. *)
Definition dq : string := String (ascii_of_nat 34) EmptyString.

Definition quoted (s : string) : string := dq +:+ s +:+ dq.

(** A text given by its lines, each ended by a line feed. *)
Definition lines (ls : list string) : string :=
  foldr (fun l acc => l +:+ nl +:+ acc) EmptyString ls.

Definition hex_digit (n : nat) : ascii :=
  ascii_of_nat (if (n <? 10)%nat then 48 + n else 87 + n).

Definition has_char (c : ascii) (s : string) : bool :=
  existsb (Ascii.eqb c) (list_ascii_of_string s).

(** One character of [repr(s)] inside the quote [q]. *)
Definition repr_char (q c : ascii) : string :=
  let n := nat_of_ascii c in
  if (n =? 92)%nat then "\\"
  else if Ascii.eqb c q then String "\" (String c EmptyString)
  else if (n =? 10)%nat then "\n"
  else if (n =? 13)%nat then "\r"
  else if (n =? 9)%nat then "\t"
  else if ((n <? 32) || (127 <=? n) && (n <=? 160) || (n =? 173))%nat
  then "\x" +:+ String (hex_digit (n / 16))
                 (String (hex_digit (n mod 16)) EmptyString)
  else String c EmptyString.

(** [repr(s)] of a [str]: single quotes, unless [s] has a single quote and
    no double quote. *)
Definition repr_str (s : string) : string :=
  let q := if has_char "'" s && negb (has_char (ascii_of_nat 34) s)
           then ascii_of_nat 34 else "'"%char in
  String q (foldr (fun c acc => repr_char q c +:+ acc)
                  (String q EmptyString) (list_ascii_of_string s)).

Fixpoint join (sep : string) (l : list string) : string :=
  match l with
  | [] => EmptyString
  | [x] => x
  | x :: rest => x +:+ sep +:+ join sep rest
  end.

(** [str(l)] of a list of [str], as an f-string prints it. *)
Definition repr_list (l : list string) : string :=
  "[" +:+ join ", " (map repr_str l) +:+ "]".

(** [str(n)] of a [len]. *)
Definition str_nat (n : nat) : string := pretty n.

End PyFmt.

(** ** Exceptions, files and the clock *)

(** The exceptions the sources tell apart: [FileNotFoundError] has a
    handler of its own, [ZeroDivisionError] comes from [/], and [Exception]
    stands for any other one.  The argument is [str(e)]. *)
Inductive Exn : Type :=
  | FileNotFoundError (msg : string)
  | ZeroDivisionError (msg : string)
  | Exception (msg : string).

Definition str_exn (e : Exn) : string :=
  match e with
  | FileNotFoundError msg | ZeroDivisionError msg | Exception msg => msg
  end.

(** [a / b] where the source has no guard. *)
Definition py_truediv (a b : Z) : Exn + Qc :=
  if b =? 0 then inl (ZeroDivisionError "division by zero")
  else inr (py_div a b).

(** A path either holds a text that can be read, or something [open] or
    [read] raise on with the given message (a directory, a file without
    permission, bytes that do not decode). *)
Inductive File : Type :=
  | Readable (content : string)
  | Unreadable (msg : string).

(** The world of a run: the files by path, the directories that exist, and
    the wall clock as the sequence of the values [time.time()] returns, with
    the number of readings taken so far. *)
Record World : Type := mkWorld {
  fs : gmap string File;
  dirs : gset string;
  clock : nat -> Qc;
  readings : nat
}.

Definition set_fs (f : gmap string File -> gmap string File) (w : World)
  : World :=
  mkWorld (f (fs w)) (dirs w) (clock w) (readings w).

(** The external semantic service: [FindSymbolTool.apply_ex(name_path=_,
    substring_matching=_)] and [SearchForPatternTool.apply_ex(pattern=_,
    file_pattern=_)] return a text or raise; what they answer may depend on
    the world.  [json_loads] is [json.loads] restricted to what the service
    serialises, a list of symbol descriptors. *)
Record Agent : Type := mkAgent {
  find_symbol : World -> string -> bool -> Exn + string;
  search_pattern : World -> string -> string -> Exn + string;
  json_loads : string -> Exn + list string
}.

(** [SerenaAgent(project=_, serena_config=_)] followed by
    [agent.get_tool(_)]: the agent with its tools, or the exception that one
    of the two calls raises.  The functions that make the two calls do not
    guard them. *)
Definition AgentFactory : Type := World -> Exn + Agent.

(** State passing, for code that reads the clock and writes files. *)
Definition State (A : Type) : Type := World -> A * World.

Definition ret {A} (a : A) : State A := fun w => (a, w).

Definition bind {A B} (m : State A) (k : A -> State B) : State B :=
  fun w => let '(a, w') := m w in k a w'.

Notation "x <- m ;; k" := (bind m (fun x => k))
  (at level 100, m at next level, right associativity, only parsing).
Notation "m ;;; k" := (bind m (fun _ => k))
  (at level 100, right associativity, only parsing).

Definition get_world : State World := fun w => (w, w).

(** [time.time()] *)
Definition time_time : State Qc :=
  fun w => (clock w (readings w),
            mkWorld (fs w) (dirs w) (clock w) (S (readings w))).

(** [for x in l: results.append(f(x))] *)
Fixpoint for_each {A B} (f : A -> State B) (l : list A) : State (list B) :=
  match l with
  | [] => ret []
  | x :: rest => b <- f x ;; bs <- for_each f rest ;; ret (b :: bs)
  end.

(** [os.makedirs(path, exist_ok=True)], as far as the sources depend on it:
    afterwards [path] is a directory.  The directories made on the way to
    it are not recorded. *)
Definition makedirs (path : string) : State unit :=
  fun w => (tt, mkWorld (fs w) ({[path]} ∪ dirs w) (clock w) (readings w)).

(** [with open(path, "w") as f: f.write(content)], in a directory that was
    just made: the file is created or replaced. *)
Definition write_file (path content : string) : State unit :=
  fun w => (tt, set_fs <[path := Readable content]> w).

(** The operating system may refuse to make a directory or to open a file
    for writing.  Where the source lets such an exception through, the step
    is run under [attempt]: [refused w] is the exception raised in the world
    [w], if any, and is a parameter of the run like the answers of the
    service.  What a refused step wrote before the refusal is not modelled:
    it leaves the world as it was. *)
Definition attempt (refused : World -> option Exn) (step : State unit)
  : State (Exn + unit) :=
  fun w => match refused w with
           | Some e => (inl e, w)
           | None => (inr tt, (step w).2)
           end.

(** [with open(path, "r") as f: f.read()] *)
Definition read_file (w : World) (path : string) : Exn + string :=
  match fs w !! path with
  | None =>
      inl (FileNotFoundError
             ("[Errno 2] No such file or directory: " +:+ PyFmt.repr_str path))
  | Some (Unreadable msg) => inl (Exception msg)
  | Some (Readable content) => inr content
  end.

(** [os.path.join(d, name)] for a directory without a final slash and a
    relative name, and [f"{d}/{name}"]. *)
Definition path_join (d name : string) : string := d +:+ "/" +:+ name.

(** ** The token benchmark (token_benchmark_terraform.py) *)

Module TerraformTokenBenchmark.

(** [class TokenUsage], lines 31-42. *)
Record TokenUsage : Type := mkTokenUsage {
  operation : string;
  method : string;
  input_tokens : Z;
  output_tokens : Z;
  total_tokens : Z;
  content_length : nat;
  efficiency_ratio : Qc;
  success : bool;
  execution_time : Qc
}.

(** [class BenchmarkResult], lines 45-53. *)
Record BenchmarkResult : Type := mkBenchmarkResult {
  scenario : string;
  lsp_usage : TokenUsage;
  non_lsp_usage : TokenUsage;
  token_savings : Z;
  efficiency_improvement : Qc;
  context_reduction : Qc
}.

(** One entry of the [scenarios] list of [run_benchmark_scenarios]: the
    [lsp_func] lambda is [find_symbol_tool.apply_ex(name_path=_,
    substring_matching=True)] and is kept by its [name_path]. *)
Record Scenario : Type := mkScenario {
  name : string;
  name_path : string;
  non_lsp_files : list string
}.

Definition lsp_func (agent : Agent) (s : Scenario) (w : World) : Exn + string :=
  find_symbol agent w (name_path s) true.

(** Lines 929-980. *)
Definition scenarios : list Scenario :=
  [ mkScenario "Find all VPC resources" "aws_vpc" ["main.tf"];
    mkScenario "Find all security groups" "security_group" ["main.tf"];
    mkScenario "Find all variables" "variable" ["variables.tf"];
    mkScenario "Find all outputs" "output" ["outputs.tf"];
    mkScenario "Find database-related resources" "db"
      ["main.tf"; "variables.tf"; "outputs.tf"];
    mkScenario "Find load balancer configuration" "aws_lb"
      ["main.tf"; "outputs.tf"];
    mkScenario "Find all AWS instances" "aws_instance" ["main.tf"];
    mkScenario "Find Auto Scaling configuration" "autoscaling"
      ["main.tf"; "variables.tf"; "outputs.tf"];
    mkScenario "Find provider configuration" "provider" ["main.tf"];
    mkScenario "Find terraform blocks" "terraform" ["main.tf"] ].

(** The text of [user_data.sh], lines 802-809. *)
Definition user_data_sh : string :=
  PyFmt.lines
    [ "#!/bin/bash";
      "yum update -y";
      "yum install -y httpd";
      "systemctl start httpd";
      "systemctl enable httpd";
      "echo " +:+ PyFmt.quoted "<h1>Hello from ${project_name}</h1>"
        +:+ " > /var/www/html/index.html";
      "echo "
        +:+ PyFmt.quoted
              ("<p>Instance: $(curl -s "
                 +:+ "http://169.254.169.254/latest/meta-data/instance-id)</p>")
        +:+ " >> /var/www/html/index.html" ].

Section Benchmark.

(** [self.workspace_path], and the three literal HCL texts of lines 103-788,
    which enter the benchmark only as the contents of the files. *)
Variable workspace_path : string.
Variables main_tf variables_tf outputs_tf : string.

(** [create_realistic_terraform_project], lines 99-809. *)
Definition create_realistic_terraform_project : State unit :=
  makedirs workspace_path ;;;
  write_file (path_join workspace_path "main.tf") main_tf ;;;
  write_file (path_join workspace_path "variables.tf") variables_tf ;;;
  write_file (path_join workspace_path "outputs.tf") outputs_tf ;;;
  write_file (path_join workspace_path "user_data.sh") user_data_sh.

(** [benchmark_lsp_operation], lines 837-873.  The one call, line 990,
    passes no further argument, so [kwargs] is the empty dict and prints as
    a pair of braces.  The [try] covers the call and the count. *)
Definition benchmark_lsp_operation (operation_name : string)
    (lsp_func : World -> Exn + string) : State TokenUsage :=
  start_time <- time_time ;;
  w <- get_world ;;
  let '(result, success, input_context) :=
    match lsp_func w with
    | inr result =>
        (result, true,
         "Task: " +:+ operation_name +:+ PyFmt.nl
           +:+ "Using LSP semantic search" +:+ PyFmt.nl +:+ "Parameters: {}")
    | inl e =>
        ("Error: " +:+ str_exn e, false,
         "Task: " +:+ operation_name +:+ PyFmt.nl +:+ "Failed operation")
    end in
  let '(input_tokens, output_tokens, total_tokens) :=
    TokenCounter.count_operation_tokens input_context result in
  end_time <- time_time ;;
  let execution_time := (end_time - start_time)%Qc in
  ret {| operation := operation_name;
         method := "LSP";
         input_tokens := input_tokens;
         output_tokens := output_tokens;
         total_tokens := total_tokens;
         content_length := String.length result;
         efficiency_ratio :=
           py_div total_tokens (Z.max (Z.of_nat (String.length result)) 1);
         success := success;
         execution_time := execution_time |}.

(** The loop of lines 881-888: a file that is not found is passed over,
    any other exception leaves the loop. *)
Fixpoint read_files (w : World) (files_to_read : list string)
    (all_content : string) : Exn + string :=
  match files_to_read with
  | [] => inr all_content
  | file_path :: rest =>
      match read_file w (path_join workspace_path file_path) with
      | inr content =>
          read_files w rest
            (all_content +:+ PyFmt.nl +:+ "# File: " +:+ file_path +:+ PyFmt.nl
               +:+ content +:+ PyFmt.nl)
      | inl (FileNotFoundError _) => read_files w rest all_content
      | inl e => inl e
      end
  end.

(** [benchmark_non_lsp_operation], lines 875-919. *)
Definition benchmark_non_lsp_operation (operation_name : string)
    (files_to_read : list string) : State TokenUsage :=
  start_time <- time_time ;;
  w <- get_world ;;
  let '(input_context, result, success) :=
    match read_files w files_to_read EmptyString with
    | inr all_content =>
        ("Task: " +:+ operation_name +:+ PyFmt.nl
           +:+ "Reading entire files for context" +:+ PyFmt.nl
           +:+ "Files: " +:+ PyFmt.repr_list files_to_read +:+ PyFmt.nl
           +:+ PyFmt.nl +:+ all_content,
         "Found content in " +:+ PyFmt.str_nat (length files_to_read)
           +:+ " files, total " +:+ PyFmt.str_nat (String.length all_content)
           +:+ " characters",
         true)
    | inl e =>
        ("Task: " +:+ operation_name +:+ PyFmt.nl +:+ "Failed to read files: "
           +:+ PyFmt.repr_list files_to_read,
         "Error: " +:+ str_exn e,
         false)
    end in
  end_time <- time_time ;;
  let execution_time := (end_time - start_time)%Qc in
  let '(input_tokens, output_tokens, total_tokens) :=
    TokenCounter.count_operation_tokens input_context result in
  ret {| operation := operation_name;
         method := "Non-LSP";
         input_tokens := input_tokens;
         output_tokens := output_tokens;
         total_tokens := total_tokens;
         content_length := String.length result;
         efficiency_ratio :=
           py_div total_tokens (Z.max (Z.of_nat (String.length result)) 1);
         success := success;
         execution_time := execution_time |}.

Variable agent : Agent.

(** The body of the loop of [run_benchmark_scenarios], lines 984-1022. *)
Definition run_scenario (s : Scenario) : State BenchmarkResult :=
  lsp_usage <- benchmark_lsp_operation (name s) (lsp_func agent s) ;;
  non_lsp_usage <- benchmark_non_lsp_operation (name s) (non_lsp_files s) ;;
  let token_savings := total_tokens non_lsp_usage - total_tokens lsp_usage in
  let efficiency_improvement :=
    (py_div (total_tokens non_lsp_usage - total_tokens lsp_usage)
            (Z.max (total_tokens non_lsp_usage) 1) * Qc_of_Z 100)%Qc in
  let context_reduction :=
    (py_div (input_tokens non_lsp_usage - input_tokens lsp_usage)
            (Z.max (input_tokens non_lsp_usage) 1) * Qc_of_Z 100)%Qc in
  ret {| scenario := name s;
         lsp_usage := lsp_usage;
         non_lsp_usage := non_lsp_usage;
         token_savings := token_savings;
         efficiency_improvement := efficiency_improvement;
         context_reduction := context_reduction |}.

(** The loop of [run_benchmark_scenarios], lines 982-1030, with the agent
    of [create_agent] given; [TokenReport.run_benchmark_scenarios] has the
    creation of the agent in front of it. *)
Definition run_benchmark_scenarios : State (list BenchmarkResult) :=
  for_each run_scenario scenarios.

End Benchmark.

End TerraformTokenBenchmark.

(** ** The error-detection test (error_detection_test.py) *)

Module ErrorDetectionTester.

(** The four fixture texts of [create_error_scenarios], lines 38-121.  A
    triple-quoted literal that opens with a line break starts with an empty
    line. *)
Definition syntax_errors_tf : string :=
  PyFmt.lines
    [ "";
      "# Syntax error: missing quotes around resource type";
      "resource aws_vpc " +:+ PyFmt.quoted "broken" +:+ " {";
      "  cidr_block = " +:+ PyFmt.quoted "10.0.0.0/16";
      "}";
      "";
      "# Type error: number instead of string";
      "resource " +:+ PyFmt.quoted "aws_instance" +:+ " "
        +:+ PyFmt.quoted "type_error" +:+ " {";
      "  ami           = " +:+ PyFmt.quoted "ami-12345";
      "  instance_type = 123";
      "  subnet_id     = aws_subnet.public.id";
      "}";
      "";
      "# Missing required argument";
      "resource " +:+ PyFmt.quoted "aws_vpc" +:+ " "
        +:+ PyFmt.quoted "incomplete" +:+ " {";
      "  # Missing cidr_block";
      "  enable_dns_hostnames = true";
      "}" ].

Definition logic_errors_tf : string :=
  PyFmt.lines
    [ "";
      "# Circular dependency";
      "resource " +:+ PyFmt.quoted "aws_security_group" +:+ " "
        +:+ PyFmt.quoted "sg1" +:+ " {";
      "  name   = " +:+ PyFmt.quoted "sg1";
      "  vpc_id = aws_vpc.main.id";
      "  ";
      "  ingress {";
      "    from_port                = 80";
      "    to_port                  = 80";
      "    protocol                 = " +:+ PyFmt.quoted "tcp";
      "    source_security_group_id = aws_security_group.sg2.id";
      "  }";
      "}";
      "";
      "resource " +:+ PyFmt.quoted "aws_security_group" +:+ " "
        +:+ PyFmt.quoted "sg2" +:+ " {";
      "  name   = " +:+ PyFmt.quoted "sg2";
      "  vpc_id = aws_vpc.main.id";
      "  ";
      "  ingress {";
      "    from_port                = 443";
      "    to_port                  = 443";
      "    protocol                 = " +:+ PyFmt.quoted "tcp";
      "    source_security_group_id = aws_security_group.sg1.id";
      "  }";
      "}" ].

Definition reference_errors_tf : string :=
  PyFmt.lines
    [ "";
      "# Reference to non-existent resource";
      "resource " +:+ PyFmt.quoted "aws_instance" +:+ " "
        +:+ PyFmt.quoted "web" +:+ " {";
      "  ami           = " +:+ PyFmt.quoted "ami-12345";
      "  instance_type = " +:+ PyFmt.quoted "t3.micro";
      "  subnet_id     = aws_subnet.nonexistent.id  # Error: doesn't exist";
      "}";
      "";
      "# Invalid variable reference";
      "locals {";
      "  invalid_ref = var.undefined_variable  # Error: undefined variable";
      "}";
      "";
      "# Wrong resource type reference";
      "output " +:+ PyFmt.quoted "instance_ip" +:+ " {";
      "  value = aws_instance.database.public_ip  # Error: should be aws_db_instance";
      "}" ].

Definition variables_errors_tf : string :=
  PyFmt.lines
    [ "";
      "variable " +:+ PyFmt.quoted "instance_count" +:+ " {";
      "  type    = number";
      "  default = " +:+ PyFmt.quoted "not_a_number"
        +:+ "  # Error: type mismatch";
      "}";
      "";
      "variable " +:+ PyFmt.quoted "invalid_validation" +:+ " {";
      "  type = string";
      "  ";
      "  validation {";
      "    condition     = contains([" +:+ PyFmt.quoted "dev" +:+ ", "
        +:+ PyFmt.quoted "prod"
        +:+ "], var.nonexistent)  # Error: undefined var";
      "    error_message = " +:+ PyFmt.quoted "Invalid environment";
      "  }";
      "}" ].

(** One entry of [known_errors], lines 162-205. *)
Record KnownError : Type := mkKnownError {
  type : string;
  description : string;
  pattern : string;
  file : string
}.

Definition known_errors : list KnownError :=
  [ mkKnownError "syntax_error" "Missing quotes around resource type"
      "aws_vpc" "syntax_errors.tf";
    mkKnownError "type_error" "Number instead of string for instance_type"
      "instance_type" "syntax_errors.tf";
    mkKnownError "missing_argument" "Missing required cidr_block"
      "incomplete" "syntax_errors.tf";
    mkKnownError "circular_dependency"
      "Circular dependency between security groups"
      "security_group" "logic_errors.tf";
    mkKnownError "invalid_reference" "Reference to non-existent subnet"
      "nonexistent" "reference_errors.tf";
    mkKnownError "undefined_variable" "Reference to undefined variable"
      "undefined_variable" "reference_errors.tf";
    mkKnownError "type_mismatch" "String value for number type"
      "not_a_number" "variables_errors.tf" ].

(** Lines 275-281. *)
Definition error_patterns : list string :=
  [ "resource aws_vpc"; "instance_type = 123"; "nonexistent";
    "undefined_variable"; "not_a_number" ].

(** One entry of [detection_attempts]: the dict of lines 234-239, or the one
    of lines 245-250 with [error_message] and without [symbols_found]. *)
Record Attempt : Type := mkAttempt {
  error : KnownError;
  detected : bool;
  symbols_found : option nat;
  error_message : option string;
  execution_time : Qc
}.

(** The dict [test_lsp_error_detection] returns, lines 261-267. *)
Record LspResults : Type := mkLspResults {
  detection_rate : Qc;
  detected_errors : nat;
  total_errors : nat;
  errors_found : list string;
  detection_attempts : list Attempt
}.

(** The dict [test_traditional_error_detection] returns, lines 305-310; a
    Python [set] is a [gset]. *)
Record TraditionalResults : Type := mkTraditionalResults {
  traditional_detection_rate : Qc;
  patterns_detected : nat;
  total_patterns : nat;
  detected_patterns : gset string
}.

(** [combined_results] of [main], lines 341-346. *)
Record CombinedResults : Type := mkCombinedResults {
  lsp_results : LspResults;
  traditional_results : TraditionalResults;
  improvement_factor : Qc;
  target_met : bool
}.

(** [Some rest] when [s = p + rest]. *)
Fixpoint strip_prefix (p s : string) : option string :=
  match p, s with
  | EmptyString, _ => Some s
  | String a p', String b s' =>
      if Ascii.eqb a b then strip_prefix p' s' else None
  | String _ _, EmptyString => None
  end.

(** A relative path up to its first slash. *)
Fixpoint first_component (s : string) : string :=
  match s with
  | EmptyString => EmptyString
  | String c s' =>
      if Ascii.eqb c "/" then EmptyString else String c (first_component s')
  end.

(** [os.listdir(d)]: the names of the entries of [d] that lead to a file,
    in some order.  A directory without a file under it is not listed; the
    scan below would pass over it, as [open] raises on a directory. *)
Definition listdir (w : World) (d : string) : Exn + list string :=
  if decide (d ∈ dirs w)
  then inr (remove_dups
              (omap (fun p => first_component <$> strip_prefix (d +:+ "/") p)
                    (map_to_list (fs w)).*1))
  else inl (FileNotFoundError
              ("[Errno 2] No such file or directory: " +:+ PyFmt.repr_str d)).

(** [max(x, 1)] on floats. *)
Definition max1 (x : Qc) : Qc := if decide (1 < x)%Qc then x else 1%Qc.

Section Tester.

(** [self.workspace] *)
Variable workspace : string.

(** [create_error_scenarios], lines 33-131. *)
Definition create_error_scenarios : State unit :=
  makedirs workspace ;;;
  write_file (path_join workspace "syntax_errors.tf") syntax_errors_tf ;;;
  write_file (path_join workspace "logic_errors.tf") logic_errors_tf ;;;
  write_file (path_join workspace "reference_errors.tf") reference_errors_tf ;;;
  write_file (path_join workspace "variables_errors.tf") variables_errors_tf.

Variable agent : Agent.

Definition failed_attempt (error : KnownError) (e : Exn) : Attempt :=
  {| error := error; detected := false; symbols_found := None;
     error_message := Some (str_exn e); execution_time := 0%Qc |}.

(** The body of the loop of lines 213-250. *)
Definition detect (error : KnownError) : State Attempt :=
  start_time <- time_time ;;
  w <- get_world ;;
  match find_symbol agent w (pattern error) true with
  | inl e => ret (failed_attempt error e)
  | inr result =>
      end_time <- time_time ;;
      let execution_time := (end_time - start_time)%Qc in
      match (match result with
             | EmptyString => inr []
             | _ => json_loads agent result
             end) with
      | inl e => ret (failed_attempt error e)
      | inr symbols =>
          let detected := (0 <? length symbols)%nat in
          ret {| error := error; detected := detected;
                 symbols_found := Some (length symbols);
                 error_message := None; execution_time := execution_time |}
      end
  end.

(** [test_lsp_error_detection], lines 161-267, for any list in the place of
    [known_errors] and with the agent given: the agent of lines 136-159 is
    made in [main] below.  [detected_errors] holds the errors of the attempts
    that detected something. *)
Definition test_lsp_error_detection_on (known_errors : list KnownError)
  : State (Exn + LspResults) :=
  detection_attempts <- for_each detect known_errors ;;
  let detected_errors := error <$> List.filter detected detection_attempts in
  match py_truediv (Z.of_nat (length detected_errors))
                   (Z.of_nat (length known_errors)) with
  | inl e => ret (inl e)
  | inr ratio =>
      ret (inr {| detection_rate := (ratio * Qc_of_Z 100)%Qc;
                  detected_errors := length detected_errors;
                  total_errors := length known_errors;
                  errors_found := description <$> detected_errors;
                  detection_attempts := detection_attempts |})
  end.

Definition test_lsp_error_detection : State (Exn + LspResults) :=
  test_lsp_error_detection_on known_errors.

(** The body of the loop of lines 286-299; an exception while reading is
    printed and the file passed over. *)
Definition scan_file (error_patterns : list string) (w : World)
    (detected_patterns : list string) (filename : string) : list string :=
  if PyStr.endswith filename ".tf"
  then match read_file w (path_join workspace filename) with
       | inr content =>
           detected_patterns
             ++ List.filter (fun pattern => PyStr.contains pattern content)
                            error_patterns
       | inl _ => detected_patterns
       end
  else detected_patterns.

(** [test_traditional_error_detection], lines 269-310, for any list in the
    place of [error_patterns]. *)
Definition test_traditional_error_detection_on (error_patterns : list string)
    (w : World) : Exn + TraditionalResults :=
  match listdir w workspace with
  | inl e => inl e
  | inr filenames =>
      let detected_patterns :=
        fold_left (scan_file error_patterns w) filenames [] in
      let found : gset string := list_to_set detected_patterns in
      match py_truediv (Z.of_nat (size found))
                       (Z.of_nat (length error_patterns)) with
      | inl e => inl e
      | inr ratio =>
          inr {| traditional_detection_rate := (ratio * Qc_of_Z 100)%Qc;
                 patterns_detected := size found;
                 total_patterns := length error_patterns;
                 detected_patterns := found |}
      end
  end.

Definition test_traditional_error_detection (w : World)
  : Exn + TraditionalResults :=
  test_traditional_error_detection_on error_patterns w.

End Tester.

(** The file of line 349 and its directory. *)
Definition results_dir : string :=
  "/Users/yen/fork_repo/serena/terraform_lsp_benchmarks/results".

Definition results_file : string :=
  path_join results_dir "error_detection_results.json".

Section Main.

(** The workspace of line 315; what the operating system refuses, by the
    directory written into; the agent of lines 136-159, which
    [test_lsp_error_detection] makes first and without a guard; and
    [json.dumps(combined_results, indent=2)], the text written by line
    353. *)
Variable workspace : string.
Variable refused : string -> World -> option Exn.
Variable create_agent : AgentFactory.
Variable json_dumps : CombinedResults -> string.

(** Lines 349-353. *)
Definition save_results (combined_results : CombinedResults)
  : State (Exn + unit) :=
  attempt (refused results_dir)
    (makedirs results_dir ;;;
     write_file results_file (json_dumps combined_results)).

(** [main], lines 313-362: the constructor writes the error scenarios, the
    two detections run, the results are compared, saved and returned; the
    [except] of line 359 turns any exception into [None]. *)
Definition main : State (option CombinedResults) :=
  made <- attempt (refused workspace) (create_error_scenarios workspace) ;;
  match made with
  | inl _ => ret None
  | inr _ =>
      w <- get_world ;;
      match create_agent w with
      | inl _ => ret None
      | inr agent =>
          lsp <- test_lsp_error_detection agent ;;
          w <- get_world ;;
          match lsp, test_traditional_error_detection workspace w with
          | inr lsp_results, inr traditional_results =>
              let improvement_factor :=
                (detection_rate lsp_results
                 / max1 (traditional_detection_rate traditional_results))%Qc in
              let combined_results :=
                {| lsp_results := lsp_results;
                   traditional_results := traditional_results;
                   improvement_factor := improvement_factor;
                   target_met :=
                     bool_decide (Qc_of_Z 4 <= improvement_factor)%Qc |} in
              saved <- save_results combined_results ;;
              match saved with
              | inl _ => ret None
              | inr _ => ret (Some combined_results)
              end
          | _, _ => ret None
          end
      end
  end.

End Main.

End ErrorDetectionTester.

(** ** The claims validation (comprehensive_ab_test.py) *)

Module TerraformABTester.

(** [class TestResult], lines 32-42.  The [details] dict is left out: it is
    read by the [print] calls only. *)
Record TestResult : Type := mkTestResult {
  test_name : string;
  mode : string;
  success : bool;
  execution_time : Qc;
  memory_usage : Qc;
  errors_detected : list string;
  confidence_score : Qc
}.

(** A value of [analysis["claims_validation"]]: a bool, or a text. *)
Inductive Verdict : Type :=
  | VBool (b : bool)
  | VStr (s : string).

(** The value of [analysis["performance"]["lsp"]]. *)
Record Performance : Type := mkPerformance {
  startup_time : Qc;
  perf_memory_usage : Qc
}.

(** The dict [analysis], lines 658-663, one finite map per key. *)
Record Analysis : Type := mkAnalysis {
  semantic_edit_quality : gmap string Qc;
  error_detection : gmap string Qc;
  performance : gmap string Performance;
  claims_validation : gmap string Verdict
}.

Definition by_name (n : string) (results : list TestResult) : list TestResult :=
  List.filter (fun r => String.eqb (test_name r) n) results.

(** [next((r for r in rs if r.mode == "LSP"), None)] *)
Definition first_lsp (rs : list TestResult) : option TestResult :=
  List.find (fun r => String.eqb (mode r) "LSP") rs.

(** [analyze_results], lines 648-735, on [self.results]. *)
Definition analyze_results (results : list TestResult) : Analysis :=
  let semantic_results := by_name "semantic_edit_quality" results in
  let error_results := by_name "error_detection_confidence" results in
  let perf_results := by_name "startup_performance" results in
  let semantic_edit_quality : gmap string Qc :=
    match first_lsp semantic_results with
    | Some lsp_semantic => {[ "lsp" := confidence_score lsp_semantic ]}
    | None => ∅
    end in
  let error_detection : gmap string Qc :=
    match first_lsp error_results with
    | Some lsp_error => {[ "lsp" := confidence_score lsp_error ]}
    | None => ∅
    end in
  let performance : gmap string Performance :=
    match first_lsp perf_results with
    | Some lsp_perf =>
        {[ "lsp" := mkPerformance (execution_time lsp_perf)
                                  (memory_usage lsp_perf) ]}
    | None => ∅
    end in
  let cv0 : gmap string Verdict := ∅ in
  let cv1 :=
    match semantic_results with
    | lsp_result :: _ =>
        let quality_validated :=
          bool_decide (Qc_of_Z 95 <= confidence_score lsp_result)%Qc in
        <[ "quality" := VBool quality_validated ]> cv0
    | [] => cv0
    end in
  let cv2 :=
    match error_results with
    | _ :: _ => <[ "error_detection" := VStr "needs_baseline" ]> cv1
    | [] => cv1
    end in
  let cv3 :=
    match perf_results with
    | perf_result :: _ =>
        let startup_ok :=
          bool_decide (execution_time perf_result <= Q2Qc (1 # 2))%Qc in
        let memory_ok :=
          bool_decide (memory_usage perf_result <= Qc_of_Z 100)%Qc in
        let performance_validated := startup_ok && memory_ok in
        <[ "performance" := VBool performance_validated ]> cv2
    | [] => cv2
    end in
  {| semantic_edit_quality := semantic_edit_quality;
     error_detection := error_detection;
     performance := performance;
     claims_validation := cv3 |}.

End TerraformABTester.

(** ** Sample worlds and agents *)

Module Samples.

(** A clock that advances by one at each reading. *)
Definition clock0 (n : nat) : Qc := Qc_of_Z (Z.of_nat n).

(** No file, no directory. *)
Definition world0 : World := mkWorld ∅ ∅ clock0 0.

(** A service that is down: every call raises with the message [msg]. *)
Definition agent_down (msg : string) : Agent :=
  mkAgent (fun _ _ _ => inl (Exception msg))
          (fun _ _ _ => inl (Exception msg))
          (fun _ => inl (Exception "Expecting value")).

(** A service that finds nothing: the empty JSON list. *)
Definition agent_nothing : Agent :=
  mkAgent (fun _ _ _ => inr "[]") (fun _ _ _ => inr EmptyString)
          (fun _ => inr []).

(** The three results [run_all_tests] appends for its one mode. *)
Definition lsp_only_results : list TerraformABTester.TestResult :=
  [ TerraformABTester.mkTestResult "semantic_edit_quality" "LSP" true
      (Q2Qc (3 # 10)) (Qc_of_Z 40) [] (Qc_of_Z 100);
    TerraformABTester.mkTestResult "error_detection_confidence" "LSP" true
      (Q2Qc (1 # 10)) (Qc_of_Z 1) [] (Qc_of_Z 50);
    TerraformABTester.mkTestResult "startup_performance" "LSP" true
      (Q2Qc (4 # 10)) (Qc_of_Z 60) [] (Qc_of_Z 100) ].

End Samples.

(** ** The report of the token benchmark *)

Module TokenReport.

Import TerraformTokenBenchmark.

(** [sum(...)] of ints and of floats. *)
Definition sum_Z (l : list Z) : Z := foldr Z.add 0 l.
Definition sum_Qc (l : list Qc) : Qc := foldr Qcplus 0%Qc l.

(** [sum(1 for r in results if p(r))] *)
Definition count_if {A} (p : A -> bool) (l : list A) : Z :=
  Z.of_nat (length (List.filter p l)).

(** [max(l, key=key)] and [min(l, key=key)] of a list with first element
    [x]: the first element whose key is the greatest, or the least. *)
Fixpoint max_by {A} (key : A -> Qc) (x : A) (l : list A) : A :=
  match l with
  | [] => x
  | y :: rest => max_by key (if decide (key x < key y)%Qc then y else x) rest
  end.

Fixpoint min_by {A} (key : A -> Qc) (x : A) (l : list A) : A :=
  match l with
  | [] => x
  | y :: rest => min_by key (if decide (key y < key x)%Qc then y else x) rest
  end.

(** The dict [generate_report] returns, lines 1111-1126. *)
Record Report : Type := mkReport {
  total_scenarios : nat;
  overall_efficiency_gain : Qc;
  average_efficiency_improvement : Qc;
  average_context_reduction : Qc;
  total_token_savings : Z;
  lsp_success_rate : Qc;
  non_lsp_success_rate : Qc;
  cost_savings : Qc;
  cost_efficiency : Qc;
  best_scenario : string;
  best_efficiency : Qc;
  worst_scenario : string;
  worst_efficiency : Qc;
  scenarios : list BenchmarkResult
}.

(** The cost of [tokens] at [per_1k] dollars for a thousand. *)
Definition cost (tokens : Z) (per_1k : Qc) : Qc :=
  (Qc_of_Z tokens / Qc_of_Z 1000 * per_1k)%Qc.

(** [generate_report], lines 1032-1126.  The first division by
    [len(results)] is the one of line 1044; [max] and [min] come after it,
    so they are only reached with a first element. *)
Definition generate_report (results : list BenchmarkResult) : Exn + Report :=
  let total_lsp_tokens :=
    sum_Z (map (fun r => total_tokens (lsp_usage r)) results) in
  let total_non_lsp_tokens :=
    sum_Z (map (fun r => total_tokens (non_lsp_usage r)) results) in
  let total_savings := total_non_lsp_tokens - total_lsp_tokens in
  let overall_efficiency :=
    (py_div total_savings (Z.max total_non_lsp_tokens 1) * Qc_of_Z 100)%Qc in
  match results with
  | [] => inl (ZeroDivisionError "division by zero")
  | first :: rest =>
      let n := Qc_of_Z (Z.of_nat (length results)) in
      let avg_efficiency :=
        (sum_Qc (map efficiency_improvement results) / n)%Qc in
      let avg_context_reduction :=
        (sum_Qc (map context_reduction results) / n)%Qc in
      let lsp_success_rate :=
        (Qc_of_Z (count_if (fun r => success (lsp_usage r)) results) / n
         * Qc_of_Z 100)%Qc in
      let non_lsp_success_rate :=
        (Qc_of_Z (count_if (fun r => success (non_lsp_usage r)) results) / n
         * Qc_of_Z 100)%Qc in
      let best_scenario := max_by efficiency_improvement first rest in
      let worst_scenario := min_by efficiency_improvement first rest in
      let input_cost_per_1k := Q2Qc (3 # 100) in
      let output_cost_per_1k := Q2Qc (6 # 100) in
      let lsp_total_cost :=
        (cost (sum_Z (map (fun r => input_tokens (lsp_usage r)) results))
              input_cost_per_1k
         + cost (sum_Z (map (fun r => output_tokens (lsp_usage r)) results))
                output_cost_per_1k)%Qc in
      let non_lsp_total_cost :=
        (cost (sum_Z (map (fun r => input_tokens (non_lsp_usage r)) results))
              input_cost_per_1k
         + cost (sum_Z (map (fun r => output_tokens (non_lsp_usage r)) results))
                output_cost_per_1k)%Qc in
      let cost_savings := (non_lsp_total_cost - lsp_total_cost)%Qc in
      let floor :=
        if decide (non_lsp_total_cost < Q2Qc (1 # 100))%Qc
        then Q2Qc (1 # 100) else non_lsp_total_cost in
      let cost_efficiency := (cost_savings / floor * Qc_of_Z 100)%Qc in
      inr {| total_scenarios := length results;
             overall_efficiency_gain := overall_efficiency;
             average_efficiency_improvement := avg_efficiency;
             average_context_reduction := avg_context_reduction;
             total_token_savings := total_savings;
             lsp_success_rate := lsp_success_rate;
             non_lsp_success_rate := non_lsp_success_rate;
             cost_savings := cost_savings;
             cost_efficiency := cost_efficiency;
             best_scenario := scenario best_scenario;
             best_efficiency := efficiency_improvement best_scenario;
             worst_scenario := scenario worst_scenario;
             worst_efficiency := efficiency_improvement worst_scenario;
             scenarios := results |}
  end.

Section Main.

(** The workspace of line 1131 and the literal texts of the project; what
    the operating system refuses, by the directory written into; and the
    outcome of [self.create_agent()] and [agent.get_tool(FindSymbolTool)],
    lines 926-927. *)
Variables workspace main_tf variables_tf outputs_tf : string.
Variable refused : string -> World -> option Exn.
Variable create_agent : AgentFactory.

(** [run_benchmark_scenarios], lines 921-1030: the agent is made first,
    without a guard, then the scenarios run. *)
Definition run_benchmark_scenarios : State (Exn + list BenchmarkResult) :=
  w <- get_world ;;
  match create_agent w with
  | inl e => ret (inl e)
  | inr agent =>
      results <- TerraformTokenBenchmark.run_benchmark_scenarios
                   workspace agent ;;
      ret (inr results)
  end.

(** [main], lines 1129-1147: the constructor writes the project, the
    scenarios run and the report is made; the [except] of line 1143 turns
    any exception into [None]. *)
Definition main : State (option Report) :=
  made <- attempt (refused workspace)
            (create_realistic_terraform_project workspace main_tf
               variables_tf outputs_tf) ;;
  match made with
  | inl _ => ret None
  | inr _ =>
      ran <- run_benchmark_scenarios ;;
      match ran with
      | inl _ => ret None
      | inr results =>
          match generate_report results with
          | inr report => ret (Some report)
          | inl _ => ret None
          end
      end
  end.

End Main.

End TokenReport.

(** ** The three tests of the A/B framework (comprehensive_ab_test.py) *)

Module ABTests.

Import TerraformABTester.

(** [class PerformanceMetrics], lines 45-50. *)
Record PerformanceMetrics : Type := mkPerformanceMetrics {
  startup_time : Qc;
  memory_usage_mb : Qc;
  operation_time : Qc
}.

(** The [details] dict of a [TestResult], by the test that fills it. *)
Inductive Details : Type :=
  | QualityDetails (success_count total_tests : nat) (success_rate : Qc)
      (tests_passed : nat) (tests_failed : Z)
  | DetectionDetails (expected_errors detected_errors : nat)
      (detection_rate : Qc) (errors_found : list string)
  | StartupDetails (startup_time_seconds memory_usage_mb operation_time : Qc).

(** The world after [k] more readings of the clock. *)
Definition after_readings (k : nat) (w : World) : World :=
  mkWorld (fs w) (dirs w) (clock w) (k + readings w).

(** The text of [user_data.sh], lines 342-348. *)
Definition user_data_sh : string :=
  PyFmt.lines
    [ "#!/bin/bash";
      "yum update -y";
      "yum install -y httpd";
      "systemctl start httpd";
      "systemctl enable httpd";
      "echo " +:+ PyFmt.quoted "<h1>Hello from ${project_name}</h1>"
        +:+ " > /var/www/html/index.html" ].

(** Lines 525-532. *)
Definition expected_errors : list string :=
  [ "undefined_variable";
    "aws_instance.nonexistent";
    "resource aws_s3_bucket " +:+ PyFmt.quoted "test";
    "circular dependency";
    "instance_type = 123";
    "missing required cidr_block" ].

(** [mode="LSP" if use_lsp else "Non-LSP"] *)
Definition mode_name (use_lsp : bool) : string :=
  if use_lsp then "LSP" else "Non-LSP".

Section Tests.

(** [self.test_workspace]; the four literal HCL texts of lines 64-323, which
    are only written; what the operating system refuses, by the directory
    written into; the outcome of [self.create_agent(use_lsp)] and
    [agent.get_tool(_)], which each test calls first, inside its measured
    block, and which is the same for both values of [use_lsp] (line 392);
    [process.memory_info().rss] as the world has it; and
    [s.get("name_path", "")] on a symbol descriptor. *)
Variable test_workspace : string.
Variables main_tf variables_tf outputs_tf errors_tf : string.
Variable refused : string -> World -> option Exn.
Variable create_agent : AgentFactory.
Variable rss : World -> Z.
Variable get_name_path : string -> string.

(** [create_test_terraform_files], lines 60-348. *)
Definition create_test_terraform_files : State unit :=
  makedirs test_workspace ;;;
  write_file (path_join test_workspace "main.tf") main_tf ;;;
  write_file (path_join test_workspace "variables.tf") variables_tf ;;;
  write_file (path_join test_workspace "outputs.tf") outputs_tf ;;;
  write_file (path_join test_workspace "errors.tf") errors_tf ;;;
  write_file (path_join test_workspace "user_data.sh") user_data_sh.

(** [process.memory_info().rss / 1024 / 1024] *)
Definition memory_mb (w : World) : Qc :=
  (Qc_of_Z (rss w) / Qc_of_Z 1024 / Qc_of_Z 1024)%Qc.

(** [max(x, 0)] on floats. *)
Definition max0 (x : Qc) : Qc := if decide (x < 0)%Qc then 0%Qc else x.

(** [measure_performance], lines 350-366, around a body that reads the
    world.  When the body raises, the code after [yield] does not run and the
    exception goes on. *)
Definition measure_performance {A} (body : World -> Exn + A)
  : State (Exn + A * PerformanceMetrics) :=
  start_time <- time_time ;;
  w <- get_world ;;
  let start_memory := memory_mb w in
  match body w with
  | inl e => ret (inl e)
  | inr a =>
      end_time <- time_time ;;
      w' <- get_world ;;
      let end_memory := memory_mb w' in
      ret (inr (a, {| startup_time := (end_time - start_time)%Qc;
                      memory_usage_mb := max0 (end_memory - start_memory)%Qc;
                      operation_time := (end_time - start_time)%Qc |}))
  end.

(** One of the ten guarded searches of [test_semantic_edit_quality]: the
    text in front of the exception in the message, the [name_path] searched
    and the condition on the symbols found. *)
Record SubTest : Type := mkSubTest {
  label : string;
  query : string;
  passes : list string -> bool
}.

Definition at_least (n : nat) (symbols : list string) : bool :=
  (n <=? length symbols)%nat.

(** [any(text in s.get("name_path", "") for s in symbols)] *)
Definition any_name_path (text : string) (symbols : list string) : bool :=
  existsb (fun s => PyStr.contains text (get_name_path s)) symbols.

(** Lines 406-494. *)
Definition quality_tests : list SubTest :=
  [ mkSubTest "Module search failed" "module" (at_least 1);
    mkSubTest "VPC search failed" "aws_vpc" (any_name_path "main");
    mkSubTest "Security group search failed" "security_group" (at_least 2);
    mkSubTest "Instance search failed" "aws_instance" (at_least 2);
    mkSubTest "Data source search failed" "data" (any_name_path "aws_ami");
    mkSubTest "Output search failed" "output" (at_least 5);
    mkSubTest "Variable search failed" "variable" (at_least 5);
    mkSubTest "Provider search failed" "provider" (at_least 1);
    mkSubTest "Terraform block search failed" "terraform" (at_least 1);
    mkSubTest "AWS resource search failed" "aws" (at_least 5) ].

(** One guarded search: [success_count] and [errors_detected] before and
    after. *)
Definition run_sub_test (agent : Agent) (w : World) (acc : nat * list string)
    (t : SubTest) : nat * list string :=
  let '(success_count, errors_detected) := acc in
  match find_symbol agent w (query t) true with
  | inl e => (success_count,
              errors_detected ++ [label t +:+ ": " +:+ str_exn e])
  | inr result =>
      match json_loads agent result with
      | inl e => (success_count,
                  errors_detected ++ [label t +:+ ": " +:+ str_exn e])
      | inr symbols =>
          if passes t symbols then (S success_count, errors_detected)
          else (success_count, errors_detected)
      end
  end.

(** [test_semantic_edit_quality], lines 396-513: inside the measured block
    the agent is made, without a guard, and the ten guarded searches
    follow. *)
Definition test_semantic_edit_quality (use_lsp : bool)
  : State (Exn + TestResult * Details) :=
  measured <- measure_performance
                (fun w =>
                   match create_agent w with
                   | inl e => inl e
                   | inr agent =>
                       inr (fold_left (run_sub_test agent w) quality_tests
                              (0%nat, []))
                   end) ;;
  match measured with
  | inl e => ret (inl e)
  | inr ((success_count, errors_detected), last_performance) =>
      let total_tests := 10%nat in
      let success_rate :=
        (py_div (Z.of_nat success_count) (Z.of_nat total_tests)
         * Qc_of_Z 100)%Qc in
      ret (inr ({| test_name := "semantic_edit_quality";
                   mode := mode_name use_lsp;
                   success := bool_decide (Qc_of_Z 90 <= success_rate)%Qc;
                   execution_time := operation_time last_performance;
                   memory_usage := memory_usage_mb last_performance;
                   errors_detected := errors_detected;
                   confidence_score := success_rate |},
                QualityDetails success_count total_tests success_rate
                  success_count
                  (Z.of_nat total_tests - Z.of_nat success_count)))
  end.

(** One guarded pattern search of lines 535-544: [errors_detected] and
    [confidence_errors] before and after. *)
Definition search_one (agent : Agent) (w : World)
    (acc : list string * list string) (error_pattern : string)
  : list string * list string :=
  let '(errors_detected, confidence_errors) := acc in
  match search_pattern agent w error_pattern "*.tf" with
  | inl e =>
      (errors_detected,
       confidence_errors
         ++ ["Could not search for " +:+ error_pattern +:+ ": " +:+ str_exn e])
  | inr result =>
      if (10 <? String.length result)%nat
      then (errors_detected ++ [error_pattern], confidence_errors)
      else (errors_detected, confidence_errors)
  end.

(** Lines 547-557: the symbol search for undefined references, with its
    bare [except: pass]. *)
Definition undefined_references (agent : Agent) (w : World)
    (errors_detected : list string) : list string :=
  match find_symbol agent w "undefined" true with
  | inl _ => errors_detected
  | inr result =>
      match json_loads agent result with
      | inr (_ :: _) => errors_detected ++ ["undefined_reference_detected"]
      | _ => errors_detected
      end
  end.

(** [test_error_detection_confidence], lines 515-575: inside the measured
    block the agent is made, without a guard, and the guarded searches
    follow. *)
Definition test_error_detection_confidence (use_lsp : bool)
  : State (Exn + TestResult * Details) :=
  measured <- measure_performance
                (fun w =>
                   match create_agent w with
                   | inl e => inl e
                   | inr agent =>
                       let '(errors_detected, confidence_errors) :=
                         fold_left (search_one agent w) expected_errors
                           ([], []) in
                       let errors_detected :=
                         if use_lsp
                         then undefined_references agent w errors_detected
                         else errors_detected in
                       inr (errors_detected, confidence_errors)
                   end) ;;
  match measured with
  | inl e => ret (inl e)
  | inr ((errors_detected, confidence_errors), last_performance) =>
      let detection_rate :=
        (py_div (Z.of_nat (length errors_detected))
                (Z.of_nat (length expected_errors)) * Qc_of_Z 100)%Qc in
      ret (inr ({| test_name := "error_detection_confidence";
                   mode := mode_name use_lsp;
                   success := bool_decide (Qc_of_Z 60 <= detection_rate)%Qc;
                   execution_time := operation_time last_performance;
                   memory_usage := memory_usage_mb last_performance;
                   errors_detected := confidence_errors;
                   confidence_score := detection_rate |},
                DetectionDetails (length expected_errors)
                  (length errors_detected) detection_rate errors_detected))
  end.

(** [test_startup_performance], lines 577-598: neither the making of the
    agent nor the one search is guarded. *)
Definition test_startup_performance (use_lsp : bool)
  : State (Exn + TestResult * Details) :=
  measured <- measure_performance
                (fun w =>
                   match create_agent w with
                   | inl e => inl e
                   | inr agent => find_symbol agent w "terraform" true
                   end) ;;
  match measured with
  | inl e => ret (inl e)
  | inr (_, last_performance) =>
      ret (inr ({| test_name := "startup_performance";
                   mode := mode_name use_lsp;
                   success := true;
                   execution_time := startup_time last_performance;
                   memory_usage := memory_usage_mb last_performance;
                   errors_detected := [];
                   confidence_score := Qc_of_Z 100 |},
                StartupDetails (startup_time last_performance)
                  (memory_usage_mb last_performance)
                  (operation_time last_performance)))
  end.

(** [run_all_tests], lines 600-646, on a tester whose [results] are empty:
    [modes] is the one-element list of line 613.  Nothing is guarded: the
    first exception ends the run. *)
Definition run_all_tests : State (Exn + Analysis) :=
  made <- attempt (refused test_workspace) create_test_terraform_files ;;
  match made with
  | inl e => ret (inl e)
  | inr _ =>
      t1 <- test_semantic_edit_quality true ;;
      match t1 with
      | inl e => ret (inl e)
      | inr (result1, _) =>
          t2 <- test_error_detection_confidence true ;;
          match t2 with
          | inl e => ret (inl e)
          | inr (result2, _) =>
              t3 <- test_startup_performance true ;;
              match t3 with
              | inl e => ret (inl e)
              | inr (result3, _) =>
                  ret (inr (analyze_results [result1; result2; result3]))
              end
          end
      end
  end.

End Tests.

End ABTests.

(** ** More sample agents *)

Module MoreSamples.

(** A service that answers every search with a long text and a symbol. *)
Definition agent_everything : Agent :=
  mkAgent (fun _ _ _ => inr "[{}]")
          (fun _ _ _ => inr "main.tf: line 1: match")
          (fun _ => inr ["{}"]).

(** A process whose resident size does not move. *)
Definition steady_rss (w : World) : Z := 52428800.

End MoreSamples.

(** ** The runner of the test suite (run_all_tests.py) *)

Module RunAllTests.

(** The dict [run_test] returns, lines 36-41 and 47-53; [error] is there
    only when an exception was caught. *)
Record TestRun : Type := mkTestRun {
  test : string;
  file : string;
  success : bool;
  execution_time : Qc;
  error : option string
}.

(** The dict [summary], lines 100-107. *)
Record Summary : Type := mkSummary {
  total_tests : nat;
  successful_tests : nat;
  success_rate : Qc;
  total_execution_time : Qc;
  test_results : list TestRun;
  timestamp : Qc
}.

(** Lines 61-66. *)
Definition tests : list (string * string) :=
  [ ("ab_tests/semantic_quality_test.py", "Semantic Quality Test");
    ("ab_tests/error_detection_test.py", "Error Detection Test");
    ("token_benchmarks/token_benchmark_terraform.py", "Token Usage Benchmark");
    ("ab_tests/comprehensive_ab_test.py", "Comprehensive A/B Test") ].

Section Runner.

(** [os.system(command)]: the status of the command, or an exception; what
    the operating system refuses, by the directory written into; and
    [json.dumps(summary, indent=2)], the text written by line 111. *)
Variable os_system : World -> string -> Exn + Z.
Variable refused : string -> World -> option Exn.
Variable json_dumps : Summary -> string.

(** [run_test], lines 14-53. *)
Definition run_test (test_file test_name : string) : State TestRun :=
  start_time <- time_time ;;
  w <- get_world ;;
  let command :=
    "cd /Users/yen/fork_repo/serena/terraform_lsp_benchmarks && python "
      +:+ test_file in
  match os_system w command with
  | inr result =>
      end_time <- time_time ;;
      ret {| test := test_name; file := test_file;
             success := (result =? 0);
             execution_time := (end_time - start_time)%Qc;
             error := None |}
  | inl e =>
      end_time <- time_time ;;
      ret {| test := test_name; file := test_file;
             success := false;
             execution_time := (end_time - start_time)%Qc;
             error := Some (str_exn e) |}
  end.

(** Lines 109-111, which no [try] covers. *)
Definition save_summary (summary : Summary) : State (Exn + unit) :=
  attempt (refused "results")
    (makedirs "results" ;;;
     write_file (path_join "results" "test_suite_summary.json")
       (json_dumps summary)).

(** [main], lines 55-120: the summary as it is saved, and the exit status.
    The rate is first computed for line 89. *)
Definition main : State (Exn + Summary * Z) :=
  total_start_time <- time_time ;;
  results <- for_each (fun t => run_test t.1 t.2) tests ;;
  total_end_time <- time_time ;;
  let total_execution_time := (total_end_time - total_start_time)%Qc in
  let successful_tests := length (List.filter success results) in
  let total_tests := length results in
  match py_truediv (Z.of_nat successful_tests) (Z.of_nat total_tests) with
  | inl e => ret (inl e)
  | inr ratio =>
      now <- time_time ;;
      let summary :=
        {| total_tests := total_tests;
           successful_tests := successful_tests;
           success_rate := (ratio * Qc_of_Z 100)%Qc;
           total_execution_time := total_execution_time;
           test_results := results;
           timestamp := now |} in
      saved <- save_summary summary ;;
      match saved with
      | inl e => ret (inl e)
      | inr _ =>
          ret (inr (summary,
                    if (successful_tests =? total_tests)%nat then 0 else 1))
      end
  end.

End Runner.

End RunAllTests.
(** * Properties *)

(** ** Strings *)

Example is_special_class :
  forallb PyStr.is_special
    (list_ascii_of_string "{}()[].,;:'`=+-*/\<>!@#$%^&|~") = true
  /\ PyStr.is_special (ascii_of_nat 34) = true
  /\ length (filter (fun n => PyStr.is_special (ascii_of_nat n)) (seq 0 256))
     = 30%nat.
Proof. repeat split; vm_compute; reflexivity. Qed.

Example estimate_sample : TokenCounter.estimate_tokens "a = b + c;  {x}" = 5.
Proof. vm_compute. reflexivity. Qed.

Lemma string_app_length (s1 s2 : string) :
  String.length (s1 +:+ s2) = (String.length s1 + String.length s2)%nat.
Proof.
  induction s1 as [|c s1 IH]; [reflexivity|].
  change (String c s1 +:+ s2) with (String c (s1 +:+ s2)).
  cbn [String.length]. rewrite IH. reflexivity.
Qed.

Lemma rstrip_empty_one_pass (t : string) :
  PyStr.rstrip t = EmptyString ->
  forall st pd, PyStr.one_pass st pd t = EmptyString.
Proof.
  induction t as [|c t IH]; intros H st pd; [reflexivity|].
  simpl in H. simpl.
  destruct (PyStr.rstrip t) eqn:Hr; [|discriminate].
  destruct (PyStr.isspace c); [|discriminate].
  apply IH. reflexivity.
Qed.

Lemma rstrip_sub_one_pass (t : string) :
  PyStr.sub_runs false (PyStr.rstrip t) = PyStr.one_pass true false t
  /\ (PyStr.rstrip t <> EmptyString ->
      String " " (PyStr.sub_runs true (PyStr.rstrip t))
      = PyStr.one_pass true true t).
Proof.
  induction t as [|c t [IH1 IH2]];
    [split; [reflexivity|intros []; reflexivity]|].
  simpl. destruct (PyStr.rstrip t) as [|d r] eqn:Hr.
  - destruct (PyStr.isspace c) eqn:Hc.
    + split; [|intros []; reflexivity].
      symmetry. apply rstrip_empty_one_pass. exact Hr.
    + simpl. rewrite Hc. simpl in IH1. rewrite <- IH1. split; reflexivity.
  - assert (Hne : String d r <> EmptyString) by discriminate.
    specialize (IH2 Hne).
    set (u := String d r) in *. simpl. destruct (PyStr.isspace c).
    + split; [exact IH2 | intros _; exact IH2].
    + rewrite <- IH1. split; reflexivity.
Qed.

Lemma lstrip_one_pass (s : string) :
  PyStr.one_pass false false s = PyStr.one_pass true false (PyStr.lstrip s).
Proof.
  induction s as [|c s IH]; [reflexivity|].
  simpl. destruct (PyStr.isspace c) eqn:Hc; [exact IH|].
  simpl. rewrite Hc. reflexivity.
Qed.

(** The composition of the source is the one-pass normalisation. *)
Lemma strip_sub_one_pass (text : string) :
  TokenCounter.cleaned text = PyStr.one_pass false false text.
Proof.
  unfold TokenCounter.cleaned, PyStr.re_sub_spaces, PyStr.strip.
  rewrite lstrip_one_pass. apply rstrip_sub_one_pass.
Qed.

Lemma one_pass_app_length (s1 s2 : string) (st pd : bool) :
  (String.length (PyStr.one_pass st pd s1)
   <= String.length (PyStr.one_pass st pd (s1 +:+ s2)))%nat.
Proof.
  revert st pd. induction s1 as [|c s1 IH]; intros st pd; simpl; [lia|].
  destruct (PyStr.isspace c); [apply IH|].
  destruct pd; simpl; specialize (IH true false); lia.
Qed.

Lemma one_pass_app_special (s1 s2 : string) (st pd : bool) :
  (PyStr.count_special (PyStr.one_pass st pd s1)
   <= PyStr.count_special (PyStr.one_pass st pd (s1 +:+ s2)))%nat.
Proof.
  revert st pd. induction s1 as [|c s1 IH]; intros st pd; simpl; [lia|].
  destruct (PyStr.isspace c); [apply IH|].
  destruct pd; simpl; specialize (IH true false); lia.
Qed.

(** ** Numbers *)

Lemma py_int_nonneg_floor (x : Qc) : (0 <= x)%Qc -> py_int x = Qfloor x.
Proof.
  unfold py_int, Qfloor. destruct x as [[a b] Hx]. simpl. intros H.
  apply Z.quot_div_nonneg; [|lia].
  unfold Qcle, Qle in H. simpl in H. lia.
Qed.

(** The float sum of [estimate_tokens] as one fraction. *)
Lemma estimate_sum_fraction (n c : Z) :
  (this (py_div n 4 + Qc_of_Z c * Q2Qc (3 # 10))%Qc == (5 * n + 6 * c) # 20)%Q.
Proof.
  unfold py_div, Qcdiv, Qcinv, Qcplus, Qcmult, Qc_of_Z. simpl.
  rewrite !Qred_correct.
  unfold Qeq, Qmult, Qplus, Qinv. simpl. lia.
Qed.

Lemma estimate_sum_int (n c : Z) :
  0 <= n -> 0 <= c ->
  py_int (py_div n 4 + Qc_of_Z c * Q2Qc (3 # 10))%Qc = (5 * n + 6 * c) / 20.
Proof.
  intros Hn Hc. rewrite py_int_nonneg_floor.
  - rewrite (Qfloor_comp _ _ (estimate_sum_fraction n c)). reflexivity.
  - unfold Qcle. rewrite estimate_sum_fraction. unfold Qle. simpl. lia.
Qed.

(** ** TokenCounter.estimate_tokens *)

(** The estimate in integer arithmetic: twenty estimates are worth five per
    character and six per special character of the cleaned text. *)
Lemma estimate_tokens_closed (text : string) :
  TokenCounter.estimate_tokens text
  = (5 * Z.of_nat (String.length (TokenCounter.cleaned text))
     + 6 * Z.of_nat (PyStr.count_special (TokenCounter.cleaned text))) / 20.
Proof.
  destruct text as [|c t]; [reflexivity|].
  unfold TokenCounter.estimate_tokens. apply estimate_sum_int; lia.
Qed.

Lemma estimate_spec_closed (text : string) :
  TokenCounter.estimate_spec text
  = (5 * Z.of_nat (String.length (PyStr.re_sub_spaces text))
     + 6 * Z.of_nat (PyStr.count_special (PyStr.re_sub_spaces text))) / 20.
Proof.
  destruct text as [|c t]; [reflexivity|].
  unfold TokenCounter.estimate_spec. apply estimate_sum_int; lia.
Qed.

Lemma estimate_tokens_nonneg (text : string) :
  0 <= TokenCounter.estimate_tokens text.
Proof. rewrite estimate_tokens_closed. apply Z.div_pos; lia. Qed.

(** On machine floats the estimate is the same integer: for every text of
    fewer than 200 normalised characters, and on large whole sums. *)
Lemma binary64_estimate_agrees :
  forallb (fun '(n, c) => Binary64.estimate n c =? (5 * n + 6 * c) / 20)
          (Binary64.triangle 200 ++ Binary64.whole_sums 2000) = true.
Proof. vm_compute. reflexivity. Qed.

Example binary64_estimate_fixtures :
  map Binary64.estimate_tokens
      [ ErrorDetectionTester.syntax_errors_tf;
        ErrorDetectionTester.reference_errors_tf;
        TerraformTokenBenchmark.user_data_sh; "   abc"; "a = b + c;  {x}" ]
  = map TokenCounter.estimate_tokens
      [ ErrorDetectionTester.syntax_errors_tf;
        ErrorDetectionTester.reference_errors_tf;
        TerraformTokenBenchmark.user_data_sh; "   abc"; "a = b + c;  {x}" ].
Proof. vm_compute. reflexivity. Qed.

(** C1, as the specification words it, fails: the source strips the text
    before it normalises the runs, so three leading blanks count for nothing,
    where a normalised leading run would leave one blank and a fourth
    character. *)
Lemma estimate_spec_leading_blanks :
  TokenCounter.estimate_tokens "   abc" = 0
  /\ TokenCounter.estimate_spec "   abc" = 1
  /\ TokenCounter.estimate_tokens "   abc"
     <> TokenCounter.estimate_spec "   abc".
Proof. repeat split; vm_compute; congruence. Qed.

(** C1, amended: for every text the estimate is a non-negative integer; it
    is the truncation of [len/4 + 0.3 * specials] taken on the text with its
    leading and trailing white space removed and its remaining white-space
    runs normalised to single blanks, that is the specification's algorithm
    run on the stripped text; the empty and the absent text give 0. *)
Theorem estimate_tokens_strip_normalise (text : string) :
  let normalized := PyStr.re_sub_spaces (PyStr.strip text) in
  let x := (inject_Z (Z.of_nat (String.length normalized)) / 4
            + (3 # 10)
              * inject_Z (Z.of_nat (PyStr.count_special normalized)))%Q in
  0 <= TokenCounter.estimate_tokens text
  /\ (inject_Z (TokenCounter.estimate_tokens text) <= x)%Q
  /\ (x < inject_Z (TokenCounter.estimate_tokens text + 1))%Q
  /\ TokenCounter.estimate_tokens text
     = TokenCounter.estimate_spec (PyStr.strip text)
  /\ TokenCounter.estimate_tokens "" = 0
  /\ TokenCounter.estimate_tokens_opt None = 0.
Proof.
  intros normalized x.
  assert (Hx : (x == (5 * Z.of_nat (String.length normalized)
                      + 6 * Z.of_nat (PyStr.count_special normalized)) # 20)%Q).
  { unfold x, Qeq, Qdiv, Qmult, Qplus, Qinv, inject_Z. simpl. lia. }
  assert (He : TokenCounter.estimate_tokens text = Qfloor x).
  { rewrite (Qfloor_comp _ _ Hx), estimate_tokens_closed. reflexivity. }
  split; [apply estimate_tokens_nonneg|].
  split; [rewrite He; apply Qfloor_le|].
  split; [rewrite He; apply Qlt_floor|].
  split; [|split; reflexivity].
  rewrite estimate_tokens_closed, estimate_spec_closed. reflexivity.
Qed.

(** C2: for all non-empty texts [t1] and [t2], the estimate of [t1 + t2] is
    at least the estimate of [t1].  The one-pass form of the normalisation
    only grows when text is appended, in length and in special characters,
    so the two hypotheses are not used. *)
Theorem estimate_tokens_monotone (t1 t2 : string) :
  t1 <> EmptyString -> t2 <> EmptyString ->
  TokenCounter.estimate_tokens t1 <= TokenCounter.estimate_tokens (t1 +:+ t2).
Proof.
  intros _ _.
  rewrite !estimate_tokens_closed, !strip_sub_one_pass.
  apply Z.div_le_mono; [lia|].
  pose proof (one_pass_app_length t1 t2 false false) as Hlen.
  pose proof (one_pass_app_special t1 t2 false false) as Hspecial.
  lia.
Qed.

Lemma estimate_tokens_monotone_witness :
  "x = 1" <> EmptyString /\ "  ; y" <> EmptyString
  /\ TokenCounter.estimate_tokens "x = 1"
     <= TokenCounter.estimate_tokens ("x = 1" +:+ "  ; y").
Proof.
  split; [discriminate|]. split; [discriminate|].
  apply (estimate_tokens_monotone "x = 1" "  ; y"); discriminate.
Defined.

(** ** State passing *)

(** The world after one reading of the clock. *)
Lemma time_time_world (w : World) :
  (time_time w).2 = mkWorld (fs w) (dirs w) (clock w) (S (readings w)).
Proof. reflexivity. Qed.

Lemma for_each_Forall2 {A B} (f : A -> State B) (R : A -> B -> Prop) :
  (forall a w, R a (f a w).1) ->
  forall l w, Forall2 R l (for_each f l w).1.
Proof.
  intros Hf. induction l as [|a l IH]; intros w; [constructor|].
  cbn [for_each]. unfold bind, ret.
  specialize (Hf a w). destruct (f a w) as [b w1].
  specialize (IH w1). destruct (for_each f l w1) as [bs w2].
  constructor; assumption.
Qed.

Lemma for_each_map {A B C} (f : A -> State B) (g : B -> C) (h : A -> C) :
  (forall a w, g (f a w).1 = h a) ->
  forall l w, map g (for_each f l w).1 = map h l.
Proof.
  intros Hf l w.
  pose proof (for_each_Forall2 f (fun a b => g b = h a) Hf l w) as H.
  induction H; [reflexivity|]. cbn. congruence.
Qed.

Lemma for_each_Forall {A B} (f : A -> State B) (P : B -> Prop) :
  (forall a w, P (f a w).1) ->
  forall l w, Forall P (for_each f l w).1.
Proof.
  intros Hf l w.
  pose proof (for_each_Forall2 f (fun _ b => P b) Hf l w) as H.
  induction H; constructor; assumption.
Qed.

(** ** The token benchmark *)

Import TerraformTokenBenchmark.

(** What [benchmark_lsp_operation] sends and receives, by the outcome of
    the call, which is made after the first reading of the clock. *)
Lemma benchmark_lsp_operation_tokens (op : string) (f : World -> Exn + string)
    (w : World) :
  let u := (benchmark_lsp_operation op f w).1 in
  let input_context :=
    match f (time_time w).2 with
    | inr _ => "Task: " +:+ op +:+ PyFmt.nl +:+ "Using LSP semantic search"
                 +:+ PyFmt.nl +:+ "Parameters: {}"
    | inl _ => "Task: " +:+ op +:+ PyFmt.nl +:+ "Failed operation"
    end in
  let payload :=
    match f (time_time w).2 with
    | inr result => result
    | inl e => "Error: " +:+ str_exn e
    end in
  operation u = op /\ method u = "LSP"
  /\ input_tokens u = TokenCounter.estimate_tokens input_context
  /\ output_tokens u = TokenCounter.estimate_tokens payload
  /\ total_tokens u = input_tokens u + output_tokens u
  /\ content_length u = String.length payload
  /\ success u
     = match f (time_time w).2 with inl _ => false | inr _ => true end.
Proof.
  unfold benchmark_lsp_operation, bind, get_world, ret. cbn.
  destruct (f _) as [e|result]; cbn; repeat split.
Qed.

Lemma benchmark_non_lsp_operation_tokens (ws op : string)
    (files : list string) (w : World) :
  let u := (benchmark_non_lsp_operation ws op files w).1 in
  let read := read_files ws (time_time w).2 files EmptyString in
  let input_context :=
    match read with
    | inr all_content =>
        "Task: " +:+ op +:+ PyFmt.nl +:+ "Reading entire files for context"
          +:+ PyFmt.nl +:+ "Files: " +:+ PyFmt.repr_list files +:+ PyFmt.nl
          +:+ PyFmt.nl +:+ all_content
    | inl _ => "Task: " +:+ op +:+ PyFmt.nl +:+ "Failed to read files: "
                 +:+ PyFmt.repr_list files
    end in
  let payload :=
    match read with
    | inr all_content =>
        "Found content in " +:+ PyFmt.str_nat (length files)
          +:+ " files, total " +:+ PyFmt.str_nat (String.length all_content)
          +:+ " characters"
    | inl e => "Error: " +:+ str_exn e
    end in
  operation u = op /\ method u = "Non-LSP"
  /\ input_tokens u = TokenCounter.estimate_tokens input_context
  /\ output_tokens u = TokenCounter.estimate_tokens payload
  /\ total_tokens u = input_tokens u + output_tokens u
  /\ content_length u = String.length payload
  /\ success u = match read with inl _ => false | inr _ => true end.
Proof.
  unfold benchmark_non_lsp_operation, bind, get_world, ret. cbn.
  destruct (read_files _ _ _ _) as [e|all_content]; cbn; repeat split.
Qed.

Lemma run_scenario_usages (ws : string) (agent : Agent) (s : Scenario)
    (w : World) :
  let r := (run_scenario ws agent s w).1 in
  scenario r = name s
  /\ lsp_usage r = (benchmark_lsp_operation (name s) (lsp_func agent s) w).1
  /\ non_lsp_usage r
     = (benchmark_non_lsp_operation ws (name s) (non_lsp_files s)
          (benchmark_lsp_operation (name s) (lsp_func agent s) w).2).1.
Proof.
  unfold run_scenario, bind, ret.
  destruct (benchmark_lsp_operation _ _ w) as [u w1]. cbn [fst snd].
  destruct (benchmark_non_lsp_operation _ _ _ w1) as [v w2].
  cbn. auto.
Qed.

(** One result per scenario, in the order of the catalogue, whatever the
    calls and the files do. *)
Lemma run_benchmark_scenarios_names (ws : string) (agent : Agent) (w : World) :
  map scenario (run_benchmark_scenarios ws agent w).1 = map name scenarios.
Proof.
  apply for_each_map. intros s w'. apply run_scenario_usages.
Qed.

(** C10: every token-usage record of either mode has [total_tokens =
    input_tokens + output_tokens], with [input_tokens] the estimate of the
    input context and [output_tokens] the estimate of the output payload;
    so have the two records of every result of a benchmark run. *)
Theorem token_usage_total_is_sum (ws op : string) (f : World -> Exn + string)
    (files : list string) (agent : Agent) (w : World) :
  let u := (benchmark_lsp_operation op f w).1 in
  let v := (benchmark_non_lsp_operation ws op files w).1 in
  (total_tokens u = input_tokens u + output_tokens u
   /\ input_tokens u
      = TokenCounter.estimate_tokens
          match f (time_time w).2 with
          | inr _ => "Task: " +:+ op +:+ PyFmt.nl
                       +:+ "Using LSP semantic search" +:+ PyFmt.nl
                       +:+ "Parameters: {}"
          | inl _ => "Task: " +:+ op +:+ PyFmt.nl +:+ "Failed operation"
          end
   /\ output_tokens u
      = TokenCounter.estimate_tokens
          match f (time_time w).2 with
          | inr result => result
          | inl e => "Error: " +:+ str_exn e
          end)
  /\ (total_tokens v = input_tokens v + output_tokens v
      /\ input_tokens v
         = TokenCounter.estimate_tokens
             match read_files ws (time_time w).2 files EmptyString with
             | inr all_content =>
                 "Task: " +:+ op +:+ PyFmt.nl
                   +:+ "Reading entire files for context" +:+ PyFmt.nl
                   +:+ "Files: " +:+ PyFmt.repr_list files +:+ PyFmt.nl
                   +:+ PyFmt.nl +:+ all_content
             | inl _ =>
                 "Task: " +:+ op +:+ PyFmt.nl +:+ "Failed to read files: "
                   +:+ PyFmt.repr_list files
             end
      /\ output_tokens v
         = TokenCounter.estimate_tokens
             match read_files ws (time_time w).2 files EmptyString with
             | inr all_content =>
                 "Found content in " +:+ PyFmt.str_nat (length files)
                   +:+ " files, total "
                   +:+ PyFmt.str_nat (String.length all_content)
                   +:+ " characters"
             | inl e => "Error: " +:+ str_exn e
             end)
  /\ Forall (fun r =>
               total_tokens (lsp_usage r)
               = input_tokens (lsp_usage r) + output_tokens (lsp_usage r)
               /\ total_tokens (non_lsp_usage r)
                  = input_tokens (non_lsp_usage r)
                    + output_tokens (non_lsp_usage r))
            (run_benchmark_scenarios ws agent w).1.
Proof.
  intros u v.
  pose proof (benchmark_lsp_operation_tokens op f w) as Hu.
  pose proof (benchmark_non_lsp_operation_tokens ws op files w) as Hv.
  cbv zeta in Hu, Hv. fold u in Hu. fold v in Hv.
  split; [tauto|]. split; [tauto|].
  apply for_each_Forall. intros s w'.
  destruct (run_scenario_usages ws agent s w') as (_ & -> & ->).
  split.
  - apply benchmark_lsp_operation_tokens.
  - apply benchmark_non_lsp_operation_tokens.
Qed.

(** C3: in every result of a benchmark run the two usages are those of the
    result's scenario, [token_savings] is the naive total minus the
    semantic total, [efficiency_improvement] is that difference over
    [max(naive total, 1)] times 100, and [context_reduction] is the same
    over the input tokens alone. *)
Theorem comparison_record_formulas (ws : string) (agent : Agent) (w : World) :
  Forall (fun r =>
            operation (lsp_usage r) = scenario r
            /\ operation (non_lsp_usage r) = scenario r
            /\ method (lsp_usage r) = "LSP"
            /\ method (non_lsp_usage r) = "Non-LSP"
            /\ token_savings r
               = total_tokens (non_lsp_usage r) - total_tokens (lsp_usage r)
            /\ efficiency_improvement r
               = (Qc_of_Z (token_savings r)
                  / Qc_of_Z (Z.max (total_tokens (non_lsp_usage r)) 1)
                  * Qc_of_Z 100)%Qc
            /\ context_reduction r
               = (Qc_of_Z (input_tokens (non_lsp_usage r)
                           - input_tokens (lsp_usage r))
                  / Qc_of_Z (Z.max (input_tokens (non_lsp_usage r)) 1)
                  * Qc_of_Z 100)%Qc)
         (run_benchmark_scenarios ws agent w).1.
Proof.
  apply for_each_Forall. intros s w'.
  unfold run_scenario, bind, ret.
  pose proof (benchmark_lsp_operation_tokens (name s) (lsp_func agent s) w')
    as Hu.
  destruct (benchmark_lsp_operation _ _ w') as [u w1].
  pose proof (benchmark_non_lsp_operation_tokens ws (name s)
                (non_lsp_files s) w1) as Hv.
  destruct (benchmark_non_lsp_operation _ _ _ w1) as [v w2].
  cbn in *. repeat split; tauto.
Qed.

(** ** The error-detection test: failures *)

Lemma detect_error (agent : Agent) (k : ErrorDetectionTester.KnownError)
    (w : World) :
  ErrorDetectionTester.error (ErrorDetectionTester.detect agent k w).1 = k.
Proof.
  unfold ErrorDetectionTester.detect, bind, get_world, ret. cbn.
  destruct (find_symbol _ _ _ _) as [e|result]; [reflexivity|].
  destruct result; [reflexivity|].
  destruct (json_loads _ _); reflexivity.
Qed.

Lemma detect_raise (agent : Agent) (k : ErrorDetectionTester.KnownError)
    (w : World) (e : Exn) :
  find_symbol agent (time_time w).2 (ErrorDetectionTester.pattern k) true
  = inl e ->
  (ErrorDetectionTester.detect agent k w).1
  = ErrorDetectionTester.failed_attempt k e.
Proof.
  intros H. unfold ErrorDetectionTester.detect, bind, get_world, ret.
  cbn in *. rewrite H. reflexivity.
Qed.

(** The attempts are those of the catalogue, one each and in its order. *)
Lemma test_lsp_error_detection_on_attempts (agent : Agent)
    (known : list ErrorDetectionTester.KnownError) (w : World)
    (r : ErrorDetectionTester.LspResults) :
  (ErrorDetectionTester.test_lsp_error_detection_on agent known w).1 = inr r ->
  map ErrorDetectionTester.error (ErrorDetectionTester.detection_attempts r)
  = known
  /\ ErrorDetectionTester.total_errors r = length known
  /\ (ErrorDetectionTester.detected_errors r <= length known)%nat
  /\ ErrorDetectionTester.detection_rate r
     = (Qc_of_Z (Z.of_nat (ErrorDetectionTester.detected_errors r))
        / Qc_of_Z (Z.of_nat (length known)) * Qc_of_Z 100)%Qc.
Proof.
  unfold ErrorDetectionTester.test_lsp_error_detection_on, bind, ret.
  pose proof (for_each_map (ErrorDetectionTester.detect agent)
                ErrorDetectionTester.error id (detect_error agent) known w)
    as Hmap.
  destruct (for_each _ known w) as [atts w1]. cbn [fst] in Hmap.
  rewrite map_id in Hmap.
  destruct (py_truediv _ _) as [e|ratio] eqn:Hdiv; cbn; [discriminate|].
  intros [= <-]. cbn.
  unfold py_truediv in Hdiv. destruct (_ =? 0); [discriminate|].
  injection Hdiv as <-.
  split; [exact Hmap|]. split; [reflexivity|]. split; [|reflexivity].
  rewrite length_fmap, <- Hmap, length_map. apply List.filter_length_le.
Qed.

Lemma test_lsp_error_detection_on_returns (agent : Agent)
    (known : list ErrorDetectionTester.KnownError) (w : World) :
  known <> [] ->
  exists r,
    (ErrorDetectionTester.test_lsp_error_detection_on agent known w).1 = inr r.
Proof.
  intros Hne.
  unfold ErrorDetectionTester.test_lsp_error_detection_on, bind, ret.
  destruct (for_each _ known w) as [atts w1].
  unfold py_truediv.
  destruct (Z.eqb_spec (Z.of_nat (length known)) 0) as [H0|H0].
  - destruct known; [congruence|cbn in H0; lia].
  - cbn. eexists. reflexivity.
Qed.

(** C4, as the specification words it, fails: a token-usage record keeps no
    error message.  Two services that are down with different messages of
    equal size give the same results for the whole batch. *)
Lemma lsp_failure_message_not_kept :
  "aaaa" <> "bbbb"
  /\ (run_benchmark_scenarios "/tmp/ws" (Samples.agent_down "aaaa")
        Samples.world0).1
     = (run_benchmark_scenarios "/tmp/ws" (Samples.agent_down "bbbb")
          Samples.world0).1.
Proof. split; [discriminate|]. vm_compute. reflexivity. Qed.

(** C4, amended: if the semantic query of a scenario raises, the token
    benchmark catches it and gives a record with [success = false] whose
    payload is the text [Error: ] followed by the message, kept only by its
    length and token count; the error-detection test catches it and records
    an attempt with [detected = false] and the message (be it empty); in
    both, the batch goes on: the benchmark returns one result per scenario
    and the detection test one attempt per known error, whatever raises. *)
Theorem query_failure_is_contained (agent : Agent) (w : World) (s : Scenario)
    (k : ErrorDetectionTester.KnownError) (e1 e2 : Exn) :
  lsp_func agent s (time_time w).2 = inl e1 ->
  find_symbol agent (time_time w).2 (ErrorDetectionTester.pattern k) true
  = inl e2 ->
  let u := (benchmark_lsp_operation (name s) (lsp_func agent s) w).1 in
  let a := (ErrorDetectionTester.detect agent k w).1 in
  (success u = false
   /\ output_tokens u = TokenCounter.estimate_tokens ("Error: " +:+ str_exn e1)
   /\ content_length u = String.length ("Error: " +:+ str_exn e1)
   /\ (7 <= content_length u)%nat)
  /\ (ErrorDetectionTester.detected a = false
      /\ ErrorDetectionTester.error_message a = Some (str_exn e2)
      /\ ErrorDetectionTester.error a = k)
  /\ (forall ws w',
        map scenario (run_benchmark_scenarios ws agent w').1
        = map name scenarios)
  /\ (forall w', exists r,
        (ErrorDetectionTester.test_lsp_error_detection agent w').1 = inr r
        /\ map ErrorDetectionTester.error
             (ErrorDetectionTester.detection_attempts r)
           = ErrorDetectionTester.known_errors).
Proof.
  intros H1 H2 u a.
  pose proof (benchmark_lsp_operation_tokens (name s) (lsp_func agent s) w)
    as Hu.
  cbv zeta in Hu. fold u in Hu. rewrite H1 in Hu.
  destruct Hu as (_ & _ & _ & Hout & _ & Hlen & Hsucc).
  split.
  { repeat split; try assumption.
    rewrite Hlen, string_app_length. cbn. lia. }
  split; [unfold a; rewrite (detect_raise agent k w e2 H2); repeat split|].
  split; [intros ws w'; apply run_benchmark_scenarios_names|].
  intros w'.
  destruct (test_lsp_error_detection_on_returns agent
              ErrorDetectionTester.known_errors w') as [r Hr]; [discriminate|].
  exists r. split; [exact Hr|].
  apply (test_lsp_error_detection_on_attempts agent _ w' r Hr).
Qed.

Lemma query_failure_is_contained_witness :
  let agent := Samples.agent_down "service unavailable" in
  let s := mkScenario "Find all outputs" "output" ["outputs.tf"] in
  let k := ErrorDetectionTester.mkKnownError "type_mismatch"
             "String value for number type" "not_a_number"
             "variables_errors.tf" in
  let e := Exception "service unavailable" in
  let u := (benchmark_lsp_operation (name s) (lsp_func agent s)
              Samples.world0).1 in
  lsp_func agent s (time_time Samples.world0).2 = inl e
  /\ find_symbol agent (time_time Samples.world0).2
       (ErrorDetectionTester.pattern k) true = inl e
  /\ success u = false /\ content_length u = 26%nat.
Proof.
  intros agent s k e u.
  split; [reflexivity|]. split; [reflexivity|].
  destruct (query_failure_is_contained agent Samples.world0 s k e e
              eq_refl eq_refl) as ((Hs & _ & Hl & _) & _).
  split; [exact Hs | exact Hl].
Defined.

(** ** The naive mode and missing files *)

Lemma read_files_missing (ws : string) (w : World) (f : string)
    (files : list string) (acc : string) :
  fs w !! path_join ws f = None ->
  read_files ws w (f :: files) acc = read_files ws w files acc.
Proof. intros H. cbn [read_files]. unfold read_file. rewrite H. reflexivity. Qed.

Lemma read_files_unreadable (ws : string) (w : World) (f msg : string)
    (files : list string) (acc : string) :
  fs w !! path_join ws f = Some (Unreadable msg) ->
  read_files ws w (f :: files) acc = inl (Exception msg).
Proof. intros H. cbn [read_files]. unfold read_file. rewrite H. reflexivity. Qed.

Lemma read_files_returns (ws : string) (w : World) (files : list string) :
  Forall (fun g => forall msg, fs w !! path_join ws g <> Some (Unreadable msg))
         files ->
  forall acc, exists all_content, read_files ws w files acc = inr all_content.
Proof.
  induction 1 as [|g files Hg _ IH]; intros acc; [eexists; reflexivity|].
  cbn [read_files]. unfold read_file.
  destruct (fs w !! path_join ws g) as [[content|msg]|] eqn:Hl.
  - apply IH.
  - destruct (Hg msg eq_refl).
  - apply IH.
Qed.

(** C6, as the specification words it, fails: with no file at all, the
    scenario that names [main.tf] reports success. *)
Lemma missing_file_reports_success :
  fs Samples.world0 !! path_join "/tmp/ws" "main.tf" = None
  /\ success (benchmark_non_lsp_operation "/tmp/ws" "Find all VPC resources"
                ["main.tf"] Samples.world0).1 = true.
Proof. split; vm_compute; reflexivity. Qed.

(** C6, amended: a file that is missing when the naive mode reads it is
    passed over: the files are read as if it were not named, and the
    scenario reports success when no other file fails to be read; a file
    that cannot be read for another reason makes the scenario report a
    failure; in each case the batch returns one result per scenario. *)
Theorem missing_file_is_skipped (ws op f : string) (files : list string)
    (w : World) :
  fs w !! path_join ws f = None ->
  Forall (fun g => forall msg, fs w !! path_join ws g <> Some (Unreadable msg))
         files ->
  success (benchmark_non_lsp_operation ws op (f :: files) w).1 = true
  /\ read_files ws (time_time w).2 (f :: files) EmptyString
     = read_files ws (time_time w).2 files EmptyString
  /\ (forall g msg,
        fs w !! path_join ws g = Some (Unreadable msg) ->
        success (benchmark_non_lsp_operation ws op (f :: g :: files) w).1
        = false)
  /\ (forall agent w',
        map scenario (run_benchmark_scenarios ws agent w').1
        = map name scenarios).
Proof.
  intros Hf Hfiles.
  assert (Hskip : forall l acc,
             read_files ws (time_time w).2 (f :: l) acc
             = read_files ws (time_time w).2 l acc).
  { intros l acc. apply read_files_missing. exact Hf. }
  split; [|split; [apply Hskip|split]].
  - destruct (benchmark_non_lsp_operation_tokens ws op (f :: files) w)
      as (_ & _ & _ & _ & _ & _ & ->).
    rewrite Hskip.
    destruct (read_files_returns ws (time_time w).2 files Hfiles EmptyString)
      as [c ->]. reflexivity.
  - intros g msg Hg.
    destruct (benchmark_non_lsp_operation_tokens ws op (f :: g :: files) w)
      as (_ & _ & _ & _ & _ & _ & ->).
    rewrite Hskip, (read_files_unreadable _ _ g msg); [reflexivity|exact Hg].
  - intros agent w'. apply run_benchmark_scenarios_names.
Qed.

Lemma missing_file_is_skipped_witness :
  let w := set_fs <[ "/tmp/ws/outputs.tf" := Readable "output {}" ]>
             Samples.world0 in
  fs w !! path_join "/tmp/ws" "main.tf" = None
  /\ Forall (fun g => forall msg,
               fs w !! path_join "/tmp/ws" g <> Some (Unreadable msg))
            ["outputs.tf"]
  /\ success (benchmark_non_lsp_operation "/tmp/ws"
                "Find load balancer configuration"
                ["main.tf"; "outputs.tf"] w).1 = true.
Proof.
  intros w.
  assert (H1 : fs w !! path_join "/tmp/ws" "main.tf" = None)
    by (vm_compute; reflexivity).
  assert (H2 : Forall (fun g => forall msg,
                         fs w !! path_join "/tmp/ws" g <> Some (Unreadable msg))
                      ["outputs.tf"]).
  { constructor; [|constructor]. intros msg. vm_compute. discriminate. }
  split; [exact H1|]. split; [exact H2|].
  apply (missing_file_is_skipped "/tmp/ws" "Find load balancer configuration"
           "main.tf" ["outputs.tf"] w H1 H2).
Defined.

(** ** Ratios *)

(** A rate in percent, as one fraction. *)
Lemma rate_fraction (d : Z) (p : positive) :
  (this (Qc_of_Z d / Qc_of_Z (Zpos p) * Qc_of_Z 100)%Qc == (100 * d) # p)%Q.
Proof.
  unfold Qcdiv, Qcinv, Qcmult, Qc_of_Z. simpl.
  rewrite !Qred_correct.
  unfold Qeq, Qmult, Qinv. simpl. lia.
Qed.

Lemma rate_bounds (d n : Z) :
  0 <= d <= n -> 0 < n ->
  (0 <= Qc_of_Z d / Qc_of_Z n * Qc_of_Z 100)%Qc
  /\ (Qc_of_Z d / Qc_of_Z n * Qc_of_Z 100 <= Qc_of_Z 100)%Qc
  /\ (d = 0 -> (Qc_of_Z d / Qc_of_Z n * Qc_of_Z 100)%Qc = 0%Qc).
Proof.
  intros Hd Hn. destruct n as [|p|p]; try lia.
  unfold Qcle. rewrite rate_fraction. repeat split.
  - unfold Qle. simpl. lia.
  - unfold Qle. simpl. lia.
  - intros ->. apply Qc_is_canon. rewrite rate_fraction. reflexivity.
Qed.

Lemma rate_of_five (d : Z) :
  1 <= d -> (Qc_of_Z 20 <= py_div d 5 * Qc_of_Z 100)%Qc.
Proof.
  intros Hd. unfold py_div, Qcle. rewrite rate_fraction.
  unfold Qle. simpl. lia.
Qed.





(** ** The claims validation *)

Lemma by_name_In (n : string) (results : list TerraformABTester.TestResult)
    (r : TerraformABTester.TestResult) :
  In r results -> TerraformABTester.test_name r = n ->
  TerraformABTester.by_name n results <> [].
Proof.
  intros Hin Hn Hnil.
  assert (H : In r (TerraformABTester.by_name n results)).
  { apply List.filter_In. split; [exact Hin|]. apply String.eqb_eq. exact Hn. }
  rewrite Hnil in H. destruct H.
Qed.

(** The verdict on the error-detection claim is written once there is an
    error-detection result, and it is the text [needs_baseline]. *)
Lemma analyze_results_error_detection
    (results : list TerraformABTester.TestResult) :
  TerraformABTester.claims_validation
    (TerraformABTester.analyze_results results) !! "error_detection"
  = match TerraformABTester.by_name "error_detection_confidence" results with
    | [] => None
    | _ :: _ => Some (TerraformABTester.VStr "needs_baseline")
    end.
Proof.
  unfold TerraformABTester.analyze_results. cbn.
  destruct (TerraformABTester.by_name "startup_performance" results);
    [|rewrite lookup_insert_ne by discriminate];
    (destruct (TerraformABTester.by_name "error_detection_confidence" results);
     [|apply lookup_insert_eq]);
    (destruct (TerraformABTester.by_name "semantic_edit_quality" results);
     [apply lookup_empty|rewrite lookup_insert_ne by discriminate;
                         apply lookup_empty]).
Qed.

(** C7: when the error-detection claim, an improvement relative to the
    naive mode, has an error-detection measurement but none of the naive
    mode, its verdict is the explicit state [needs_baseline]; the verdict on
    that claim is never a pass or a fail. *)
Theorem error_detection_needs_baseline
    (results : list TerraformABTester.TestResult) :
  (exists r, In r results
             /\ TerraformABTester.test_name r = "error_detection_confidence") ->
  (forall r, In r results ->
             TerraformABTester.test_name r = "error_detection_confidence" ->
             TerraformABTester.mode r <> "Non-LSP") ->
  TerraformABTester.claims_validation
    (TerraformABTester.analyze_results results) !! "error_detection"
  = Some (TerraformABTester.VStr "needs_baseline")
  /\ (forall b,
        TerraformABTester.claims_validation
          (TerraformABTester.analyze_results results) !! "error_detection"
        <> Some (TerraformABTester.VBool b)).
Proof.
  intros (r & Hin & Hn) _.
  rewrite analyze_results_error_detection.
  pose proof (by_name_In _ results r Hin Hn) as Hne.
  destruct (TerraformABTester.by_name _ results); [congruence|].
  split; [reflexivity|discriminate].
Qed.

Lemma error_detection_needs_baseline_witness :
  (exists r, In r Samples.lsp_only_results
             /\ TerraformABTester.test_name r = "error_detection_confidence")
  /\ (forall r, In r Samples.lsp_only_results ->
                TerraformABTester.test_name r = "error_detection_confidence" ->
                TerraformABTester.mode r <> "Non-LSP")
  /\ TerraformABTester.claims_validation
       (TerraformABTester.analyze_results Samples.lsp_only_results)
       !! "error_detection"
     = Some (TerraformABTester.VStr "needs_baseline").
Proof.
  assert (H1 : exists r, In r Samples.lsp_only_results
                 /\ TerraformABTester.test_name r
                    = "error_detection_confidence").
  { eexists. split; [right; left; reflexivity|reflexivity]. }
  assert (H2 : forall r, In r Samples.lsp_only_results ->
                 TerraformABTester.test_name r = "error_detection_confidence" ->
                 TerraformABTester.mode r <> "Non-LSP").
  { intros r [<-|[<-|[<-|[]]]] _; discriminate. }
  split; [exact H1|]. split; [exact H2|].
  apply (error_detection_needs_baseline Samples.lsp_only_results H1 H2).
Defined.

Example analyze_lsp_only_results :
  TerraformABTester.claims_validation
    (TerraformABTester.analyze_results Samples.lsp_only_results)
  = {[ "quality" := TerraformABTester.VBool true;
       "error_detection" := TerraformABTester.VStr "needs_baseline";
       "performance" := TerraformABTester.VBool true ]}.
Proof. vm_compute. reflexivity. Qed.

(** ** Fixture materialisation *)

Lemma path_join_inj (d a b : string) : path_join d a = path_join d b -> a = b.
Proof.
  unfold path_join. intros H.
  apply (inj (String.append d)) in H.
  apply (inj (String.append "/")) in H. exact H.
Qed.

(** A file written under [d] is seen under [d] by its name only. *)
Lemma lookup_write_path (d n rel : string) (x : File) (m : gmap string File) :
  <[path_join d n := x]> m !! path_join d rel
  = if decide (n = rel) then Some x else m !! path_join d rel.
Proof.
  rewrite lookup_insert. destruct (decide (n = rel)) as [->|Hne].
  - rewrite decide_True; reflexivity.
  - rewrite decide_False; [reflexivity|].
    intros H. apply Hne. exact (path_join_inj d n rel H).
Qed.

Lemma create_error_scenarios_fs (ws : string) (w : World) :
  fs (ErrorDetectionTester.create_error_scenarios ws w).2
  = <[path_join ws "variables_errors.tf"
        := Readable ErrorDetectionTester.variables_errors_tf]>
      (<[path_join ws "reference_errors.tf"
           := Readable ErrorDetectionTester.reference_errors_tf]>
         (<[path_join ws "logic_errors.tf"
              := Readable ErrorDetectionTester.logic_errors_tf]>
            (<[path_join ws "syntax_errors.tf"
                 := Readable ErrorDetectionTester.syntax_errors_tf]> (fs w))))
  /\ ws ∈ dirs (ErrorDetectionTester.create_error_scenarios ws w).2.
Proof. split; [reflexivity|]. cbn. set_solver. Qed.

Lemma create_realistic_terraform_project_fs (ws a b c : string) (w : World) :
  fs (create_realistic_terraform_project ws a b c w).2
  = <[path_join ws "user_data.sh" := Readable user_data_sh]>
      (<[path_join ws "outputs.tf" := Readable c]>
         (<[path_join ws "variables.tf" := Readable b]>
            (<[path_join ws "main.tf" := Readable a]> (fs w)))).
Proof. reflexivity. Qed.

(** C8: materialising the same fixture into two empty workspaces gives the
    same file tree, name by name and content by content, whatever the two
    workspaces and the worlds around them are; this holds for the error
    scenarios and for the benchmark project. *)
Theorem materialization_deterministic (ws1 ws2 : string) (w1 w2 : World)
    (main_tf variables_tf outputs_tf : string) :
  (forall rel, fs w1 !! path_join ws1 rel = None) ->
  (forall rel, fs w2 !! path_join ws2 rel = None) ->
  forall rel,
    fs (ErrorDetectionTester.create_error_scenarios ws1 w1).2
      !! path_join ws1 rel
    = fs (ErrorDetectionTester.create_error_scenarios ws2 w2).2
        !! path_join ws2 rel
    /\ fs (create_realistic_terraform_project ws1 main_tf variables_tf
             outputs_tf w1).2 !! path_join ws1 rel
       = fs (create_realistic_terraform_project ws2 main_tf variables_tf
               outputs_tf w2).2 !! path_join ws2 rel.
Proof.
  intros H1 H2 rel. split.
  - rewrite (proj1 (create_error_scenarios_fs ws1 w1)),
      (proj1 (create_error_scenarios_fs ws2 w2)).
    rewrite !lookup_write_path, H1, H2. reflexivity.
  - rewrite !create_realistic_terraform_project_fs.
    rewrite !lookup_write_path, H1, H2. reflexivity.
Qed.

Lemma materialization_deterministic_witness :
  (forall rel, fs Samples.world0 !! path_join "/tmp/a" rel = None)
  /\ (forall rel, fs Samples.world0 !! path_join "/srv/b" rel = None)
  /\ fs (ErrorDetectionTester.create_error_scenarios "/tmp/a"
           Samples.world0).2 !! path_join "/tmp/a" "logic_errors.tf"
     = fs (ErrorDetectionTester.create_error_scenarios "/srv/b"
             Samples.world0).2 !! path_join "/srv/b" "logic_errors.tf".
Proof.
  assert (H : forall d rel, fs Samples.world0 !! path_join d rel = None)
    by (intros d rel; apply lookup_empty).
  split; [apply H|]. split; [apply H|].
  apply (materialization_deterministic "/tmp/a" "/srv/b" Samples.world0
           Samples.world0 "" "" "" (H _) (H _) "logic_errors.tf").
Defined.

(** ** The text scan *)

Lemma strip_prefix_app (a b c : string) :
  ErrorDetectionTester.strip_prefix (a +:+ b) (a +:+ c)
  = ErrorDetectionTester.strip_prefix b c.
Proof.
  induction a as [|x a IH]; [reflexivity|].
  change (ErrorDetectionTester.strip_prefix (String x (a +:+ b))
            (String x (a +:+ c)) = ErrorDetectionTester.strip_prefix b c).
  cbn [ErrorDetectionTester.strip_prefix]. rewrite Ascii.eqb_refl. exact IH.
Qed.

(** A file of a directory that exists is listed. *)
Lemma listdir_lists (w : World) (d n : string) (x : File) :
  d ∈ dirs w -> fs w !! path_join d n = Some x ->
  ErrorDetectionTester.first_component n = n ->
  exists names, ErrorDetectionTester.listdir w d = inr names /\ In n names.
Proof.
  intros Hd Hx Hn. unfold ErrorDetectionTester.listdir.
  rewrite decide_True by exact Hd. eexists. split; [reflexivity|].
  apply list_elem_of_In, elem_of_remove_dups, list_elem_of_omap.
  exists (path_join d n). split.
  - apply list_elem_of_fmap. exists (path_join d n, x). split; [reflexivity|].
    apply elem_of_map_to_list. exact Hx.
  - unfold path_join. rewrite strip_prefix_app.
    change (ErrorDetectionTester.strip_prefix "/" ("/" +:+ n)) with (Some n).
    cbn. rewrite Hn. reflexivity.
Qed.

Lemma scan_file_keeps (ws : string) (patterns : list string) (w : World)
    (names acc : list string) (p : string) :
  In p acc ->
  In p (fold_left (ErrorDetectionTester.scan_file ws patterns w) names acc).
Proof.
  revert acc. induction names as [|n names IH]; intros acc Hp; [exact Hp|].
  cbn [fold_left]. apply IH. unfold ErrorDetectionTester.scan_file.
  destruct (PyStr.endswith n ".tf"); [|exact Hp].
  destruct (read_file w _); [exact Hp|].
  apply in_or_app. left. exact Hp.
Qed.

(** A pattern that occurs in a listed [.tf] file is among the detected. *)
Lemma scan_file_finds (ws : string) (patterns : list string) (w : World)
    (names : list string) (n content p : string) :
  In n names -> PyStr.endswith n ".tf" = true ->
  read_file w (path_join ws n) = inr content ->
  In p patterns -> PyStr.contains p content = true ->
  forall acc,
    In p (fold_left (ErrorDetectionTester.scan_file ws patterns w) names acc).
Proof.
  intros Hn Hsuf Hread Hp Hc.
  induction names as [|m names IH]; intros acc; [destruct Hn|].
  cbn [fold_left]. destruct Hn as [->|Hn]; [|apply IH; exact Hn].
  apply scan_file_keeps. unfold ErrorDetectionTester.scan_file.
  rewrite Hsuf, Hread. apply in_or_app. right.
  apply List.filter_In. split; assumption.
Qed.

(** C9: once the error scenarios are written, the reference fixture holds
    the text [undefined_variable] in a [.tf] file, and the text scan over
    the workspace returns a result, with that pattern among the detected
    ones, a detection count of at least 1 and a rate of at least 20. *)
Theorem undefined_variable_is_detected (ws : string) (w : World) :
  let w' := (ErrorDetectionTester.create_error_scenarios ws w).2 in
  fs w' !! path_join ws "reference_errors.tf"
  = Some (Readable ErrorDetectionTester.reference_errors_tf)
  /\ PyStr.contains "undefined_variable"
       ErrorDetectionTester.reference_errors_tf = true
  /\ PyStr.endswith "reference_errors.tf" ".tf" = true
  /\ exists r,
       ErrorDetectionTester.test_traditional_error_detection ws w' = inr r
       /\ "undefined_variable" ∈ ErrorDetectionTester.detected_patterns r
       /\ (1 <= ErrorDetectionTester.patterns_detected r)%nat
       /\ (Qc_of_Z 20 <= ErrorDetectionTester.traditional_detection_rate r)%Qc.
Proof.
  intros w'.
  destruct (create_error_scenarios_fs ws w) as [Hfs Hdir]. fold w' in Hfs, Hdir.
  assert (Hfile : fs w' !! path_join ws "reference_errors.tf"
                  = Some (Readable ErrorDetectionTester.reference_errors_tf)).
  { rewrite Hfs, !lookup_write_path. reflexivity. }
  assert (Hc : PyStr.contains "undefined_variable"
                 ErrorDetectionTester.reference_errors_tf = true)
    by (vm_compute; reflexivity).
  split; [exact Hfile|]. split; [exact Hc|]. split; [reflexivity|].
  destruct (listdir_lists w' ws "reference_errors.tf" _ Hdir Hfile eq_refl)
    as (names & Hls & Hin).
  unfold ErrorDetectionTester.test_traditional_error_detection,
    ErrorDetectionTester.test_traditional_error_detection_on.
  rewrite Hls.
  set (found := fold_left _ names []).
  assert (Hfound : "undefined_variable" ∈ (list_to_set found : gset string)).
  { apply elem_of_list_to_set, list_elem_of_In.
    apply (scan_file_finds ws _ w' names "reference_errors.tf"
             ErrorDetectionTester.reference_errors_tf);
      [exact Hin|reflexivity| |cbn; tauto|exact Hc].
    unfold read_file. rewrite Hfile. reflexivity. }
  assert (Hsize : (1 <= size (list_to_set found : gset string))%nat).
  { destruct (size (list_to_set found : gset string)) eqn:Hs; [|lia].
    apply size_empty_iff in Hs.
    rewrite Hs in Hfound. destruct (not_elem_of_empty _ Hfound). }
  change (length ErrorDetectionTester.error_patterns) with 5%nat.
  unfold py_truediv. change (Z.of_nat 5 =? 0) with false. cbn iota.
  eexists. split; [reflexivity|].
  cbn [ErrorDetectionTester.detected_patterns
         ErrorDetectionTester.patterns_detected
         ErrorDetectionTester.traditional_detection_rate].
  split; [exact Hfound|]. split; [exact Hsize|].
  apply (rate_of_five (Z.of_nat (size (list_to_set found : gset string)))).
  lia.
Qed.

(** * Further properties of the code *)

(** ** The normal form of a text *)

Lemma isspace_blank : PyStr.isspace " " = true.
Proof. reflexivity. Qed.

(** Normalising a normalised text, from the states it can be read in. *)
Lemma one_pass_twice (s : string) :
  (forall st,
      PyStr.one_pass true false (PyStr.one_pass st false s)
      = PyStr.one_pass st false s)
  /\ PyStr.one_pass false false (PyStr.one_pass false false s)
     = PyStr.one_pass false false s
  /\ PyStr.one_pass true true (PyStr.one_pass true true s)
     = PyStr.one_pass true true s
  /\ PyStr.one_pass true false (PyStr.one_pass true true s)
     = PyStr.one_pass true true s.
Proof.
  induction s as [|c s (IH1 & IH0 & IH2 & IH3)]; [repeat split|].
  cbn [PyStr.one_pass]. destruct (PyStr.isspace c) eqn:Hc.
  - split; [|repeat split; assumption].
    intros [|]; [exact IH3|exact (IH1 false)].
  - cbn [PyStr.one_pass]. rewrite isspace_blank, Hc, (IH1 true).
    repeat split; intros; reflexivity.
Qed.

(** X1: the normalisation of line 70 is idempotent, and the estimate of a
    text is the estimate of its normal form: the layout of the white space
    does not change the estimate. *)
Theorem estimate_tokens_normal_form (text : string) :
  TokenCounter.cleaned (TokenCounter.cleaned text) = TokenCounter.cleaned text
  /\ TokenCounter.estimate_tokens (TokenCounter.cleaned text)
     = TokenCounter.estimate_tokens text.
Proof.
  assert (H : TokenCounter.cleaned (TokenCounter.cleaned text)
              = TokenCounter.cleaned text).
  { rewrite !strip_sub_one_pass. apply one_pass_twice. }
  split; [exact H|].
  rewrite (estimate_tokens_closed text), estimate_tokens_closed, H.
  reflexivity.
Qed.

Lemma one_pass_length_le (s : string) (st pd : bool) :
  (String.length (PyStr.one_pass st pd s)
   <= String.length s + (if pd then 1 else 0))%nat.
Proof.
  revert st pd. induction s as [|c s IH]; intros st pd;
    cbn [PyStr.one_pass String.length]; [lia|].
  destruct (PyStr.isspace c).
  - specialize (IH st st). destruct st, pd; lia.
  - specialize (IH true false). cbv iota in IH.
    destruct pd; cbn [String.length]; lia.
Qed.

Lemma count_special_le_length (s : string) :
  (PyStr.count_special s <= String.length s)%nat.
Proof.
  induction s as [|c s IH]; cbn; [lia|].
  destruct (PyStr.is_special c); lia.
Qed.

(** X2: the estimate never exceeds eleven twentieths of the length of the
    text, and so never the number of its characters. *)
Theorem estimate_tokens_upper_bound (text : string) :
  TokenCounter.estimate_tokens text
  <= 11 * Z.of_nat (String.length text) / 20
  /\ TokenCounter.estimate_tokens text <= Z.of_nat (String.length text).
Proof.
  assert (H : TokenCounter.estimate_tokens text
              <= 11 * Z.of_nat (String.length text) / 20).
  { rewrite estimate_tokens_closed, strip_sub_one_pass.
    apply Z.div_le_mono; [lia|].
    pose proof (one_pass_length_le text false false) as Hlen.
    pose proof (count_special_le_length (PyStr.one_pass false false text))
      as Hspecial.
    cbv iota in Hlen. lia. }
  split; [exact H|].
  etransitivity; [exact H|].
  apply Z.div_le_upper_bound; lia.
Qed.

Lemma one_pass_white (s : string) (st pd : bool) :
  forallb PyStr.isspace (list_ascii_of_string s) = true ->
  PyStr.one_pass st pd s = EmptyString.
Proof.
  revert st pd. induction s as [|c s IH]; intros st pd H; [reflexivity|].
  cbn in H. apply andb_prop in H as [Hc Hs].
  cbn [PyStr.one_pass]. rewrite Hc. apply IH. exact Hs.
Qed.

(** X3: a text made of white space only has the estimate 0, though it is
    not the empty text that line 66 returns 0 for. *)
Theorem estimate_tokens_white_space (text : string) :
  forallb PyStr.isspace (list_ascii_of_string text) = true ->
  TokenCounter.cleaned text = EmptyString
  /\ TokenCounter.estimate_tokens text = 0.
Proof.
  intros H.
  assert (Hc : TokenCounter.cleaned text = EmptyString).
  { rewrite strip_sub_one_pass. apply one_pass_white. exact H. }
  split; [exact Hc|].
  rewrite estimate_tokens_closed, Hc. reflexivity.
Qed.

Lemma estimate_tokens_white_space_witness :
  forallb PyStr.isspace
    (list_ascii_of_string (" " +:+ PyFmt.nl +:+ "  ")) = true
  /\ TokenCounter.estimate_tokens (" " +:+ PyFmt.nl +:+ "  ") = 0.
Proof.
  split; [reflexivity|].
  apply (estimate_tokens_white_space (" " +:+ PyFmt.nl +:+ "  ")).
  reflexivity.
Defined.

(** ** The benchmark and the world *)

Lemma for_each_Forall_inv {A B} (f : A -> State B) (I : World -> Prop)
    (P : B -> Prop) :
  (forall a w, I w -> P (f a w).1 /\ I (f a w).2) ->
  forall l w, I w -> Forall P (for_each f l w).1 /\ I (for_each f l w).2.
Proof.
  intros Hf. induction l as [|a l IH]; intros w Hw; [split; [constructor|exact Hw]|].
  cbn [for_each]. unfold bind, ret.
  destruct (Hf a w Hw) as [HP HI]. destruct (f a w) as [b w1].
  destruct (IH w1 HI) as [HPs HIs]. destruct (for_each f l w1) as [bs w2].
  split; [constructor; assumption|exact HIs].
Qed.

(** The world after [k] readings of the clock and nothing else. *)
Lemma benchmark_lsp_operation_world (op : string) (f : World -> Exn + string)
    (w : World) :
  (benchmark_lsp_operation op f w).2
  = mkWorld (fs w) (dirs w) (clock w) (2 + readings w)
  /\ execution_time (benchmark_lsp_operation op f w).1
     = (clock w (S (readings w)) - clock w (readings w))%Qc.
Proof.
  unfold benchmark_lsp_operation, bind, get_world, ret. cbn.
  destruct (f _); cbn; split; reflexivity.
Qed.

Lemma benchmark_non_lsp_operation_world (ws op : string) (files : list string)
    (w : World) :
  (benchmark_non_lsp_operation ws op files w).2
  = mkWorld (fs w) (dirs w) (clock w) (2 + readings w)
  /\ execution_time (benchmark_non_lsp_operation ws op files w).1
     = (clock w (S (readings w)) - clock w (readings w))%Qc.
Proof.
  unfold benchmark_non_lsp_operation, bind, get_world, ret. cbn.
  destruct (read_files _ _ _ _); cbn; split; reflexivity.
Qed.

Lemma run_scenario_world (ws : string) (agent : Agent) (s : Scenario)
    (w : World) :
  (run_scenario ws agent s w).2
  = mkWorld (fs w) (dirs w) (clock w) (4 + readings w)
  /\ execution_time (lsp_usage (run_scenario ws agent s w).1)
     = (clock w (S (readings w)) - clock w (readings w))%Qc
  /\ execution_time (non_lsp_usage (run_scenario ws agent s w).1)
     = (clock w (3 + readings w) - clock w (2 + readings w))%Qc.
Proof.
  unfold run_scenario, bind, ret.
  destruct (benchmark_lsp_operation_world (name s) (lsp_func agent s) w)
    as [Hw1 Ht1].
  destruct (benchmark_lsp_operation _ _ w) as [u w1]. cbn [fst snd] in *.
  destruct (benchmark_non_lsp_operation_world ws (name s) (non_lsp_files s) w1)
    as [Hw2 Ht2].
  destruct (benchmark_non_lsp_operation _ _ _ w1) as [v w2].
  cbn [fst snd lsp_usage non_lsp_usage] in *. subst w1 w2. cbn in Ht2.
  repeat split; assumption.
Qed.

(** X5: when the clock never runs backwards, every execution time of a
    benchmark run is non-negative. *)
Theorem execution_times_nonneg (ws : string) (agent : Agent) (w : World) :
  (forall n, (clock w n <= clock w (S n))%Qc) ->
  Forall (fun r => (0 <= execution_time (lsp_usage r))%Qc
                   /\ (0 <= execution_time (non_lsp_usage r))%Qc)
         (run_benchmark_scenarios ws agent w).1.
Proof.
  intros Hmono.
  apply (for_each_Forall_inv (run_scenario ws agent)
           (fun w' => clock w' = clock w)); [|reflexivity].
  intros s w' Hclock.
  destruct (run_scenario_world ws agent s w') as (Hw & H1 & H2).
  rewrite Hw, H1, H2, Hclock. cbn [clock].
  repeat split; try reflexivity; unfold Qcminus;
    apply (proj1 (Qcle_minus_iff _ _)), Hmono.
Qed.

Lemma execution_times_nonneg_witness :
  (forall n, (clock Samples.world0 n <= clock Samples.world0 (S n))%Qc)
  /\ Forall (fun r => (0 <= execution_time (lsp_usage r))%Qc
                      /\ (0 <= execution_time (non_lsp_usage r))%Qc)
       (run_benchmark_scenarios "/tmp/ws" Samples.agent_nothing
          Samples.world0).1.
Proof.
  assert (H : forall n,
             (clock Samples.world0 n <= clock Samples.world0 (S n))%Qc).
  { intros n. unfold Qcle, Qle. cbn. lia. }
  split; [exact H|].
  apply (execution_times_nonneg "/tmp/ws" Samples.agent_nothing
           Samples.world0 H).
Defined.

(** ** The comparison figures *)

Lemma percent_of_savings (s m : Z) :
  0 < m -> s <= m ->
  ((Qc_of_Z s / Qc_of_Z m * Qc_of_Z 100 <= Qc_of_Z 100)%Qc
   /\ (0 < s <-> (0 < Qc_of_Z s / Qc_of_Z m * Qc_of_Z 100)%Qc)
   /\ (s = 0 <-> (Qc_of_Z s / Qc_of_Z m * Qc_of_Z 100)%Qc = 0%Qc)).
Proof.
  intros Hm Hs. destruct m as [|p|p]; try lia.
  unfold Qcle, Qclt. rewrite rate_fraction. split; [|split].
  - unfold Qle. simpl. lia.
  - unfold Qlt. simpl. lia.
  - split.
    + intros ->. apply Qc_is_canon. rewrite rate_fraction. reflexivity.
    + intros H. apply (f_equal this) in H.
      pose proof (rate_fraction s p) as Hf. rewrite H in Hf.
      unfold Qeq in Hf. simpl in Hf. lia.
Qed.

(** X6: in every result of a benchmark run the two percentages are at most
    100, the efficiency improvement is positive exactly when tokens are
    saved, and it is zero exactly when the two totals are equal. *)
Theorem efficiency_improvement_bounds (ws : string) (agent : Agent)
    (w : World) :
  Forall (fun r =>
            (efficiency_improvement r <= Qc_of_Z 100)%Qc
            /\ (context_reduction r <= Qc_of_Z 100)%Qc
            /\ (0 < token_savings r <-> (0 < efficiency_improvement r)%Qc)
            /\ (total_tokens (lsp_usage r) = total_tokens (non_lsp_usage r)
                <-> efficiency_improvement r = 0%Qc))
         (run_benchmark_scenarios ws agent w).1.
Proof.
  apply for_each_Forall. intros s w'.
  unfold run_scenario, bind, ret.
  pose proof (benchmark_lsp_operation_tokens (name s) (lsp_func agent s) w')
    as Hu.
  destruct (benchmark_lsp_operation _ _ w') as [u w1].
  pose proof (benchmark_non_lsp_operation_tokens ws (name s)
                (non_lsp_files s) w1) as Hv.
  destruct (benchmark_non_lsp_operation _ _ _ w1) as [v w2].
  cbn in Hu, Hv. destruct Hu as (_ & _ & Hui & Huo & Hut & _).
  destruct Hv as (_ & _ & Hvi & Hvo & Hvt & _).
  assert (0 <= input_tokens u /\ 0 <= output_tokens u
          /\ 0 <= input_tokens v /\ 0 <= output_tokens v) as (? & ? & ? & ?).
  { rewrite Hui, Huo, Hvi, Hvo. repeat split; apply estimate_tokens_nonneg. }
  cbn [fst efficiency_improvement context_reduction token_savings
         lsp_usage non_lsp_usage]. unfold py_div.
  destruct (percent_of_savings (total_tokens v - total_tokens u)
              (Z.max (total_tokens v) 1)) as (Ha & Hb & Hc); [lia|lia|].
  destruct (percent_of_savings (input_tokens v - input_tokens u)
              (Z.max (input_tokens v) 1)) as (Hd & _ & _); [lia|lia|].
  split; [exact Ha|]. split; [exact Hd|]. split; [exact Hb|].
  split; intros Hzero.
  - apply Hc. lia.
  - apply Hc in Hzero. lia.
Qed.

(** ** Reading the files *)

Lemma read_files_append (ws : string) (w : World) (l1 l2 : list string)
    (acc : string) :
  read_files ws w (l1 ++ l2) acc
  = match read_files ws w l1 acc with
    | inr all_content => read_files ws w l2 all_content
    | inl e => inl e
    end.
Proof.
  revert acc. induction l1 as [|f l1 IH]; intros acc; [reflexivity|].
  cbn [app read_files].
  destruct (read_file w (path_join ws f)) as [[msg|msg|msg]|content];
    try reflexivity; apply IH.
Qed.

(** X7: reading a list of files in two parts composes: the second part
    goes on from the content of the first, an exception in the first part
    is the exception of the whole, and a second part of missing files adds
    nothing. *)
Theorem read_files_app (ws : string) (w : World) (l1 l2 : list string)
    (acc : string) :
  read_files ws w (l1 ++ l2) acc
  = match read_files ws w l1 acc with
    | inr all_content => read_files ws w l2 all_content
    | inl e => inl e
    end
  /\ (Forall (fun f => fs w !! path_join ws f = None) l2 ->
      read_files ws w (l1 ++ l2) acc = read_files ws w l1 acc).
Proof.
  assert (H : read_files ws w (l1 ++ l2) acc
              = match read_files ws w l1 acc with
                | inr all_content => read_files ws w l2 all_content
                | inl e => inl e
                end).
  { revert acc. induction l1 as [|f l1 IH]; intros acc; [reflexivity|].
    cbn [app read_files].
    destruct (read_file w (path_join ws f)) as [[msg|msg|msg]|content];
      try reflexivity; apply IH. }
  split; [exact H|].
  intros Hmissing. rewrite H.
  destruct (read_files ws w l1 acc) as [e|c]; [reflexivity|].
  clear H. induction Hmissing as [|f l2 Hf _ IH]; [reflexivity|].
  rewrite read_files_missing by exact Hf. exact IH.
Qed.

Lemma read_files_app_witness :
  Forall (fun f => fs Samples.world0 !! path_join "/tmp/ws" f = None)
         ["outputs.tf"]
  /\ read_files "/tmp/ws" Samples.world0 (["main.tf"] ++ ["outputs.tf"])
       EmptyString
     = read_files "/tmp/ws" Samples.world0 ["main.tf"] EmptyString.
Proof.
  assert (H : Forall (fun f => fs Samples.world0 !! path_join "/tmp/ws" f
                               = None) ["outputs.tf"])
    by repeat constructor.
  split; [exact H|].
  apply (read_files_app "/tmp/ws" Samples.world0 ["main.tf"] ["outputs.tf"]
           EmptyString). exact H.
Defined.

(** X8: the first file that cannot be read, for a reason other than being
    missing, ends the reading: whatever files come after it, the scenario
    reports a failure and the payload is the text [Error: ] with the message
    of that file. *)
Theorem first_unreadable_file_decides (ws op g msg : string)
    (before after : list string) (w : World) :
  Forall (fun f => forall m, fs w !! path_join ws f <> Some (Unreadable m))
         before ->
  fs w !! path_join ws g = Some (Unreadable msg) ->
  let u := (benchmark_non_lsp_operation ws op (before ++ g :: after) w).1 in
  success u = false
  /\ content_length u = (7 + String.length msg)%nat
  /\ output_tokens u = TokenCounter.estimate_tokens ("Error: " +:+ msg).
Proof.
  intros Hbefore Hg u.
  destruct (benchmark_non_lsp_operation_tokens ws op (before ++ g :: after) w)
    as (_ & _ & _ & Hout & _ & Hlen & Hsucc).
  fold u in Hout, Hlen, Hsucc.
  assert (Hread : read_files ws (time_time w).2 (before ++ g :: after)
                    EmptyString = inl (Exception msg)).
  { rewrite read_files_append.
    destruct (read_files_returns ws (time_time w).2 before Hbefore EmptyString)
      as [c ->].
    apply read_files_unreadable. exact Hg. }
  rewrite Hread in Hout, Hlen, Hsucc. cbn [str_exn] in Hout, Hlen.
  rewrite string_app_length in Hlen.
  split; [exact Hsucc|]. split; [exact Hlen|exact Hout].
Qed.

Lemma first_unreadable_file_decides_witness :
  let w := set_fs <[ "/tmp/ws/variables.tf" := Unreadable "Permission denied" ]>
             Samples.world0 in
  Forall (fun f => forall m,
            fs w !! path_join "/tmp/ws" f <> Some (Unreadable m)) ["main.tf"]
  /\ fs w !! path_join "/tmp/ws" "variables.tf"
     = Some (Unreadable "Permission denied")
  /\ success (benchmark_non_lsp_operation "/tmp/ws"
                "Find database-related resources"
                (["main.tf"] ++ "variables.tf" :: ["outputs.tf"]) w).1 = false.
Proof.
  intros w.
  assert (H1 : Forall (fun f => forall m,
                         fs w !! path_join "/tmp/ws" f <> Some (Unreadable m))
                      ["main.tf"]).
  { constructor; [|constructor]. intros m. vm_compute. discriminate. }
  assert (H2 : fs w !! path_join "/tmp/ws" "variables.tf"
               = Some (Unreadable "Permission denied"))
    by (vm_compute; reflexivity).
  split; [exact H1|]. split; [exact H2|].
  apply (first_unreadable_file_decides "/tmp/ws"
           "Find database-related resources" "variables.tf"
           "Permission denied" ["main.tf"] ["outputs.tf"] w H1 H2).
Defined.

Lemma read_files_all_missing (ws : string) (w : World) (files : list string)
    (acc : string) :
  Forall (fun f => fs w !! path_join ws f = None) files ->
  read_files ws w files acc = inr acc.
Proof.
  induction 1 as [|f files Hf _ IH]; [reflexivity|].
  rewrite read_files_missing by exact Hf. exact IH.
Qed.

(** X9: the payload of the naive mode counts the files that were named, not
    the files that were read: when every named file is missing the scenario
    succeeds and its payload still says that content was found in that many
    files, with a total of 0 characters. *)
Theorem all_files_missing_payload (ws op : string) (files : list string)
    (w : World) :
  Forall (fun f => fs w !! path_join ws f = None) files ->
  let u := (benchmark_non_lsp_operation ws op files w).1 in
  let payload := "Found content in " +:+ PyFmt.str_nat (length files)
                   +:+ " files, total 0 characters" in
  success u = true
  /\ content_length u = String.length payload
  /\ output_tokens u = TokenCounter.estimate_tokens payload.
Proof.
  intros Hmissing u payload.
  destruct (benchmark_non_lsp_operation_tokens ws op files w)
    as (_ & _ & _ & Hout & _ & Hlen & Hsucc).
  fold u in Hout, Hlen, Hsucc.
  rewrite (read_files_all_missing ws (time_time w).2 files EmptyString)
    in Hout, Hlen, Hsucc by exact Hmissing.
  split; [exact Hsucc|]. split; [exact Hlen|exact Hout].
Qed.

Lemma all_files_missing_payload_witness :
  Forall (fun f => fs Samples.world0 !! path_join "/tmp/ws" f = None)
         ["main.tf"; "outputs.tf"]
  /\ content_length
       (benchmark_non_lsp_operation "/tmp/ws"
          "Find load balancer configuration" ["main.tf"; "outputs.tf"]
          Samples.world0).1
     = String.length "Found content in 2 files, total 0 characters".
Proof.
  assert (H : Forall (fun f => fs Samples.world0 !! path_join "/tmp/ws" f
                               = None) ["main.tf"; "outputs.tf"]).
  { repeat constructor. }
  split; [exact H|].
  apply (all_files_missing_payload "/tmp/ws"
           "Find load balancer configuration" ["main.tf"; "outputs.tf"]
           Samples.world0 H).
Defined.

(** ** The text scan: what it reports *)

Lemma scan_file_sound (ws : string) (patterns : list string) (w : World)
    (names acc : list string) (p : string) :
  In p (fold_left (ErrorDetectionTester.scan_file ws patterns w) names acc) ->
  In p acc
  \/ exists n content,
       In n names /\ PyStr.endswith n ".tf" = true
       /\ read_file w (path_join ws n) = inr content
       /\ In p patterns /\ PyStr.contains p content = true.
Proof.
  revert acc. induction names as [|m names IH]; intros acc H; [left; exact H|].
  cbn [fold_left] in H. apply IH in H as [H|(n & c & Hn & Hrest)].
  - unfold ErrorDetectionTester.scan_file in H.
    destruct (PyStr.endswith m ".tf") eqn:Hsuf; [|left; exact H].
    destruct (read_file w (path_join ws m)) as [e|content] eqn:Hread;
      [left; exact H|].
    apply in_app_or in H as [H|H]; [left; exact H|].
    apply List.filter_In in H as [Hp Hc].
    right. exists m, content. repeat split; try assumption. left. reflexivity.
  - right. exists n, c. split; [right; exact Hn|exact Hrest].
Qed.

Lemma size_list_to_set_le (l : list string) :
  (size (list_to_set l : gset string) <= length l)%nat.
Proof.
  induction l as [|x l IH]; [rewrite list_to_set_nil, size_empty; lia|].
  rewrite list_to_set_cons, size_union_alt, size_singleton. cbn [length].
  assert (Hsub : (size ((list_to_set l : gset string) ∖ {[x]})
                  <= size (list_to_set l : gset string))%nat)
    by (apply subseteq_size; intros y Hy;
        apply elem_of_difference in Hy as [Hy _]; exact Hy).
  lia.
Qed.

(** X11: the text scan has no false positive and no count beyond the
    catalogue: every pattern it reports is one of the given patterns and
    occurs in a [.tf] file of the workspace that could be read; the count
    is at most the number of patterns and the rate at most 100. *)
Theorem text_scan_sound (ws : string) (patterns : list string) (w : World)
    (r : ErrorDetectionTester.TraditionalResults) :
  ErrorDetectionTester.test_traditional_error_detection_on ws patterns w
  = inr r ->
  (forall p, p ∈ ErrorDetectionTester.detected_patterns r ->
     In p patterns
     /\ exists n content,
          PyStr.endswith n ".tf" = true
          /\ read_file w (path_join ws n) = inr content
          /\ PyStr.contains p content = true)
  /\ (ErrorDetectionTester.patterns_detected r
      <= ErrorDetectionTester.total_patterns r)%nat
  /\ (ErrorDetectionTester.traditional_detection_rate r <= Qc_of_Z 100)%Qc.
Proof.
  unfold ErrorDetectionTester.test_traditional_error_detection_on.
  destruct (ErrorDetectionTester.listdir w ws) as [e|names]; [discriminate|].
  set (found := fold_left _ names []).
  assert (Hsound : forall p, p ∈ (list_to_set found : gset string) ->
             In p patterns
             /\ exists n content,
                  PyStr.endswith n ".tf" = true
                  /\ read_file w (path_join ws n) = inr content
                  /\ PyStr.contains p content = true).
  { intros p Hp. apply elem_of_list_to_set, list_elem_of_In in Hp.
    apply scan_file_sound in Hp as [[]|(n & c & _ & H1 & H2 & H3 & H4)].
    split; [exact H3|]. exists n, c. repeat split; assumption. }
  assert (Hsize : (size (list_to_set found : gset string)
                   <= length patterns)%nat).
  { etransitivity; [|apply size_list_to_set_le].
    apply subseteq_size. intros p Hp.
    apply elem_of_list_to_set, list_elem_of_In. apply (Hsound p Hp). }
  unfold py_truediv.
  destruct (Z.eqb_spec (Z.of_nat (length patterns)) 0) as [|Hn]; [discriminate|].
  intros [= <-]. cbn.
  split; [exact Hsound|]. split; [exact Hsize|].
  apply (rate_bounds (Z.of_nat (size (list_to_set found : gset string)))
           (Z.of_nat (length patterns))); lia.
Qed.

Lemma text_scan_sound_witness :
  let w := (ErrorDetectionTester.create_error_scenarios "/tmp/ws"
              Samples.world0).2 in
  exists r,
    ErrorDetectionTester.test_traditional_error_detection_on "/tmp/ws"
      ["nonexistent"; "no such text"] w = inr r
    /\ (ErrorDetectionTester.patterns_detected r
        <= ErrorDetectionTester.total_patterns r)%nat.
Proof.
  intros w.
  destruct (ErrorDetectionTester.test_traditional_error_detection_on "/tmp/ws"
              ["nonexistent"; "no such text"] w) as [e|r] eqn:Hr;
    [vm_compute in Hr; discriminate|].
  exists r. split; [reflexivity|].
  apply (text_scan_sound "/tmp/ws" ["nonexistent"; "no such text"] w r Hr).
Defined.

(** ** The error scenarios and the scan *)

(** The scan of a workspace that holds the three fixture files with the
    five patterns. *)
Lemma scan_of_fixture (ws : string) (w : World) :
  ws ∈ dirs w ->
  fs w !! path_join ws "syntax_errors.tf"
  = Some (Readable ErrorDetectionTester.syntax_errors_tf) ->
  fs w !! path_join ws "reference_errors.tf"
  = Some (Readable ErrorDetectionTester.reference_errors_tf) ->
  fs w !! path_join ws "variables_errors.tf"
  = Some (Readable ErrorDetectionTester.variables_errors_tf) ->
  exists r,
    ErrorDetectionTester.test_traditional_error_detection ws w = inr r
    /\ ErrorDetectionTester.detected_patterns r
       = list_to_set ErrorDetectionTester.error_patterns
    /\ ErrorDetectionTester.patterns_detected r = 5%nat
    /\ ErrorDetectionTester.traditional_detection_rate r = Qc_of_Z 100.
Proof.
  intros Hdir Hsyn Href Hvar.
  destruct (listdir_lists w ws "syntax_errors.tf" _ Hdir Hsyn eq_refl)
    as (names & Hls & Hn1).
  destruct (listdir_lists w ws "reference_errors.tf" _ Hdir Href eq_refl)
    as (names2 & Hls2 & Hn2).
  destruct (listdir_lists w ws "variables_errors.tf" _ Hdir Hvar eq_refl)
    as (names3 & Hls3 & Hn3).
  rewrite Hls in Hls2, Hls3. injection Hls2 as <-. injection Hls3 as <-.
  unfold ErrorDetectionTester.test_traditional_error_detection,
    ErrorDetectionTester.test_traditional_error_detection_on.
  rewrite Hls.
  set (found := fold_left _ names []).
  assert (Hfinds : forall n content p,
             In n names -> PyStr.endswith n ".tf" = true ->
             fs w !! path_join ws n = Some (Readable content) ->
             In p ErrorDetectionTester.error_patterns ->
             PyStr.contains p content = true -> In p found).
  { intros n content p Hn Hsuf Hfile Hp Hc.
    apply (scan_file_finds ws _ w names n content p); try assumption.
    unfold read_file. rewrite Hfile. reflexivity. }
  assert (Heq : (list_to_set found : gset string)
                = list_to_set ErrorDetectionTester.error_patterns).
  { apply set_eq. intros p. split.
    - intros Hp. apply elem_of_list_to_set, list_elem_of_In in Hp.
      apply elem_of_list_to_set, list_elem_of_In.
      apply scan_file_sound in Hp as [[]|(_ & _ & _ & _ & _ & Hp & _)].
      exact Hp.
    - intros Hp. apply elem_of_list_to_set, list_elem_of_In in Hp.
      apply elem_of_list_to_set, list_elem_of_In.
      destruct Hp as [<-|[<-|[<-|[<-|[<-|[]]]]]].
      + apply (Hfinds _ _ _ Hn1 eq_refl Hsyn); [cbn; tauto|].
        vm_compute. reflexivity.
      + apply (Hfinds _ _ _ Hn1 eq_refl Hsyn); [cbn; tauto|].
        vm_compute. reflexivity.
      + apply (Hfinds _ _ _ Hn2 eq_refl Href); [cbn; tauto|].
        vm_compute. reflexivity.
      + apply (Hfinds _ _ _ Hn2 eq_refl Href); [cbn; tauto|].
        vm_compute. reflexivity.
      + apply (Hfinds _ _ _ Hn3 eq_refl Hvar); [cbn; tauto|].
        vm_compute. reflexivity. }
  assert (Hsize : size (list_to_set found : gset string) = 5%nat).
  { rewrite Heq. vm_compute. reflexivity. }
  change (length ErrorDetectionTester.error_patterns) with 5%nat.
  unfold py_truediv. change (Z.of_nat 5 =? 0) with false. cbv iota.
  eexists. split; [reflexivity|].
  cbn [ErrorDetectionTester.detected_patterns
         ErrorDetectionTester.patterns_detected
         ErrorDetectionTester.traditional_detection_rate].
  split; [exact Heq|]. split; [exact Hsize|].
  rewrite Hsize. apply Qc_is_canon. reflexivity.
Qed.

(** X12: on the error scenarios the text scan finds all five patterns:
    whatever the workspace and the files around it, the scan that follows
    the materialisation returns the five patterns, a count of 5 and a rate
    of 100. *)
Theorem text_scan_finds_every_pattern (ws : string) (w : World) :
  exists r,
    ErrorDetectionTester.test_traditional_error_detection ws
      (ErrorDetectionTester.create_error_scenarios ws w).2 = inr r
    /\ ErrorDetectionTester.detected_patterns r
       = list_to_set ErrorDetectionTester.error_patterns
    /\ ErrorDetectionTester.patterns_detected r = 5%nat
    /\ ErrorDetectionTester.traditional_detection_rate r = Qc_of_Z 100.
Proof.
  destruct (create_error_scenarios_fs ws w) as [Hfs Hdir].
  apply scan_of_fixture; [exact Hdir| | |];
    rewrite Hfs, !lookup_write_path; reflexivity.
Qed.

Lemma detect_world (agent : Agent) (k : ErrorDetectionTester.KnownError)
    (w : World) :
  fs (ErrorDetectionTester.detect agent k w).2 = fs w
  /\ dirs (ErrorDetectionTester.detect agent k w).2 = dirs w.
Proof.
  unfold ErrorDetectionTester.detect, bind, get_world, ret. cbn.
  destruct (find_symbol _ _ _ _) as [e|result]; [split; reflexivity|].
  cbn. destruct result; [split; reflexivity|].
  destruct (json_loads _ _); split; reflexivity.
Qed.

(** The semantic detection reads the clock only. *)
Lemma test_lsp_error_detection_on_world (agent : Agent)
    (known : list ErrorDetectionTester.KnownError) (w : World) :
  fs (ErrorDetectionTester.test_lsp_error_detection_on agent known w).2 = fs w
  /\ dirs (ErrorDetectionTester.test_lsp_error_detection_on agent known w).2
     = dirs w.
Proof.
  unfold ErrorDetectionTester.test_lsp_error_detection_on, bind, ret.
  destruct (for_each_Forall_inv (ErrorDetectionTester.detect agent)
              (fun w' => fs w' = fs w /\ dirs w' = dirs w) (fun _ => True))
    with (l := known) (w := w) as [_ Hinv].
  { intros k w' [H1 H2]. split; [exact I|].
    destruct (detect_world agent k w') as [-> ->]. split; assumption. }
  { split; reflexivity. }
  destruct (for_each _ known w) as [atts w1]. cbn [snd] in Hinv.
  destruct (py_truediv _ _); exact Hinv.
Qed.

(** X13: the comparison of [main] can never meet its target.  [main]
    returns [None] when the operating system refuses the writing of the
    error scenarios, when the agent cannot be made, and when the results
    cannot be saved.  In every other case, whatever the service answers, it
    returns its combined results with the results of the semantic
    detection; the text scan in them has the rate 100, so the improvement
    factor is the semantic rate over 100, at most 1, and [target_met],
    which asks for 4, is false. *)
Theorem main_target_never_met (ws : string)
    (refused : string -> World -> option Exn) (create_agent : AgentFactory)
    (json_dumps : ErrorDetectionTester.CombinedResults -> string)
    (w : World) :
  let run :=
    (ErrorDetectionTester.main ws refused create_agent json_dumps w).1 in
  let w1 := (ErrorDetectionTester.create_error_scenarios ws w).2 in
  match refused ws w with
  | Some _ => run = None
  | None =>
      match create_agent w1 with
      | inl _ => run = None
      | inr agent =>
          let lsp := ErrorDetectionTester.test_lsp_error_detection agent w1 in
          match refused ErrorDetectionTester.results_dir lsp.2 with
          | Some _ => run = None
          | None =>
              exists c,
                run = Some c
                /\ lsp.1 = inr (ErrorDetectionTester.lsp_results c)
                /\ ErrorDetectionTester.traditional_detection_rate
                     (ErrorDetectionTester.traditional_results c)
                   = Qc_of_Z 100
                /\ (ErrorDetectionTester.improvement_factor c <= 1)%Qc
                /\ ErrorDetectionTester.target_met c = false
          end
      end
  end.
Proof.
  intros run w1. subst run.
  unfold ErrorDetectionTester.main, ErrorDetectionTester.save_results,
    attempt, bind, get_world, ret.
  destruct (refused ws w) as [e|]; [reflexivity|]. cbn [fst snd]. fold w1.
  destruct (create_agent w1) as [e|agent]; [reflexivity|].
  destruct (create_error_scenarios_fs ws w) as [Hfs Hdir]. fold w1 in Hfs, Hdir.
  destruct (test_lsp_error_detection_on_returns agent
              ErrorDetectionTester.known_errors w1) as [lsp Hlsp];
    [discriminate|].
  destruct (test_lsp_error_detection_on_attempts agent _ w1 lsp Hlsp)
    as (_ & _ & Hle & Hrate).
  destruct (test_lsp_error_detection_on_world agent
              ErrorDetectionTester.known_errors w1) as [Hfs2 Hdir2].
  unfold ErrorDetectionTester.test_lsp_error_detection.
  destruct (ErrorDetectionTester.test_lsp_error_detection_on agent
              ErrorDetectionTester.known_errors w1) as [res w2].
  cbn [fst snd] in *. subst res.
  destruct (scan_of_fixture ws w2) as (trad & -> & _ & _ & Htrad).
  { rewrite Hdir2. exact Hdir. }
  { rewrite Hfs2, Hfs, !lookup_write_path. reflexivity. }
  { rewrite Hfs2, Hfs, !lookup_write_path. reflexivity. }
  { rewrite Hfs2, Hfs, !lookup_write_path. reflexivity. }
  destruct (refused ErrorDetectionTester.results_dir w2) as [e|];
    [reflexivity|].
  eexists. split; [reflexivity|]. cbn.
  split; [reflexivity|]. split; [exact Htrad|].
  rewrite Htrad, Hrate.
  change (length ErrorDetectionTester.known_errors) with 7%nat in *.
  set (d := Z.of_nat (ErrorDetectionTester.detected_errors lsp)).
  assert (Hd : 0 <= d <= 7) by (unfold d; lia).
  assert (Hfactor :
            (this (Qc_of_Z d / Qc_of_Z (Z.of_nat 7) * Qc_of_Z 100
                   / ErrorDetectionTester.max1 (Qc_of_Z 100))%Qc == d # 7)%Q).
  { change (ErrorDetectionTester.max1 (Qc_of_Z 100)) with (Qc_of_Z 100).
    unfold Qcdiv, Qcinv, Qcmult, Qc_of_Z. simpl.
    rewrite !Qred_correct. unfold Qeq, Qmult, Qinv. simpl. lia. }
  split.
  - unfold Qcle. rewrite Hfactor. unfold Qle. simpl. lia.
  - apply bool_decide_eq_false. unfold Qcle. rewrite Hfactor.
    unfold Qle. simpl. lia.
Qed.

(** X14: writing the error scenarios twice leaves the files that writing
    them once leaves, and the materialisation touches no file but its four:
    every other path keeps what it held, and the clock is not read. *)
Theorem create_error_scenarios_idempotent (ws : string) (w : World) :
  let w1 := (ErrorDetectionTester.create_error_scenarios ws w).2 in
  fs (ErrorDetectionTester.create_error_scenarios ws w1).2 = fs w1
  /\ (forall p,
        ~ In p (map (path_join ws)
                  ["syntax_errors.tf"; "logic_errors.tf";
                   "reference_errors.tf"; "variables_errors.tf"]) ->
        fs w1 !! p = fs w !! p)
  /\ clock w1 = clock w /\ readings w1 = readings w.
Proof.
  intros w1. split; [|split; [|split; reflexivity]].
  - unfold w1, ErrorDetectionTester.create_error_scenarios, bind, makedirs,
      write_file, set_fs. cbn.
    apply map_eq. intros p. rewrite !lookup_insert.
    repeat case_decide; reflexivity.
  - intros p Hp. unfold w1.
    rewrite (proj1 (create_error_scenarios_fs ws w)).
    cbn [map In] in Hp.
    rewrite !lookup_insert_ne; [reflexivity|..]; intros <-; tauto.
Qed.

(** ** The report of the token benchmark *)

Lemma sum_Z_difference {A} (s a b : A -> Z) (l : list A) :
  Forall (fun r => s r = a r - b r) l ->
  TokenReport.sum_Z (map s l)
  = TokenReport.sum_Z (map a l) - TokenReport.sum_Z (map b l).
Proof.
  induction 1 as [|r l Hr _ IH]; [reflexivity|].
  cbn [map TokenReport.sum_Z foldr] in *. unfold TokenReport.sum_Z in IH. lia.
Qed.

Lemma sum_Z_nonneg {A} (a : A -> Z) (l : list A) :
  Forall (fun r => 0 <= a r) l -> 0 <= TokenReport.sum_Z (map a l).
Proof.
  induction 1 as [|r l Hr _ IH]; [reflexivity|].
  cbn [map TokenReport.sum_Z foldr] in *. unfold TokenReport.sum_Z in IH. lia.
Qed.

Lemma run_scenario_savings (ws : string) (agent : Agent) (s : Scenario)
    (w : World) :
  let r := (run_scenario ws agent s w).1 in
  token_savings r = total_tokens (non_lsp_usage r) - total_tokens (lsp_usage r)
  /\ 0 <= total_tokens (lsp_usage r) /\ 0 <= total_tokens (non_lsp_usage r).
Proof.
  unfold run_scenario, bind, ret.
  pose proof (benchmark_lsp_operation_tokens (name s) (lsp_func agent s) w)
    as Hu.
  destruct (benchmark_lsp_operation _ _ w) as [u w1].
  pose proof (benchmark_non_lsp_operation_tokens ws (name s)
                (non_lsp_files s) w1) as Hv.
  destruct (benchmark_non_lsp_operation _ _ _ w1) as [v w2].
  cbn in *. destruct Hu as (_ & _ & Hui & Huo & Hut & _).
  destruct Hv as (_ & _ & Hvi & Hvo & Hvt & _).
  split; [reflexivity|]. rewrite Hut, Hvt, Hui, Huo, Hvi, Hvo.
  pose proof estimate_tokens_nonneg as Hnn.
  split; apply Z.add_nonneg_nonneg; apply Hnn.
Qed.

(** The report of the results of a run: the loop gives ten results, so the
    divisions by their number are defined. *)
Lemma report_of_run (ws : string) (agent : Agent) (w : World) :
  exists report,
    TokenReport.generate_report (run_benchmark_scenarios ws agent w).1
    = inr report
    /\ TokenReport.scenarios report = (run_benchmark_scenarios ws agent w).1
    /\ TokenReport.total_scenarios report = 10%nat
    /\ TokenReport.total_token_savings report
       = TokenReport.sum_Z (map token_savings (TokenReport.scenarios report))
    /\ (TokenReport.overall_efficiency_gain report <= Qc_of_Z 100)%Qc
    /\ (0 < TokenReport.total_token_savings report
        <-> (0 < TokenReport.overall_efficiency_gain report)%Qc).
Proof.
  assert (Hlen : length (run_benchmark_scenarios ws agent w).1 = 10%nat).
  { rewrite <- (length_map scenario), run_benchmark_scenarios_names.
    reflexivity. }
  assert (Hall : Forall (fun r =>
                    token_savings r
                    = total_tokens (non_lsp_usage r) - total_tokens (lsp_usage r)
                    /\ 0 <= total_tokens (lsp_usage r)
                    /\ 0 <= total_tokens (non_lsp_usage r))
                   (run_benchmark_scenarios ws agent w).1).
  { apply for_each_Forall. intros s w'. apply run_scenario_savings. }
  destruct (run_benchmark_scenarios ws agent w) as [results w2].
  cbn [fst] in *.
  destruct results as [|r rest]; [discriminate|].
  set (rs := r :: rest) in *.
  assert (Hsum : TokenReport.sum_Z (map token_savings rs)
                 = TokenReport.sum_Z
                     (map (fun r => total_tokens (non_lsp_usage r)) rs)
                   - TokenReport.sum_Z
                       (map (fun r => total_tokens (lsp_usage r)) rs)).
  { apply sum_Z_difference. eapply Forall_impl; [exact Hall|].
    intros x (H & _). exact H. }
  assert (Hl : 0 <= TokenReport.sum_Z
                      (map (fun r => total_tokens (lsp_usage r)) rs)).
  { apply sum_Z_nonneg. eapply Forall_impl; [exact Hall|].
    intros x (_ & H & _). exact H. }
  assert (Hn : 0 <= TokenReport.sum_Z
                      (map (fun r => total_tokens (non_lsp_usage r)) rs)).
  { apply sum_Z_nonneg. eapply Forall_impl; [exact Hall|].
    intros x (_ & _ & H). exact H. }
  eexists. split; [reflexivity|].
  cbn [TokenReport.total_scenarios TokenReport.total_token_savings
         TokenReport.scenarios TokenReport.overall_efficiency_gain].
  split; [reflexivity|]. split; [exact Hlen|]. split; [symmetry; exact Hsum|].
  unfold py_div.
  destruct (percent_of_savings
              (TokenReport.sum_Z
                 (map (fun r => total_tokens (non_lsp_usage r)) rs)
               - TokenReport.sum_Z
                   (map (fun r => total_tokens (lsp_usage r)) rs))
              (Z.max (TokenReport.sum_Z
                        (map (fun r => total_tokens (non_lsp_usage r)) rs)) 1))
    as (Ha & Hb & _); [lia|lia|].
  split; [exact Ha|exact Hb].
Qed.

(** X17: what the [main] of the token benchmark returns.  It returns [None]
    when the operating system refuses the writing of the project and when
    the agent cannot be made.  In every other case, whatever the service
    answers and whatever files can be read, it returns a report: the
    scenarios never raise and the report of their ten results divides by
    ten.  The report holds the results of the run, its total of saved
    tokens is the sum of the savings of its scenarios, and its overall
    efficiency gain is at most 100 and positive exactly when that total
    is. *)
Theorem token_main_report (ws main_tf variables_tf outputs_tf : string)
    (refused : string -> World -> option Exn) (create_agent : AgentFactory)
    (w : World) :
  let run :=
    (TokenReport.main ws main_tf variables_tf outputs_tf refused
       create_agent w).1 in
  let w1 :=
    (create_realistic_terraform_project ws main_tf variables_tf outputs_tf
       w).2 in
  match refused ws w with
  | Some _ => run = None
  | None =>
      match create_agent w1 with
      | inl e =>
          run = None
          /\ TokenReport.run_benchmark_scenarios ws create_agent w1
             = (inl e, w1)
      | inr agent =>
          exists report,
            run = Some report
            /\ TokenReport.scenarios report
               = (run_benchmark_scenarios ws agent w1).1
            /\ TokenReport.total_scenarios report = 10%nat
            /\ TokenReport.total_token_savings report
               = TokenReport.sum_Z
                   (map token_savings (TokenReport.scenarios report))
            /\ (TokenReport.overall_efficiency_gain report <= Qc_of_Z 100)%Qc
            /\ (0 < TokenReport.total_token_savings report
                <-> (0 < TokenReport.overall_efficiency_gain report)%Qc)
      end
  end.
Proof.
  intros run w1. subst run.
  unfold TokenReport.main, TokenReport.run_benchmark_scenarios, attempt,
    bind, get_world, ret.
  destruct (refused ws w) as [e|]; [reflexivity|]. cbn [fst snd]. fold w1.
  destruct (create_agent w1) as [e|agent]; [split; reflexivity|].
  destruct (report_of_run ws agent w1) as (report & Hr & Hrest).
  destruct (run_benchmark_scenarios ws agent w1) as [results w2].
  cbn [fst snd] in *. rewrite Hr. exists report. split; [reflexivity|exact Hrest].
Qed.

Lemma percent_full (c n : Z) :
  0 < n ->
  (Qc_of_Z c / Qc_of_Z n * Qc_of_Z 100)%Qc = Qc_of_Z 100 <-> c = n.
Proof.
  intros Hn. destruct n as [|p|p]; try lia. split.
  - intros H. apply (f_equal this) in H.
    pose proof (rate_fraction c p) as Hf. rewrite H in Hf.
    unfold Qeq in Hf. simpl in Hf. lia.
  - intros ->. apply Qc_is_canon. rewrite rate_fraction.
    unfold Qeq. simpl. lia.
Qed.

Lemma filter_length_all {A} (p : A -> bool) (l : list A) :
  length (List.filter p l) = length l <-> Forall (fun x => p x = true) l.
Proof.
  induction l as [|x l IH]; [split; [constructor|reflexivity]|].
  cbn [List.filter]. pose proof (List.filter_length_le p l) as Hle.
  destruct (p x) eqn:Hp; cbn [length]; split.
  - intros H. constructor; [exact Hp|]. apply IH. lia.
  - intros H. inversion H; subst. f_equal. apply IH. assumption.
  - intros H. lia.
  - intros H. inversion H; subst. congruence.
Qed.

(** X18: the two success rates of a report lie between 0 and 100, and the
    semantic one is 100 exactly when every semantic operation of the results
    succeeded. *)
Theorem report_success_rates
    (results : list TerraformTokenBenchmark.BenchmarkResult)
    (report : TokenReport.Report) :
  TokenReport.generate_report results = inr report ->
  (0 <= TokenReport.lsp_success_rate report)%Qc
  /\ (TokenReport.lsp_success_rate report <= Qc_of_Z 100)%Qc
  /\ (0 <= TokenReport.non_lsp_success_rate report)%Qc
  /\ (TokenReport.non_lsp_success_rate report <= Qc_of_Z 100)%Qc
  /\ (TokenReport.lsp_success_rate report = Qc_of_Z 100
      <-> Forall (fun r => success (lsp_usage r) = true) results).
Proof.
  destruct results as [|x rest]; [discriminate|].
  unfold TokenReport.generate_report. intros [= <-].
  cbn [TokenReport.lsp_success_rate TokenReport.non_lsp_success_rate].
  set (rs := x :: rest). unfold TokenReport.count_if.
  pose proof (List.filter_length_le (fun r => success (lsp_usage r)) rs) as H1.
  pose proof (List.filter_length_le (fun r => success (non_lsp_usage r)) rs)
    as H2.
  assert (Hn : 0 < Z.of_nat (length rs)) by (cbn; lia).
  destruct (rate_bounds
              (Z.of_nat (length (List.filter
                                   (fun r => success (lsp_usage r)) rs)))
              (Z.of_nat (length rs))) as (Ha & Hb & _); [lia|lia|].
  destruct (rate_bounds
              (Z.of_nat (length (List.filter
                                   (fun r => success (non_lsp_usage r)) rs)))
              (Z.of_nat (length rs))) as (Hc & Hd & _); [lia|lia|].
  repeat split; try assumption.
  - intros H. apply percent_full in H; [|exact Hn].
    apply (filter_length_all (fun r => success (lsp_usage r)) rs).
    change (length rs) with (S (length rest)). lia.
  - intros H. apply percent_full; [exact Hn|].
    apply (filter_length_all (fun r => success (lsp_usage r)) rs) in H.
    change (length rs) with (S (length rest)) in H. lia.
Qed.

Lemma report_success_rates_witness :
  exists report,
    TokenReport.generate_report
      (run_benchmark_scenarios "/tmp/ws" (Samples.agent_down "down")
         Samples.world0).1 = inr report
    /\ (TokenReport.lsp_success_rate report <= Qc_of_Z 100)%Qc.
Proof.
  destruct (TokenReport.generate_report
              (run_benchmark_scenarios "/tmp/ws" (Samples.agent_down "down")
                 Samples.world0).1) as [e|report] eqn:Hr;
    [vm_compute in Hr; discriminate|].
  exists report. split; [reflexivity|].
  apply (report_success_rates _ report Hr).
Defined.

(** ** The A/B framework: measuring *)

Lemma max0_nonneg (x : Qc) : (0 <= ABTests.max0 x)%Qc.
Proof.
  unfold ABTests.max0. case_decide as H.
  - apply Qcle_refl.
  - apply Qcnot_lt_le. exact H.
Qed.

Lemma max0_cases (x : Qc) :
  ((0 <= x)%Qc -> ABTests.max0 x = x)
  /\ ((x <= 0)%Qc -> ABTests.max0 x = 0%Qc).
Proof.
  unfold ABTests.max0. case_decide as H; split; intros Hx.
  - destruct (Qcle_not_lt _ _ Hx H).
  - reflexivity.
  - reflexivity.
  - apply Qcle_antisym; [exact Hx|apply Qcnot_lt_le; exact H].
Qed.

(** What [measure_performance] returns and leaves, by the outcome of its
    body, which runs after the first reading of the clock. *)
Lemma measure_performance_outcome {A} (rss : World -> Z)
    (body : World -> Exn + A) (w : World) :
  match body (ABTests.after_readings 1 w) with
  | inl e =>
      ABTests.measure_performance rss body w
      = (inl e, ABTests.after_readings 1 w)
  | inr a =>
      exists m,
        ABTests.measure_performance rss body w
        = (inr (a, m), ABTests.after_readings 2 w)
        /\ ABTests.startup_time m
           = (clock w (S (readings w)) - clock w (readings w))%Qc
        /\ ABTests.operation_time m = ABTests.startup_time m
        /\ ABTests.memory_usage_mb m
           = ABTests.max0
               (ABTests.memory_mb rss (ABTests.after_readings 2 w)
                - ABTests.memory_mb rss (ABTests.after_readings 1 w))%Qc
  end.
Proof.
  unfold ABTests.measure_performance, bind, get_world, ret, time_time.
  change (mkWorld (fs w) (dirs w) (clock w) (S (readings w)))
    with (ABTests.after_readings 1 w).
  destruct (body (ABTests.after_readings 1 w)) as [e|a]; [reflexivity|].
  eexists. split; [reflexivity|]. repeat split.
Qed.

(** X19: what [measure_performance] records, by the outcome of the block it
    measures.  When the block raises, the exception goes on after one
    reading of the clock and nothing is recorded.  When the block returns,
    the clock was read twice, the startup time and the operation time are
    both the difference of the two readings, and the memory delta is the
    growth of the resident size between the two readings, or 0 when it
    shrank, so never negative. *)
Theorem measure_performance_records {A} (rss : World -> Z)
    (body : World -> Exn + A) (w : World) :
  match body (ABTests.after_readings 1 w) with
  | inl e =>
      ABTests.measure_performance rss body w
      = (inl e, ABTests.after_readings 1 w)
  | inr a =>
      exists m,
        ABTests.measure_performance rss body w
        = (inr (a, m), ABTests.after_readings 2 w)
        /\ ABTests.startup_time m
           = (clock w (S (readings w)) - clock w (readings w))%Qc
        /\ ABTests.operation_time m = ABTests.startup_time m
        /\ (0 <= ABTests.memory_usage_mb m)%Qc
        /\ ((ABTests.memory_mb rss (ABTests.after_readings 1 w)
             <= ABTests.memory_mb rss (ABTests.after_readings 2 w))%Qc ->
            ABTests.memory_usage_mb m
            = (ABTests.memory_mb rss (ABTests.after_readings 2 w)
               - ABTests.memory_mb rss (ABTests.after_readings 1 w))%Qc)
        /\ ((ABTests.memory_mb rss (ABTests.after_readings 2 w)
             <= ABTests.memory_mb rss (ABTests.after_readings 1 w))%Qc ->
            ABTests.memory_usage_mb m = 0%Qc)
  end.
Proof.
  pose proof (measure_performance_outcome rss body w) as Hm.
  destruct (body (ABTests.after_readings 1 w)) as [e|a]; [exact Hm|].
  destruct Hm as (m & Heq & Ht & Ho & Hmem).
  exists m. split; [exact Heq|]. split; [exact Ht|]. split; [exact Ho|].
  rewrite Hmem. split; [apply max0_nonneg|].
  split; intros H.
  - apply max0_cases. unfold Qcminus.
    apply (proj1 (Qcle_minus_iff _ _)). exact H.
  - apply max0_cases.
    pose proof (Qcplus_le_compat _ _ _ _ H
                  (Qcle_refl
                     (- ABTests.memory_mb rss (ABTests.after_readings 1 w))))
      as Hle.
    rewrite Qcplus_opp_r in Hle. exact Hle.
Qed.

(** ** The A/B framework: the quality test *)

Lemma run_sub_tests_account (agent : Agent) (w : World)
    (tests : list ABTests.SubTest) (acc : nat * list string) :
  let out := fold_left (ABTests.run_sub_test agent w) tests acc in
  (out.1 + length out.2 <= acc.1 + length acc.2 + length tests)%nat
  /\ (acc.1 <= out.1)%nat.
Proof.
  revert acc. induction tests as [|t tests IH]; intros acc; cbn [fold_left].
  - cbn. lia.
  - specialize (IH (ABTests.run_sub_test agent w acc t)).
    cbv zeta in IH. destruct IH as [IH1 IH2].
    assert (Hstep :
              ((ABTests.run_sub_test agent w acc t).1
               + length (ABTests.run_sub_test agent w acc t).2
               <= acc.1 + length acc.2 + 1)%nat
              /\ (acc.1
                  <= (ABTests.run_sub_test agent w acc t).1)%nat).
    { destruct acc as [c errs]. unfold ABTests.run_sub_test.
      destruct (find_symbol _ _ _ _) as [e|result];
        [cbn; rewrite length_app; cbn; lia|].
      destruct (json_loads _ _) as [e|symbols];
        [cbn; rewrite length_app; cbn; lia|].
      destruct (ABTests.passes t symbols); cbn; lia. }
    cbn [length]. lia.
Qed.

(** The result of the quality test: the exception of the making of the
    agent, or a result made from the count and the messages of the ten
    searches. *)
Lemma test_semantic_edit_quality_result (create_agent : AgentFactory)
    (rss : World -> Z) (get_name_path : string -> string) (use_lsp : bool)
    (w : World) :
  match create_agent (ABTests.after_readings 1 w) with
  | inl e =>
      ABTests.test_semantic_edit_quality create_agent rss get_name_path
        use_lsp w
      = (inl e, ABTests.after_readings 1 w)
  | inr agent =>
      let out := fold_left (ABTests.run_sub_test agent
                              (ABTests.after_readings 1 w))
                   (ABTests.quality_tests get_name_path) (0%nat, []) in
      exists r,
        ABTests.test_semantic_edit_quality create_agent rss get_name_path
          use_lsp w
        = (inr (r, ABTests.QualityDetails out.1 10
                     (TerraformABTester.confidence_score r) out.1
                     (10 - Z.of_nat out.1)),
           ABTests.after_readings 2 w)
        /\ TerraformABTester.test_name r = "semantic_edit_quality"
        /\ TerraformABTester.mode r = ABTests.mode_name use_lsp
        /\ TerraformABTester.errors_detected r = out.2
        /\ TerraformABTester.confidence_score r
           = (py_div (Z.of_nat out.1) 10 * Qc_of_Z 100)%Qc
        /\ TerraformABTester.success r
           = bool_decide (Qc_of_Z 90 <= py_div (Z.of_nat out.1) 10
                                        * Qc_of_Z 100)%Qc
        /\ (0 <= TerraformABTester.memory_usage r)%Qc
  end.
Proof.
  unfold ABTests.test_semantic_edit_quality, bind, ret.
  match goal with
  | |- context [ABTests.measure_performance rss ?b w] =>
      pose proof (measure_performance_outcome rss b w) as Hm
  end.
  cbv beta in Hm.
  destruct (create_agent (ABTests.after_readings 1 w)) as [e|agent].
  - rewrite Hm. reflexivity.
  - destruct Hm as (m & -> & _ & _ & Hmem).
    destruct (fold_left _ _ _) as [c errs]. cbn [fst snd].
    exists (TerraformABTester.mkTestResult "semantic_edit_quality"
              (ABTests.mode_name use_lsp)
              (bool_decide (Qc_of_Z 90 <= py_div (Z.of_nat c) 10
                                           * Qc_of_Z 100)%Qc)
              (ABTests.operation_time m) (ABTests.memory_usage_mb m) errs
              (py_div (Z.of_nat c) 10 * Qc_of_Z 100)%Qc).
    split; [reflexivity|]. cbn.
    repeat split. rewrite Hmem. apply max0_nonneg.
Qed.

Lemma percent_of_ten (c : Z) :
  (py_div c 10 * Qc_of_Z 100)%Qc = Qc_of_Z (10 * c)
  /\ ((Qc_of_Z 90 <= py_div c 10 * Qc_of_Z 100)%Qc <-> 9 <= c)
  /\ ((Qc_of_Z 95 <= py_div c 10 * Qc_of_Z 100)%Qc <-> 10 <= c).
Proof.
  unfold py_div. split; [|split].
  - apply Qc_is_canon. rewrite rate_fraction. unfold Qeq. simpl. lia.
  - unfold Qcle. rewrite rate_fraction. unfold Qle. simpl. lia.
  - unfold Qcle. rewrite rate_fraction. unfold Qle. simpl. lia.
Qed.

(** X20: the quality test raises exactly when its agent cannot be made,
    and then with the exception of that call; none of its ten searches can
    make it raise, whatever the service does.  When the agent is made, each
    search either counts as a success, or leaves a message, or neither, so
    the successes and the messages are at most ten together; the score is
    ten times the number of successes, and the test reports success exactly
    from nine successes on. *)
Theorem quality_test_accounting (create_agent : AgentFactory)
    (rss : World -> Z) (get_name_path : string -> string) (use_lsp : bool)
    (w : World) :
  let run :=
    (ABTests.test_semantic_edit_quality create_agent rss get_name_path
       use_lsp w).1 in
  match create_agent (ABTests.after_readings 1 w) with
  | inl e => run = inl e
  | inr _ =>
      exists r c,
        run = inr (r, ABTests.QualityDetails c 10
                        (TerraformABTester.confidence_score r) c
                        (10 - Z.of_nat c))
        /\ (c + length (TerraformABTester.errors_detected r) <= 10)%nat
        /\ TerraformABTester.confidence_score r = Qc_of_Z (10 * Z.of_nat c)
        /\ (TerraformABTester.success r = true <-> (9 <= c)%nat)
        /\ TerraformABTester.mode r = ABTests.mode_name use_lsp
        /\ (0 <= TerraformABTester.memory_usage r)%Qc
  end.
Proof.
  intros run. subst run.
  pose proof (test_semantic_edit_quality_result create_agent rss
                get_name_path use_lsp w) as Hres.
  destruct (create_agent (ABTests.after_readings 1 w)) as [e|agent].
  - rewrite Hres. reflexivity.
  - cbv zeta in Hres.
    destruct Hres as (r & Heq & _ & Hmode & Herrs & Hscore & Hsucc & Hmem).
    pose proof (run_sub_tests_account agent
                  (ABTests.after_readings 1 w)
                  (ABTests.quality_tests get_name_path) (0%nat, []))
      as [Hacc _].
    change (length (ABTests.quality_tests get_name_path)) with 10%nat in Hacc.
    cbn [fst snd length] in Hacc.
    set (out := fold_left _ _ _) in *.
    exists r, out.1. rewrite Heq. split; [reflexivity|].
    destruct (percent_of_ten (Z.of_nat out.1)) as (Hten & Hnine & _).
    split; [rewrite Herrs; lia|].
    split; [rewrite Hscore; exact Hten|].
    split; [|split; assumption].
    rewrite Hsucc, bool_decide_eq_true, Hnine. lia.
Qed.

Lemma run_sub_tests_down (agent : Agent) (w : World) (e : Exn)
    (tests : list ABTests.SubTest) (c : nat) (errs : list string) :
  (forall q, find_symbol agent w q true = inl e) ->
  fold_left (ABTests.run_sub_test agent w) tests (c, errs)
  = (c, errs ++ map (fun t => ABTests.label t +:+ ": " +:+ str_exn e) tests).
Proof.
  intros Hdown. revert errs.
  induction tests as [|t tests IH]; intros errs; cbn [fold_left map].
  - rewrite app_nil_r. reflexivity.
  - unfold ABTests.run_sub_test at 2. rewrite Hdown, IH, <- app_assoc.
    reflexivity.
Qed.

(** X21: when the agent is made and the service is down, so that every
    symbol search raises, the quality test still returns: no success, a
    score of 0, no success flag, and ten messages, one per search and in
    their order, each made of the name of the search and the message of the
    exception. *)
Theorem quality_test_service_down (create_agent : AgentFactory)
    (agent : Agent) (rss : World -> Z) (get_name_path : string -> string)
    (use_lsp : bool) (w : World) (e : Exn) :
  create_agent (ABTests.after_readings 1 w) = inr agent ->
  (forall q, find_symbol agent (ABTests.after_readings 1 w) q true = inl e) ->
  exists r d,
    (ABTests.test_semantic_edit_quality create_agent rss get_name_path
       use_lsp w).1
    = inr (r, d)
    /\ TerraformABTester.errors_detected r
       = map (fun t => ABTests.label t +:+ ": " +:+ str_exn e)
             (ABTests.quality_tests get_name_path)
    /\ length (TerraformABTester.errors_detected r) = 10%nat
    /\ TerraformABTester.confidence_score r = Qc_of_Z 0
    /\ TerraformABTester.success r = false.
Proof.
  intros Hagent Hdown.
  pose proof (test_semantic_edit_quality_result create_agent rss
                get_name_path use_lsp w) as Hres.
  rewrite Hagent in Hres. cbv zeta in Hres.
  destruct Hres as (r & Heq & _ & _ & Herrs & Hscore & Hsucc & _).
  rewrite (run_sub_tests_down agent _ e _ 0%nat [] Hdown) in *.
  cbn [fst snd app] in *.
  exists r. eexists. rewrite Heq. split; [reflexivity|].
  split; [exact Herrs|]. split; [rewrite Herrs; reflexivity|].
  destruct (percent_of_ten (Z.of_nat 0)) as (Hten & Hnine & _).
  split; [rewrite Hscore; exact Hten|].
  rewrite Hsucc. apply bool_decide_eq_false. rewrite Hnine. cbn. lia.
Qed.

Lemma quality_test_service_down_witness :
  let create_agent : AgentFactory :=
    fun _ => inr (Samples.agent_down "no backend") in
  create_agent (ABTests.after_readings 1 Samples.world0)
  = inr (Samples.agent_down "no backend")
  /\ (forall q, find_symbol (Samples.agent_down "no backend")
                  (ABTests.after_readings 1 Samples.world0) q true
                = inl (Exception "no backend"))
  /\ exists r d,
       (ABTests.test_semantic_edit_quality create_agent
          MoreSamples.steady_rss id true Samples.world0).1 = inr (r, d)
       /\ TerraformABTester.success r = false.
Proof.
  intros create_agent.
  assert (H : forall q, find_symbol (Samples.agent_down "no backend")
                          (ABTests.after_readings 1 Samples.world0) q true
                        = inl (Exception "no backend"))
    by (intros q; reflexivity).
  split; [reflexivity|]. split; [exact H|].
  destruct (quality_test_service_down create_agent
              (Samples.agent_down "no backend")
              MoreSamples.steady_rss id true Samples.world0
              (Exception "no backend") eq_refl H)
    as (r & d & Hr & _ & _ & _ & Hs).
  exists r, d. split; [exact Hr|exact Hs].
Defined.

(** ** The A/B framework: the detection test *)

Lemma search_all_account (agent : Agent) (w : World) (patterns : list string)
    (acc : list string * list string) :
  (length (fold_left (ABTests.search_one agent w) patterns acc).1
   <= length acc.1 + length patterns)%nat.
Proof.
  revert acc. induction patterns as [|p patterns IH]; intros acc;
    cbn [fold_left length]; [lia|].
  etransitivity; [apply IH|].
  destruct acc as [found errs]. unfold ABTests.search_one.
  destruct (search_pattern _ _ _ _) as [e|result]; [cbn; lia|].
  destruct (_ <? _)%nat; cbn; [rewrite length_app; cbn|]; lia.
Qed.

Lemma undefined_references_account (agent : Agent) (w : World)
    (found : list string) :
  (length (ABTests.undefined_references agent w found) <= S (length found))%nat.
Proof.
  unfold ABTests.undefined_references.
  destruct (find_symbol _ _ _ _) as [e|result]; [lia|].
  destruct (json_loads _ _) as [e|[|s symbols]]; try lia.
  rewrite length_app. cbn. lia.
Qed.

(** The result of the detection test: the exception of the making of the
    agent, or a result made from what the searches found. *)
Lemma test_error_detection_confidence_result (create_agent : AgentFactory)
    (rss : World -> Z) (use_lsp : bool) (w : World) :
  match create_agent (ABTests.after_readings 1 w) with
  | inl e =>
      ABTests.test_error_detection_confidence create_agent rss use_lsp w
      = (inl e, ABTests.after_readings 1 w)
  | inr agent =>
      exists r found,
        ABTests.test_error_detection_confidence create_agent rss use_lsp w
        = (inr (r, ABTests.DetectionDetails 6 (length found)
                     (TerraformABTester.confidence_score r) found),
           ABTests.after_readings 2 w)
        /\ TerraformABTester.test_name r = "error_detection_confidence"
        /\ TerraformABTester.confidence_score r
           = (py_div (Z.of_nat (length found)) 6 * Qc_of_Z 100)%Qc
        /\ (length found <= 6 + (if use_lsp then 1 else 0))%nat
        /\ found
           = (let acc := fold_left (ABTests.search_one agent
                                      (ABTests.after_readings 1 w))
                           ABTests.expected_errors ([], []) in
              if use_lsp
              then ABTests.undefined_references agent
                     (ABTests.after_readings 1 w) acc.1
              else acc.1)
  end.
Proof.
  unfold ABTests.test_error_detection_confidence, bind, ret.
  match goal with
  | |- context [ABTests.measure_performance rss ?b w] =>
      pose proof (measure_performance_outcome rss b w) as Hm
  end.
  cbv beta in Hm.
  destruct (create_agent (ABTests.after_readings 1 w)) as [e|agent].
  - rewrite Hm. reflexivity.
  - pose proof (search_all_account agent (ABTests.after_readings 1 w)
                  ABTests.expected_errors ([], [])) as Hacc.
    change (length ABTests.expected_errors) with 6%nat in Hacc.
    destruct (fold_left _ ABTests.expected_errors ([], [])) as [found0 errs].
    cbn [fst length] in Hacc.
    pose proof (undefined_references_account agent
                  (ABTests.after_readings 1 w) found0) as Hundef.
    destruct Hm as (m & -> & _).
    set (found := if use_lsp
                  then ABTests.undefined_references agent
                         (ABTests.after_readings 1 w) found0
                  else found0) in *.
    exists (TerraformABTester.mkTestResult "error_detection_confidence"
              (ABTests.mode_name use_lsp)
              (bool_decide (Qc_of_Z 60 <= py_div (Z.of_nat (length found)) 6
                                           * Qc_of_Z 100)%Qc)
              (ABTests.operation_time m) (ABTests.memory_usage_mb m) errs
              (py_div (Z.of_nat (length found)) 6 * Qc_of_Z 100)%Qc), found.
    split; [reflexivity|]. split; [reflexivity|]. split; [reflexivity|].
    split; [|reflexivity].
    unfold found. destruct use_lsp; lia.
Qed.

(** X22: the detection rate of the A/B framework is not a percentage of the
    expected errors.  When the agent is made, the detection test returns;
    without the symbol search its rate is at most 100; with it, the extra
    entry for undefined references is counted over the same six expected
    errors, so the rate is at most 700/6, and a service that answers
    everything does reach more than 100. *)
Theorem detection_confidence_can_exceed_100 (create_agent : AgentFactory)
    (agent : Agent) (rss : World -> Z) (use_lsp : bool) (w : World) :
  create_agent (ABTests.after_readings 1 w) = inr agent ->
  (exists r d,
      (ABTests.test_error_detection_confidence create_agent rss use_lsp w).1
      = inr (r, d)
      /\ (0 <= TerraformABTester.confidence_score r)%Qc
      /\ (TerraformABTester.confidence_score r <= Q2Qc (700 # 6))%Qc
      /\ (use_lsp = false ->
          (TerraformABTester.confidence_score r <= Qc_of_Z 100)%Qc))
  /\ (exists r d,
        (ABTests.test_error_detection_confidence
           (fun _ => inr MoreSamples.agent_everything) rss true w).1
        = inr (r, d)
        /\ (Qc_of_Z 100 < TerraformABTester.confidence_score r)%Qc).
Proof.
  intros Hagent. split.
  - pose proof (test_error_detection_confidence_result create_agent rss
                  use_lsp w) as Hres.
    rewrite Hagent in Hres.
    destruct Hres as (r & found & Heq & _ & Hscore & Hlen & _).
    exists r. eexists. rewrite Heq. split; [reflexivity|].
    rewrite Hscore. unfold py_div, Qcle. rewrite rate_fraction.
    unfold Qle. simpl Qnum. simpl Qden.
    repeat split; destruct use_lsp; lia.
  - pose proof (test_error_detection_confidence_result
                  (fun _ => inr MoreSamples.agent_everything) rss true w)
      as Hres.
    cbv beta iota in Hres.
    destruct Hres as (r & found & Heq & _ & Hscore & _ & Hfound).
    exists r. eexists. rewrite Heq. split; [reflexivity|].
    apply (f_equal length) in Hfound.
    change (length found = 7%nat) in Hfound.
    rewrite Hscore, Hfound. unfold Qclt, Qlt. vm_compute. reflexivity.
Qed.

Lemma detection_confidence_can_exceed_100_witness :
  let create_agent : AgentFactory := fun _ => inr Samples.agent_nothing in
  create_agent (ABTests.after_readings 1 Samples.world0)
  = inr Samples.agent_nothing
  /\ exists r d,
       (ABTests.test_error_detection_confidence create_agent
          MoreSamples.steady_rss false Samples.world0).1 = inr (r, d)
       /\ (TerraformABTester.confidence_score r <= Qc_of_Z 100)%Qc.
Proof.
  intros create_agent. split; [reflexivity|].
  destruct (detection_confidence_can_exceed_100 create_agent
              Samples.agent_nothing MoreSamples.steady_rss false
              Samples.world0 eq_refl)
    as ((r & d & Hr & _ & _ & Hle) & _).
  exists r, d. split; [exact Hr|apply Hle; reflexivity].
Defined.

(** ** The A/B framework: the verdicts *)

Lemma analyze_results_quality (results : list TerraformABTester.TestResult) :
  TerraformABTester.claims_validation
    (TerraformABTester.analyze_results results) !! "quality"
  = match TerraformABTester.by_name "semantic_edit_quality" results with
    | [] => None
    | r :: _ =>
        Some (TerraformABTester.VBool
                (bool_decide (Qc_of_Z 95
                              <= TerraformABTester.confidence_score r)%Qc))
    end.
Proof.
  unfold TerraformABTester.analyze_results. cbn.
  destruct (TerraformABTester.by_name "startup_performance" results);
    [|rewrite lookup_insert_ne by discriminate];
    (destruct (TerraformABTester.by_name "error_detection_confidence" results);
     [|rewrite lookup_insert_ne by discriminate]);
    (destruct (TerraformABTester.by_name "semantic_edit_quality" results);
     [apply lookup_empty|apply lookup_insert_eq]).
Qed.

Lemma analyze_results_performance
    (results : list TerraformABTester.TestResult) :
  TerraformABTester.claims_validation
    (TerraformABTester.analyze_results results) !! "performance"
  = match TerraformABTester.by_name "startup_performance" results with
    | [] => None
    | r :: _ =>
        Some (TerraformABTester.VBool
                (bool_decide (TerraformABTester.execution_time r
                              <= Q2Qc (1 # 2))%Qc
                 && bool_decide (TerraformABTester.memory_usage r
                                 <= Qc_of_Z 100)%Qc))
    end.
Proof.
  unfold TerraformABTester.analyze_results. cbn.
  destruct (TerraformABTester.by_name "startup_performance" results);
    [|apply lookup_insert_eq].
  destruct (TerraformABTester.by_name "error_detection_confidence" results);
    [|rewrite lookup_insert_ne by discriminate];
    (destruct (TerraformABTester.by_name "semantic_edit_quality" results);
     [apply lookup_empty|rewrite lookup_insert_ne by discriminate;
                         apply lookup_empty]).
Qed.

Lemma analyze_results_other_key (results : list TerraformABTester.TestResult)
    (k : string) :
  k <> "quality" -> k <> "error_detection" -> k <> "performance" ->
  TerraformABTester.claims_validation
    (TerraformABTester.analyze_results results) !! k = None.
Proof.
  intros H1 H2 H3. unfold TerraformABTester.analyze_results. cbn.
  destruct (TerraformABTester.by_name "startup_performance" results);
    [|rewrite lookup_insert_ne by congruence];
    (destruct (TerraformABTester.by_name "error_detection_confidence" results);
     [|rewrite lookup_insert_ne by congruence]);
    (destruct (TerraformABTester.by_name "semantic_edit_quality" results);
     [apply lookup_empty|rewrite lookup_insert_ne by congruence;
                         apply lookup_empty]).
Qed.

(** X23: the verdicts of [analyze_results] are read from the first result of
    each test, whatever its mode: the quality verdict is that its score is
    at least 95, the performance verdict that its time is at most 0.5 and
    its memory at most 100; a test without result has no verdict, and there
    is no verdict under any other key. *)
Theorem verdicts_from_first_results
    (results : list TerraformABTester.TestResult) :
  TerraformABTester.claims_validation
    (TerraformABTester.analyze_results results) !! "quality"
  = (fun r => TerraformABTester.VBool
                (bool_decide (Qc_of_Z 95
                              <= TerraformABTester.confidence_score r)%Qc))
      <$> head (TerraformABTester.by_name "semantic_edit_quality" results)
  /\ TerraformABTester.claims_validation
       (TerraformABTester.analyze_results results) !! "performance"
     = (fun r => TerraformABTester.VBool
                   (bool_decide (TerraformABTester.execution_time r
                                 <= Q2Qc (1 # 2))%Qc
                    && bool_decide (TerraformABTester.memory_usage r
                                    <= Qc_of_Z 100)%Qc))
         <$> head (TerraformABTester.by_name "startup_performance" results)
  /\ (forall k,
        k <> "quality" -> k <> "error_detection" -> k <> "performance" ->
        TerraformABTester.claims_validation
          (TerraformABTester.analyze_results results) !! k = None).
Proof.
  split; [|split].
  - rewrite analyze_results_quality.
    destruct (TerraformABTester.by_name _ results); reflexivity.
  - rewrite analyze_results_performance.
    destruct (TerraformABTester.by_name _ results); reflexivity.
  - apply analyze_results_other_key.
Qed.

(** X24: the quality claim asks for more than the quality test.  When the
    agent is made, with the result of the quality test in front, the quality
    verdict is true exactly when all ten searches succeeded, while the test
    itself reports success from nine. *)
Theorem quality_verdict_needs_all_ten (create_agent : AgentFactory)
    (agent : Agent) (rss : World -> Z) (get_name_path : string -> string)
    (use_lsp : bool) (w : World) :
  create_agent (ABTests.after_readings 1 w) = inr agent ->
  exists r c,
    (ABTests.test_semantic_edit_quality create_agent rss get_name_path
       use_lsp w).1
    = inr (r, ABTests.QualityDetails c 10
                (TerraformABTester.confidence_score r) c (10 - Z.of_nat c))
    /\ (forall rest,
          TerraformABTester.claims_validation
            (TerraformABTester.analyze_results (r :: rest)) !! "quality"
          = Some (TerraformABTester.VBool (bool_decide (c = 10%nat))))
    /\ (c = 9%nat -> TerraformABTester.success r = true).
Proof.
  intros Hagent.
  pose proof (test_semantic_edit_quality_result create_agent rss
                get_name_path use_lsp w) as Hres.
  rewrite Hagent in Hres. cbv zeta in Hres.
  destruct Hres as (r & Heq & Hname & _ & _ & Hscore & Hsucc & _).
  pose proof (run_sub_tests_account agent (ABTests.after_readings 1 w)
                (ABTests.quality_tests get_name_path) (0%nat, [])) as [Hacc _].
  change (length (ABTests.quality_tests get_name_path)) with 10%nat in Hacc.
  cbn [fst snd length] in Hacc.
  set (out := fold_left _ _ _) in *.
  exists r, out.1. rewrite Heq. split; [reflexivity|].
  destruct (percent_of_ten (Z.of_nat out.1)) as (_ & Hnine & Hten).
  split.
  - intros rest. rewrite analyze_results_quality.
    unfold TerraformABTester.by_name. cbn [List.filter].
    rewrite Hname. cbn [String.eqb Ascii.eqb Bool.eqb].
    change (String.eqb "semantic_edit_quality" "semantic_edit_quality")
      with true. cbv iota.
    do 2 f_equal. rewrite Hscore.
    apply bool_decide_ext. rewrite Hten. lia.
  - intros Hc. rewrite Hsucc, bool_decide_eq_true, Hnine. lia.
Qed.

Lemma quality_verdict_needs_all_ten_witness :
  let create_agent : AgentFactory := fun _ => inr Samples.agent_nothing in
  create_agent (ABTests.after_readings 1 Samples.world0)
  = inr Samples.agent_nothing
  /\ exists r c,
       (ABTests.test_semantic_edit_quality create_agent
          MoreSamples.steady_rss id true Samples.world0).1
       = inr (r, ABTests.QualityDetails c 10
                   (TerraformABTester.confidence_score r) c
                   (10 - Z.of_nat c))
       /\ TerraformABTester.claims_validation
            (TerraformABTester.analyze_results [r]) !! "quality"
          = Some (TerraformABTester.VBool (bool_decide (c = 10%nat))).
Proof.
  intros create_agent. split; [reflexivity|].
  destruct (quality_verdict_needs_all_ten create_agent Samples.agent_nothing
              MoreSamples.steady_rss id true Samples.world0 eq_refl)
    as (r & c & Hr & Hv & _).
  exists r, c. split; [exact Hr|apply Hv].
Defined.

(** ** The A/B framework: the whole run *)

Lemma test_startup_performance_result (create_agent : AgentFactory)
    (rss : World -> Z) (use_lsp : bool) (w : World) :
  match create_agent (ABTests.after_readings 1 w) with
  | inl e =>
      ABTests.test_startup_performance create_agent rss use_lsp w
      = (inl e, ABTests.after_readings 1 w)
  | inr agent =>
      match find_symbol agent (ABTests.after_readings 1 w) "terraform" true
      with
      | inl e =>
          ABTests.test_startup_performance create_agent rss use_lsp w
          = (inl e, ABTests.after_readings 1 w)
      | inr _ =>
          exists r d,
            ABTests.test_startup_performance create_agent rss use_lsp w
            = (inr (r, d), ABTests.after_readings 2 w)
            /\ TerraformABTester.test_name r = "startup_performance"
            /\ TerraformABTester.success r = true
      end
  end.
Proof.
  unfold ABTests.test_startup_performance, bind, ret.
  match goal with
  | |- context [ABTests.measure_performance rss ?b w] =>
      pose proof (measure_performance_outcome rss b w) as Hm
  end.
  cbv beta in Hm.
  destruct (create_agent (ABTests.after_readings 1 w)) as [e|agent].
  - rewrite Hm. reflexivity.
  - destruct (find_symbol agent (ABTests.after_readings 1 w) "terraform" true)
      as [e|result].
    + rewrite Hm. reflexivity.
    + destruct Hm as (m & -> & _). eexists. eexists.
      split; [reflexivity|]. split; reflexivity.
Qed.

(** X25: no test of a run is guarded, and the first exception ends the run.
    [run_all_tests] raises when the operating system refuses the writing of
    the test files, when the agent of one of the three tests cannot be made,
    and when the search of the startup test raises, each time with the
    exception of that call; the searches of the other two tests never make
    it raise.  In every other case it returns an analysis with the three
    verdicts, the one on error detection being [needs_baseline].  The
    three agents are made after one, three and five readings of the
    clock. *)
Theorem run_all_tests_first_exception (ws a b c d : string)
    (refused : string -> World -> option Exn) (create_agent : AgentFactory)
    (rss : World -> Z) (get_name_path : string -> string) (w : World) :
  let run :=
    (ABTests.run_all_tests ws a b c d refused create_agent rss
       get_name_path w).1 in
  let w0 := (ABTests.create_test_terraform_files ws a b c d w).2 in
  match refused ws w with
  | Some e => run = inl e
  | None =>
      match create_agent (ABTests.after_readings 1 w0) with
      | inl e => run = inl e
      | inr _ =>
          match create_agent (ABTests.after_readings 3 w0) with
          | inl e => run = inl e
          | inr _ =>
              match create_agent (ABTests.after_readings 5 w0) with
              | inl e => run = inl e
              | inr agent =>
                  match find_symbol agent (ABTests.after_readings 5 w0)
                          "terraform" true with
                  | inl e => run = inl e
                  | inr _ =>
                      exists analysis,
                        run = inr analysis
                        /\ dom (TerraformABTester.claims_validation analysis)
                           = {[ "quality"; "error_detection"; "performance" ]}
                        /\ TerraformABTester.claims_validation analysis
                             !! "error_detection"
                           = Some (TerraformABTester.VStr "needs_baseline")
                  end
              end
          end
      end
  end.
Proof.
  intros run w0. subst run.
  unfold ABTests.run_all_tests, attempt, bind, ret.
  destruct (refused ws w) as [e|]; [reflexivity|]. cbn [fst snd]. fold w0.
  pose proof (test_semantic_edit_quality_result create_agent rss
                get_name_path true w0) as H1.
  destruct (create_agent (ABTests.after_readings 1 w0)) as [e|a1];
    [rewrite H1; reflexivity|].
  cbv zeta in H1. destruct H1 as (r1 & -> & Hn1 & _).
  pose proof (test_error_detection_confidence_result create_agent rss true
                (ABTests.after_readings 2 w0)) as H2.
  change (ABTests.after_readings 1 (ABTests.after_readings 2 w0))
    with (ABTests.after_readings 3 w0) in H2.
  destruct (create_agent (ABTests.after_readings 3 w0)) as [e|a2];
    [rewrite H2; reflexivity|].
  destruct H2 as (r2 & found & -> & Hn2 & _).
  pose proof (test_startup_performance_result create_agent rss true
                (ABTests.after_readings 2 (ABTests.after_readings 2 w0)))
    as H3.
  change (ABTests.after_readings 1
            (ABTests.after_readings 2 (ABTests.after_readings 2 w0)))
    with (ABTests.after_readings 5 w0) in H3.
  destruct (create_agent (ABTests.after_readings 5 w0)) as [e|a3];
    [rewrite H3; reflexivity|].
  destruct (find_symbol a3 (ABTests.after_readings 5 w0) "terraform" true)
    as [e|result]; [rewrite H3; reflexivity|].
  destruct H3 as (r3 & d3 & -> & Hn3 & _).
  eexists. split; [reflexivity|].
  assert (Hq := analyze_results_quality [r1; r2; r3]).
  assert (He := analyze_results_error_detection [r1; r2; r3]).
  assert (Hp := analyze_results_performance [r1; r2; r3]).
  assert (Ho := analyze_results_other_key [r1; r2; r3]).
  unfold TerraformABTester.by_name in Hq, He, Hp.
  cbn [List.filter] in Hq, He, Hp. rewrite Hn1, Hn2, Hn3 in Hq, He, Hp.
  vm_compute String.eqb in Hq, He, Hp. cbv iota in Hq, He, Hp.
  split; [|exact He].
  apply set_eq. intros k. rewrite elem_of_dom.
  rewrite !elem_of_union, !elem_of_singleton.
  destruct (decide (k = "quality")) as [->|H1];
    [rewrite Hq; split; [tauto|eauto]|].
  destruct (decide (k = "error_detection")) as [->|H2];
    [rewrite He; split; [tauto|eauto]|].
  destruct (decide (k = "performance")) as [->|H3];
    [rewrite Hp; split; [tauto|eauto]|].
  rewrite (Ho k H1 H2 H3). split; [intros [x Hx]; discriminate|tauto].
Qed.

(** ** The runner of the test suite *)

Lemma run_test_fields (os_system : World -> string -> Exn + Z)
    (test_file test_name : string) (w : World) :
  let r := (RunAllTests.run_test os_system test_file test_name w).1 in
  let command :=
    "cd /Users/yen/fork_repo/serena/terraform_lsp_benchmarks && python "
      +:+ test_file in
  RunAllTests.test r = test_name /\ RunAllTests.file r = test_file
  /\ match os_system (ABTests.after_readings 1 w) command with
     | inr status =>
         RunAllTests.success r = (status =? 0)
         /\ RunAllTests.error r = None
     | inl e =>
         RunAllTests.success r = false
         /\ RunAllTests.error r = Some (str_exn e)
     end.
Proof.
  unfold RunAllTests.run_test, bind, get_world, ret, time_time.
  change (mkWorld (fs w) (dirs w) (clock w) (S (readings w)))
    with (ABTests.after_readings 1 w).
  destruct (os_system _ _) as [e|status]; cbn; repeat split.
Qed.

Lemma run_test_world (os_system : World -> string -> Exn + Z)
    (test_file test_name : string) (w : World) :
  (RunAllTests.run_test os_system test_file test_name w).2
  = ABTests.after_readings 2 w.
Proof.
  unfold RunAllTests.run_test, bind, get_world, ret, time_time. cbn.
  destruct (os_system _ _); reflexivity.
Qed.

(** One test of the loop of [main]: its result is set apart, with what
    [run_test_fields] says of it, and the world moves on by two readings. *)
Ltac run_one_test os_system :=
  match goal with
  | |- context [RunAllTests.run_test os_system ?f ?n ?w0] =>
      let q := fresh "q" in
      let u := fresh "u" in
      let E := fresh "E" in
      let W := fresh "W" in
      let F := fresh "F" in
      pose proof (run_test_world os_system f n w0) as W;
      pose proof (run_test_fields os_system f n w0) as F;
      cbv zeta in F;
      destruct (RunAllTests.run_test os_system f n w0) as [q u] eqn:E;
      cbn [fst snd] in W, F; subst u; clear E
  end.

(** X27: what the runner of the suite records and returns.  Each of the
    four tests is recorded under its name and file, in the order of the
    list: as a success exactly when its command returned the status 0, and
    as a failure with the message of the exception when [os.system] raised;
    no test stops the run.  The summary is then saved, without a guard:
    [main] raises when the operating system refuses that, and otherwise
    leaves the summary of the four results in the file and returns the
    exit status, which is 0 exactly when each of the four commands returned
    0, and 1 otherwise.  The command of the test [i] runs after [2 i + 2]
    readings of the clock, the summary is saved after eleven. *)
Theorem runner_exit_status (os_system : World -> string -> Exn + Z)
    (refused : string -> World -> option Exn)
    (json_dumps : RunAllTests.Summary -> string) (w : World) :
  let run := RunAllTests.main os_system refused json_dumps w in
  let outcome (i : nat) (t : string * string) :=
    os_system (ABTests.after_readings (2 * i + 2) w)
      ("cd /Users/yen/fork_repo/serena/terraform_lsp_benchmarks && python "
         +:+ t.1) in
  exists results,
    (forall i t,
        RunAllTests.tests !! i = Some t ->
        exists r,
          results !! i = Some r
          /\ RunAllTests.test r = t.2 /\ RunAllTests.file r = t.1
          /\ match outcome i t with
             | inr status =>
                 RunAllTests.success r = (status =? 0)
                 /\ RunAllTests.error r = None
             | inl e =>
                 RunAllTests.success r = false
                 /\ RunAllTests.error r = Some (str_exn e)
             end)
    /\ length results = 4%nat
    /\ match refused "results" (ABTests.after_readings 11 w) with
       | Some e => run.1 = inl e
       | None =>
           exists summary status,
             run.1 = inr (summary, status)
             /\ RunAllTests.test_results summary = results
             /\ RunAllTests.total_tests summary = 4%nat
             /\ RunAllTests.successful_tests summary
                = length (List.filter RunAllTests.success results)
             /\ RunAllTests.success_rate summary
                = (py_div (Z.of_nat (RunAllTests.successful_tests summary)) 4
                   * Qc_of_Z 100)%Qc
             /\ (status = 0
                 <-> forall i t, RunAllTests.tests !! i = Some t ->
                                 outcome i t = inr 0)
             /\ (status = 0 \/ status = 1)
             /\ fs (snd run)
                  !! path_join "results" "test_suite_summary.json"
                = Some (Readable (json_dumps summary))
       end.
Proof.
  intros run outcome. subst run.
  unfold RunAllTests.main, RunAllTests.tests.
  cbn [for_each fst snd]. unfold bind, ret.
  change (time_time w) with (clock w (readings w), ABTests.after_readings 1 w).
  cbv iota beta.
  do 4 run_one_test os_system.
  destruct F as (Fn0 & Ff0 & Fo0), F0 as (Fn1 & Ff1 & Fo1),
    F1 as (Fn2 & Ff2 & Fo2), F2 as (Fn3 & Ff3 & Fo3).
  exists [q; q0; q1; q2].
  split.
  { intros i t Hi.
    destruct i as [|[|[|[|i]]]]; cbn in Hi; try discriminate;
      injection Hi as <-; eexists; (split; [reflexivity|]);
      (split; [assumption|]); (split; [assumption|]); assumption. }
  split; [reflexivity|].
  assert (Hall : (forall i t,
                     [("ab_tests/semantic_quality_test.py",
                       "Semantic Quality Test");
                      ("ab_tests/error_detection_test.py",
                       "Error Detection Test");
                      ("token_benchmarks/token_benchmark_terraform.py",
                       "Token Usage Benchmark");
                      ("ab_tests/comprehensive_ab_test.py",
                       "Comprehensive A/B Test")] !! i = Some t ->
                     outcome i t = inr 0)
                 <-> Forall (fun r => RunAllTests.success r = true)
                       [q; q0; q1; q2]).
  { split.
    - intros H.
      pose proof (H 0%nat _ eq_refl) as H0. pose proof (H 1%nat _ eq_refl) as H1.
      pose proof (H 2%nat _ eq_refl) as H2. pose proof (H 3%nat _ eq_refl) as H3.
      unfold outcome in H0, H1, H2, H3. cbn [fst] in H0, H1, H2, H3.
      change (2 * 0 + 2)%nat with 2%nat in H0.
      change (2 * 1 + 2)%nat with 4%nat in H1.
      change (2 * 2 + 2)%nat with 6%nat in H2.
      change (2 * 3 + 2)%nat with 8%nat in H3.
      repeat constructor.
      + change (ABTests.after_readings 1 (ABTests.after_readings 1 w))
          with (ABTests.after_readings 2 w) in Fo0.
        rewrite H0 in Fo0. apply Fo0.
      + change (ABTests.after_readings 1
                  (ABTests.after_readings 2 (ABTests.after_readings 1 w)))
          with (ABTests.after_readings 4 w) in Fo1.
        rewrite H1 in Fo1. apply Fo1.
      + change (ABTests.after_readings 1
                  (ABTests.after_readings 2
                     (ABTests.after_readings 2 (ABTests.after_readings 1 w))))
          with (ABTests.after_readings 6 w) in Fo2.
        rewrite H2 in Fo2. apply Fo2.
      + change (ABTests.after_readings 1
                  (ABTests.after_readings 2
                     (ABTests.after_readings 2
                        (ABTests.after_readings 2
                           (ABTests.after_readings 1 w)))))
          with (ABTests.after_readings 8 w) in Fo3.
        rewrite H3 in Fo3. apply Fo3.
    - intros H i t Hi.
      inversion H as [|? ? S0 H']; subst. inversion H' as [|? ? S1 H'']; subst.
      inversion H'' as [|? ? S2 H''']; subst.
      inversion H''' as [|? ? S3 _]; subst.
      assert (Hzero : forall (o : Exn + Z) (r : RunAllTests.TestRun),
                 RunAllTests.success r = true ->
                 match o with
                 | inl e =>
                     RunAllTests.success r = false
                     /\ RunAllTests.error r = Some (str_exn e)
                 | inr status =>
                     RunAllTests.success r = (status =? 0)
                     /\ RunAllTests.error r = None
                 end -> o = inr 0).
      { intros [e|status] r Hs [Hr _]; [congruence|].
        rewrite Hs in Hr. symmetry in Hr. apply Z.eqb_eq in Hr.
        subst. reflexivity. }
      destruct i as [|[|[|[|i]]]]; cbn in Hi; try discriminate;
        injection Hi as <-.
      + exact (Hzero _ q S0 Fo0).
      + exact (Hzero _ q0 S1 Fo1).
      + exact (Hzero _ q1 S2 Fo2).
      + exact (Hzero _ q2 S3 Fo3). }
  clearbody outcome. clear Fo0 Fo1 Fo2 Fo3.
  unfold time_time, py_truediv, RunAllTests.save_summary, attempt,
    ABTests.after_readings.
  cbn [fs dirs clock readings Nat.add length Z.of_nat Pos.of_succ_nat
         Pos.succ Z.eqb].
  change (Z.of_nat 4 =? 0) with false. cbv iota beta.
  cbn [fs dirs clock readings].
  destruct (refused "results" _) as [e|]; [reflexivity|].
  eexists. eexists. split; [reflexivity|].
  cbn [fst snd RunAllTests.test_results RunAllTests.total_tests
         RunAllTests.successful_tests RunAllTests.success_rate].
  split; [reflexivity|]. split; [reflexivity|]. split; [reflexivity|].
  split; [reflexivity|].
  pose proof (filter_length_all RunAllTests.success [q; q0; q1; q2]) as Hlen.
  change (length [q; q0; q1; q2]) with 4%nat in Hlen.
  split; [|split].
  - rewrite Hall, <- Hlen.
    destruct (Nat.eqb_spec
                (length (List.filter RunAllTests.success [q; q0; q1; q2])) 4);
      split; intros; try assumption; try reflexivity; try discriminate;
      contradiction.
  - destruct (_ =? _)%nat; [left|right]; reflexivity.
  - unfold bind, makedirs, write_file, set_fs. cbn [fst snd fs].
    apply lookup_insert_eq.
Qed.

